(** * AWS-ETL-PIPELINE: the synthetic-transaction generator and the
      S3-triggered transform-and-load handler

    A shallow embedding of [src/s3_uploader.py] and [src/lambda_function.py].

    - Python [str] values are [string]s; the text helpers ([str.startswith],
      [str.replace], [str.strip], [str.title]) are written out on the
      characters of the ASCII range. White space and letter case beyond
      that range follow the Unicode tables, which are not written out
      here: what is proved of [strip] and [title] is proved of ASCII text
      ([PyStr.isascii]).
    - A pandas row is a dictionary from column names to cells; a DataFrame
      is its column list and its rows.
    - [boto3], [psycopg2], the CSV and JSON codecs, the clock and the
      [random] module are collaborators: the functions take what they answer
      as arguments, and record what they are asked in an action trace.
    - Exceptions are the left summand of [result]. *)

From Stdlib Require Import ZArith QArith Qabs Lia Bool.
From Stdlib Require Import Strings.Ascii Strings.String.
From stdpp Require Import gmap strings list fin_maps.

Open Scope stdpp_scope.

(** ** Python text primitives *)

Module PyStr.

(** [s.startswith(p)] *)
Definition startswith (s p : string) : bool := String.prefix p s.

Fixpoint repeat_char (c : ascii) (n : nat) : string :=
  match n with
  | O => EmptyString
  | S k => String c (repeat_char c k)
  end.

(** The character of a decimal digit and back *)
Definition digit_char (d : nat) : ascii := ascii_of_nat (48 + d).

Definition digit_value (c : ascii) : option nat :=
  let n := nat_of_ascii c in
  if (48 <=? n) && (n <=? 57) then Some (n - 48) else None.

(** [str(n)] for a non-negative [int]: the digits of [n] from the last
    to the first, each put in front of those already written. *)
Fixpoint str_nat_from (fuel n : nat) (written : string) : string :=
  match fuel with
  | O => written
  | S fuel' =>
      let written' := String (digit_char (n mod 10)) written in
      if n / 10 =? 0 then written' else str_nat_from fuel' (n / 10) written'
  end.

Definition str_nat (n : nat) : string := str_nat_from (S n) n EmptyString.

(** [int(s)] for a string of decimal digits; [None] stands for
    [ValueError]. *)
Fixpoint int_from (value : nat) (s : string) : option nat :=
  match s with
  | EmptyString => Some value
  | String c rest =>
      match digit_value c with
      | Some d => int_from (10 * value + d) rest
      | None => None
      end
  end.

Definition int_of (s : string) : option nat :=
  match s with
  | EmptyString => None
  | _ => int_from 0 s
  end.

(** [s.zfill(w)] on a digit string *)
Definition zfill (w : nat) (s : string) : string :=
  repeat_char "0"%char (w - String.length s) +:+ s.

(** The format spec [{n:0wd}] and the zero-padded fields of [strftime]:
    at least [w] digits, more when [n] needs them. *)
Definition fmt_0d (w n : nat) : string := zfill w (str_nat n).

(** [s.replace(old, new)] for a non-empty [old]: a left-to-right scan
    that replaces every non-overlapping occurrence. [skip] counts the
    characters of a matched occurrence that are still to be passed over. *)
Fixpoint replace_from (old new : string) (skip : nat) (s : string) : string :=
  match s with
  | EmptyString => EmptyString
  | String c rest =>
      match skip with
      | S k => replace_from old new k rest
      | O =>
          if String.prefix old s
          then new +:+ replace_from old new (String.length old - 1) rest
          else String c (replace_from old new 0 rest)
      end
  end.

Definition replace (s old new : string) : string := replace_from old new 0 s.

(** [old in s] *)
Fixpoint contains (old s : string) : bool :=
  String.prefix old s ||
  match s with
  | EmptyString => false
  | String _ rest => contains old rest
  end.

(** The positions at which [old] occurs in [s], counted from [i]. *)
Fixpoint find_all_from (old : string) (i : nat) (s : string) : list nat :=
  (if String.prefix old s then [i] else []) ++
  match s with
  | EmptyString => []
  | String _ rest => find_all_from old (S i) rest
  end.

Definition find_all (old s : string) : list nat := find_all_from old 0 s.

(** [s.isascii()]: every character is below 128. *)
Fixpoint isascii (s : string) : bool :=
  match s with
  | EmptyString => true
  | String c rest => (nat_of_ascii c <? 128) && isascii rest
  end.

(** [c.isspace()] on the ASCII range: TAB..CR, FS..US and the space. *)
Definition isspace (c : ascii) : bool :=
  let n := nat_of_ascii c in
  ((9 <=? n) && (n <=? 13)) || ((28 <=? n) && (n <=? 32)).

Definition islower (c : ascii) : bool :=
  let n := nat_of_ascii c in (97 <=? n) && (n <=? 122).

Definition isupper (c : ascii) : bool :=
  let n := nat_of_ascii c in (65 <=? n) && (n <=? 90).

Definition toupper (c : ascii) : ascii :=
  if islower c then ascii_of_nat (nat_of_ascii c - 32) else c.

Definition tolower (c : ascii) : ascii :=
  if isupper c then ascii_of_nat (nat_of_ascii c + 32) else c.

Fixpoint lstrip (s : string) : string :=
  match s with
  | EmptyString => EmptyString
  | String c rest => if isspace c then lstrip rest else s
  end.

(** [rstrip] keeps a character when it is not a space or when something
    is left after it. *)
Fixpoint rstrip (s : string) : string :=
  match s with
  | EmptyString => EmptyString
  | String c rest =>
      match rstrip rest with
      | EmptyString => if isspace c then EmptyString else String c EmptyString
      | kept => String c kept
      end
  end.

(** [s.strip()] *)
Definition strip (s : string) : string := rstrip (lstrip s).

(** [s.title()]: a cased character is upper-cased after an uncased one
    (or at the start) and lower-cased after a cased one. *)
Fixpoint title_from (prev_cased : bool) (s : string) : string :=
  match s with
  | EmptyString => EmptyString
  | String c rest =>
      if islower c then
        String (if prev_cased then c else toupper c) (title_from true rest)
      else if isupper c then
        String (if prev_cased then tolower c else c) (title_from true rest)
      else String c (title_from false rest)
  end.

Definition title (s : string) : string := title_from false s.

End PyStr.

(** ** [datetime] values

    The fields of a Python [datetime]; [MINYEAR = 1], [MAXYEAR = 9999]. *)

Record datetime := mk_datetime {
  year : nat; month : nat; day : nat;
  hour : nat; minute : nat; second : nat; microsecond : nat
}.

Module PyTime.

Definition MAXYEAR : nat := 9999.

Definition is_leap (y : nat) : bool :=
  Nat.eqb (y mod 4) 0 && (negb (Nat.eqb (y mod 100) 0) || Nat.eqb (y mod 400) 0).

Definition days_in_month (y m : nat) : nat :=
  match m with
  | 2 => if is_leap y then 29 else 28
  | 4 | 6 | 9 | 11 => 30
  | _ => 31
  end.

(** What the [datetime] constructor accepts. *)
Definition valid (t : datetime) : bool :=
  Nat.leb 1 (year t) && Nat.leb (year t) MAXYEAR &&
  Nat.leb 1 (month t) && Nat.leb (month t) 12 &&
  Nat.leb 1 (day t) && Nat.leb (day t) (days_in_month (year t) (month t)) &&
  Nat.ltb (hour t) 24 && Nat.ltb (minute t) 60 && Nat.ltb (second t) 60 &&
  Nat.ltb (microsecond t) 1000000.

(** The calendar day after [(y, m, d)]; nothing follows 9999-12-31
    (Python raises [OverflowError]: date value out of range). *)
Definition next_day (ymd : nat * nat * nat) : option (nat * nat * nat) :=
  let '(y, m, d) := ymd in
  if Nat.ltb d (days_in_month y m) then Some (y, m, S d)
  else if Nat.ltb m 12 then Some (y, S m, 1)
  else if Nat.ltb y MAXYEAR then Some (S y, 1, 1)
  else None.

Fixpoint add_days (n : nat) (ymd : nat * nat * nat) : option (nat * nat * nat) :=
  match n with
  | O => Some ymd
  | S k =>
      match next_day ymd with
      | Some ymd' => add_days k ymd'
      | None => None
      end
  end.

(** [t + timedelta(hours=h, minutes=m)] for non-negative [h] and [m]. *)
Definition add_timedelta (t : datetime) (h m : nat) : option datetime :=
  let mins := hour t * 60 + minute t + h * 60 + m in
  match add_days (mins / 1440) (year t, month t, day t) with
  | Some (y, mo, d) =>
      Some {| year := y; month := mo; day := d;
              hour := (mins mod 1440) / 60; minute := (mins mod 1440) mod 60;
              second := second t; microsecond := microsecond t |}
  | None => None
  end.

(** [t.strftime('%Y')] is the ['%Y'] of the C library: glibc prints the
    year as a decimal number without padding, 999 for the year 999. *)
Definition fmt_Y (t : datetime) : string := PyStr.str_nat (year t).
(** ['%m'], ['%d'], ['%H'], ['%M'], ['%S']: two digits, zero-padded. *)
Definition fmt_m (t : datetime) : string := PyStr.fmt_0d 2 (month t).
Definition fmt_d (t : datetime) : string := PyStr.fmt_0d 2 (day t).
Definition fmt_H (t : datetime) : string := PyStr.fmt_0d 2 (hour t).
Definition fmt_M (t : datetime) : string := PyStr.fmt_0d 2 (minute t).
Definition fmt_S (t : datetime) : string := PyStr.fmt_0d 2 (second t).

(** [t.strftime('%Y%m%d')] *)
Definition strftime_Ymd (t : datetime) : string :=
  fmt_Y t +:+ fmt_m t +:+ fmt_d t.

(** [t.strftime('%Y-%m-%d')] *)
Definition strftime_date (t : datetime) : string :=
  fmt_Y t +:+ "-" +:+ fmt_m t +:+ "-" +:+ fmt_d t.

(** [t.strftime('%Y-%m-%d %H:%M:%S')] *)
Definition strftime_datetime (t : datetime) : string :=
  strftime_date t +:+ " " +:+ fmt_H t +:+ ":" +:+ fmt_M t +:+ ":" +:+ fmt_S t.

(** [t.date().isoformat()]: ['%04d-%02d-%02d'], written by the
    interpreter itself, the year padded to four digits. *)
Definition iso_date (t : datetime) : string :=
  PyStr.fmt_0d 4 (year t) +:+ "-" +:+ fmt_m t +:+ "-" +:+ fmt_d t.

(** Days from 0001-01-01 (ordinal 1) to the day of [t]. *)
Definition days_before_year (y : nat) : nat :=
  let p := y - 1 in p * 365 + p / 4 - p / 100 + p / 400.

Fixpoint days_before_month (y m : nat) : nat :=
  match m with
  | O => 0
  | S k => match k with
           | O => 0
           | _ => days_before_month y k + days_in_month y k
           end
  end.

Definition toordinal (t : datetime) : nat :=
  days_before_year (year t) + days_before_month (year t) (month t) + day t.

(** [t.weekday()]: Monday is 0. *)
Definition weekday (t : datetime) : nat := (toordinal t + 6) mod 7.

Definition day_name (t : datetime) : string :=
  match weekday t with
  | 0 => "Monday" | 1 => "Tuesday" | 2 => "Wednesday" | 3 => "Thursday"
  | 4 => "Friday" | 5 => "Saturday" | _ => "Sunday"
  end.

End PyTime.

Definition midnight (y m d : nat) : datetime := mk_datetime y m d 0 0 0 0.

(** ** Exceptions *)

Inductive exn :=
| KeyError (missing : list string)
| IndexError
| OverflowError
| ClientError (msg : string)      (* raised by the object store *)
| ParserError (msg : string)      (* raised by [pd.read_csv] *)
| DatabaseError (msg : string).   (* raised by the warehouse driver *)

Definition result (A : Type) : Type := exn + A.

(** ** Numbers and cells

    A numeric cell holds an [int64] or a [float64]: a rational or an
    infinity. NaN is the missing cell [NA]. Comparing a double with the
    integers 25, 100 and 500 is exact, so the rationals decide it. *)

Inductive number :=
| Fin (q : Q)
| Inf (negative : bool).

Inductive cell :=
| NA                       (* NaN, None, NaT *)
| Num (x : number)
| Str (s : string)
| Time (t : datetime).

Definition isna (c : cell) : bool :=
  match c with NA => true | _ => false end.

Definition number_abs (x : number) : number :=
  match x with
  | Fin q => Fin (Qabs q)
  | Inf _ => Inf false
  end.

(** [x < n] for an integer literal [n] *)
Definition number_ltb (x : number) (n : Z) : bool :=
  match x with
  | Fin q => negb (Qle_bool (inject_Z n) q)
  | Inf negative => negative
  end.

(** [x < n] as a proposition *)
Definition number_lt (x : number) (n : Z) : Prop :=
  match x with
  | Fin q => (q < inject_Z n)%Q
  | Inf negative => negative = true
  end.

Definition number_ge (x : number) (n : Z) : Prop :=
  match x with
  | Fin q => (inject_Z n <= q)%Q
  | Inf negative => negative = false
  end.

(** The least [int64], -2^63: its negation is not an [int64]. *)
Definition INT64_MIN : Q := inject_Z (- 2 ^ 63).

Definition is_int64_min (x : number) : bool :=
  match x with
  | Fin q => Qeq_bool q INT64_MIN
  | Inf _ => false
  end.

(** A row: column name to cell. A column that the row does not carry reads
    as missing. *)
Definition get (r : gmap string cell) (col : string) : cell :=
  default NA (r !! col).

Record DataFrame := mk_df {
  columns : list string;
  rows : list (gmap string cell)
}.

Definition has_column (col : string) (df : DataFrame) : bool :=
  bool_decide (col ∈ columns df).

(** The elements of [df[col]] *)
Definition column (col : string) (df : DataFrame) : list cell :=
  map (fun r => get r col) (rows df).

(** [df[col] = f(row)] for every row *)
Definition assign (col : string) (f : gmap string cell -> cell) (df : DataFrame)
  : DataFrame :=
  {| columns := if has_column col df then columns df else columns df ++ [col];
     rows := map (fun r => <[col := f r]> r) (rows df) |}.

(** [df.dropna(subset=cols)]: [KeyError] on a column that the frame does
    not have, otherwise the rows with no missing cell among [cols]. *)
Definition dropna (subset : list string) (df : DataFrame) : result DataFrame :=
  match List.filter (fun c => negb (has_column c df)) subset with
  | [] =>
      inr {| columns := columns df;
             rows := List.filter
                       (fun r => forallb (fun c => negb (isna (get r c))) subset)
                       (rows df) |}
  | missing => inl (KeyError missing)
  end.

(** ** [lambda_function.categorize_amount]

    The argument is an element of the numeric [amount] column: a number, or
    [None] for NaN. *)

Definition categorize_amount (amount : option number) : string :=
  match amount with
  | None => "unknown"
  | Some x =>
      let abs_amount := number_abs x in
      if number_ltb abs_amount 25 then "small"
      else if number_ltb abs_amount 100 then "medium"
      else if number_ltb abs_amount 500 then "large"
      else "very_large"
  end.

(** ** [lambda_function.transform_data] *)

(** The element-wise conversions of pandas that the transform calls. *)
Record pandas_codec := {
  (* [pd.to_numeric] on a text cell; [None] when it does not parse *)
  parse_number : string -> option number;
  (* [pd.to_datetime] on a text cell and on a number *)
  parse_datetime : string -> option datetime;
  datetime_of_number : number -> option datetime;
  (* [pd.to_numeric] on a timestamp *)
  number_of_datetime : datetime -> number;
  (* [str(x)] of a number *)
  str_number : number -> string;
  (* whether pandas holds a numeric column with these elements as [int64]
     (else as [float64]) *)
  int64_column : list cell -> bool
}.

Section Transform.

Variable P : pandas_codec.
(** What [datetime.now()] answers when the transform stamps the rows. *)
Variable now : datetime.

(** [pd.to_numeric(_, errors='coerce')], one cell *)
Definition to_numeric (c : cell) : cell :=
  match c with
  | NA => NA
  | Num x => Num x
  | Str s => match parse_number P s with Some x => Num x | None => NA end
  | Time t => Num (number_of_datetime P t)
  end.

(** [pd.to_datetime(_, errors='coerce')], one cell *)
Definition to_datetime (c : cell) : cell :=
  match c with
  | NA => NA
  | Num x => match datetime_of_number P x with Some t => Time t | None => NA end
  | Str s => match parse_datetime P s with Some t => Time t | None => NA end
  | Time t => Time t
  end.

(** An element of a numeric column as [apply] hands it to its function.
    The column went through [to_numeric]: it holds no text and no
    timestamp (lemma [to_numeric_float]). *)
Definition float_of_cell (c : cell) : option number :=
  match c with
  | Num x => Some x
  | _ => None
  end.

(** [Series.abs()], one cell of a numeric column. In a [float64] column
    it is the magnitude; in an [int64] column numpy computes it in 64
    bits, where the negation of the least [int64] wraps around to itself. *)
Definition abs_cell (int64 : bool) (c : cell) : cell :=
  match c with
  | Num x => if int64 && is_int64_min x then Num x else Num (number_abs x)
  | _ => NA
  end.

(** [.dt.day_name()], [.dt.month], [.dt.year], one cell of a datetime
    column *)
Definition day_name_cell (c : cell) : cell :=
  match c with Time t => Str (PyTime.day_name t) | _ => NA end.
Definition month_cell (c : cell) : cell :=
  match c with Time t => Num (Fin (inject_Z (Z.of_nat (month t)))) | _ => NA end.
Definition year_cell (c : cell) : cell :=
  match c with Time t => Num (Fin (inject_Z (Z.of_nat (year t)))) | _ => NA end.

(** [.astype(str)], one cell: [str] of the element; NaN prints as
    ["nan"] (object-dtype columns, as [read_csv] makes them). *)
Definition astype_str (c : cell) : string :=
  match c with
  | NA => "nan"
  | Num x => str_number P x
  | Str s => s
  | Time t =>
      PyTime.iso_date t +:+ " " +:+
      PyTime.fmt_H t +:+ ":" +:+ PyTime.fmt_M t +:+ ":" +:+ PyTime.fmt_S t
  end.

(** [.astype(str).str.strip().str.title()], one cell *)
Definition clean_text (c : cell) : cell :=
  Str (PyStr.title (PyStr.strip (astype_str c))).

Definition text_columns : list string := ["description"; "category"; "location"].

(** The columns that [transform_data] assigns to. *)
Definition written_columns : list string :=
  ["amount"; "date"; "timestamp"; "processed_timestamp"; "processed_by";
   "amount_category"; "amount_abs"; "day_of_week"; "month"; "year";
   "description"; "category"; "location"].

Definition when_column (col : string) (f : DataFrame -> DataFrame)
    (df : DataFrame) : DataFrame :=
  if has_column col df then f df else df.

(** The body of [transform_data] after [dropna]. *)
Definition transform_kept (df : DataFrame) : DataFrame :=
  (* Data type conversions *)
  let df := when_column "amount"
              (assign "amount" (fun r => to_numeric (get r "amount"))) df in
  let df := when_column "date"
              (assign "date" (fun r => to_datetime (get r "date"))) df in
  let df := when_column "timestamp"
              (assign "timestamp" (fun r => to_datetime (get r "timestamp"))) df in
  (* Add processing metadata *)
  let df := assign "processed_timestamp" (fun _ => Time now) df in
  let df := assign "processed_by" (fun _ => Str "lambda-etl-pipeline") df in
  (* Business logic transformations *)
  let df := when_column "amount"
              (fun df =>
                 let df := assign "amount_category"
                             (fun r => Str (categorize_amount
                                              (float_of_cell (get r "amount")))) df in
                 let int64 := int64_column P (column "amount" df) in
                 assign "amount_abs" (fun r => abs_cell int64 (get r "amount")) df) df in
  (* Add day of week for time-based analysis *)
  let df := when_column "date"
              (fun df =>
                 let df := assign "day_of_week"
                             (fun r => day_name_cell (get r "date")) df in
                 let df := assign "month" (fun r => month_cell (get r "date")) df in
                 assign "year" (fun r => year_cell (get r "date")) df) df in
  (* Clean text fields *)
  fold_left
    (fun df col => when_column col (assign col (fun r => clean_text (get r col))) df)
    text_columns df.

Definition transform_data (df : DataFrame) : result DataFrame :=
  match dropna ["transaction_id"; "amount"] df with
  | inl e => inl e
  | inr kept => inr (transform_kept kept)
  end.

End Transform.

(** The rows that [dropna(subset=['transaction_id', 'amount'])] keeps and
    the rows that it drops. *)
Definition has_critical (r : gmap string cell) : bool :=
  negb (isna (get r "transaction_id")) && negb (isna (get r "amount")).

Definition lacks_critical (r : gmap string cell) : bool :=
  isna (get r "transaction_id") || isna (get r "amount").

(** What the specification asks of the transform on the frame [df]: it
    returns a frame whose rows are, in order, the rows of [df] that have
    both critical cells, each with the columns the transform does not
    assign left as they were, so that the row count is the input count
    less the number of rows lacking a critical cell. *)
Definition drops_exactly_missing (P : pandas_codec) (now : datetime)
    (df : DataFrame) : Prop :=
  exists out,
    transform_data P now df = inr out /\
    Forall2 (fun a r => forall c, c ∉ written_columns -> r !! c = a !! c)
            (List.filter has_critical (rows df)) (rows out) /\
    length (rows out)
      = length (rows df) - length (List.filter lacks_critical (rows df)) /\
    length (rows out) <= length (rows df).

(** ** [s3_uploader.S3DataUploader] *)

(** The [random] module: each call maps the generator state to a value and
    the next state. *)
Record random_source (G : Type) := {
  rand_random : G -> Q * G;                    (* [random.random()] *)
  rand_uniform : Q -> Q -> G -> Q * G;         (* [random.uniform(a, b)] *)
  rand_randint : nat -> nat -> G -> nat * G;   (* [random.randint(a, b)] *)
  rand_below : nat -> G -> nat * G             (* the index [random.choice] draws *)
}.
Arguments rand_random {G}.
Arguments rand_uniform {G}.
Arguments rand_randint {G}.
Arguments rand_below {G}.

(** What the library promises of [randint] and of the index of [choice]. *)
Record random_ok {G : Type} (R : random_source G) : Prop := {
  randint_range : forall a b g,
    a <= b -> a <= fst (rand_randint R a b g) <= b;
  below_range : forall n g, 0 < n -> fst (rand_below R n g) < n
}.

(** One request to [s3_client.put_object]. *)
Record put_request := mk_put {
  Bucket : string;
  Key : string;
  Body : string;
  ContentType : string;
  Metadata : list (string * string)
}.

(** [t.isoformat()] *)
Definition isoformat (t : datetime) : string :=
  PyTime.iso_date t +:+ "T" +:+
  PyTime.fmt_H t +:+ ":" +:+ PyTime.fmt_M t +:+ ":" +:+ PyTime.fmt_S t +:+
  (if Nat.eqb (microsecond t) 0 then "" else "." +:+ PyStr.fmt_0d 6 (microsecond t)).

Module Uploader.

(** One generated record (a [dict] of the list [data]). *)
Record transaction := mk_transaction {
  transaction_id : string;
  date : string;
  timestamp : string;
  amount : Q;
  category : string;
  description : string;
  transaction_type : string;
  account : string;
  location : string
}.

Definition income_categories : list (string * string) :=
  [("salary", "Monthly salary"); ("freelance", "Freelance project");
   ("investment", "Investment returns"); ("bonus", "Performance bonus")].

Definition expense_categories : list (string * string) :=
  [("food", "Groceries"); ("food", "Restaurant");
   ("transport", "Gas"); ("transport", "Public transport");
   ("utilities", "Electricity bill"); ("utilities", "Internet bill");
   ("entertainment", "Movie tickets"); ("entertainment", "Streaming service");
   ("shopping", "Clothing"); ("shopping", "Electronics");
   ("healthcare", "Doctor visit"); ("healthcare", "Pharmacy")].

Definition accounts : list string := ["checking"; "savings"; "credit_card"].

Definition locations : list string :=
  ["Online"; "New York"; "Los Angeles"; "Chicago"; "Houston"].

(** The double that the literal [0.3] denotes. *)
Definition float_0_3 : Q := 5404319552844595 # 18014398509481984.

Section Generator.

Context {G : Type}.
Variable R : random_source G.
(** [round(x, 2)] *)
Variable round2 : Q -> Q.

(** [random.choice(seq)]: [seq[i]] for the drawn index, [IndexError] when
    the index is outside the sequence. *)
Definition choice {A : Type} (seq : list A) (g : G) : result (A * G) :=
  let '(i, g') := rand_below R (length seq) g in
  match seq !! i with
  | Some x => inr (x, g')
  | None => inl IndexError
  end.

(** One pass through the body of the [for] loop: the record for index [i]
    and the generator state after it. *)
Definition generate_record (date : datetime) (i : nat) (g : G)
  : result (transaction * G) :=
  (* Random transaction type (70% expenses, 30% income) *)
  let '(u, g) := rand_random R g in
  let is_income := negb (Qle_bool float_0_3 u) in
  match choice (if is_income then income_categories else expense_categories) g with
  | inl e => inl e
  | inr ((category, description), g) =>
      let '(x, g) := (if is_income then rand_uniform R 500 5000 g
                      else rand_uniform R 10 500 g) in
      let amount := if is_income then round2 x else Qopp (round2 x) in
      (* Add some time variation within the day *)
      let '(hours, g) := rand_randint R 6 22 g in
      let '(minutes, g) := rand_randint R 0 59 g in
      match PyTime.add_timedelta date hours minutes with
      | None => inl OverflowError
      | Some transaction_time =>
          match choice accounts g with
          | inl e => inl e
          | inr (account, g) =>
              match choice locations g with
              | inl e => inl e
              | inr (location, g) =>
                  inr ({| transaction_id :=
                            "TXN_" +:+ PyTime.strftime_Ymd date +:+ "_" +:+
                            PyStr.fmt_0d 4 (i + 1);
                          date := PyTime.strftime_date transaction_time;
                          timestamp := PyTime.strftime_datetime transaction_time;
                          amount := amount;
                          category := category;
                          description := description;
                          transaction_type := if is_income then "income" else "expense";
                          account := account;
                          location := location |}, g)
              end
          end
      end
  end.

(** [for i in range(num_records)], from index [i] with [n] passes left. *)
Fixpoint generate_from (date : datetime) (i n : nat) (g : G)
  : result (list transaction) :=
  match n with
  | O => inr []
  | S k =>
      match generate_record date i g with
      | inl e => inl e
      | inr (r, g') =>
          match generate_from date (S i) k g' with
          | inl e => inl e
          | inr data => inr (r :: data)
          end
      end
  end.

(** [generate_sample_data(date, num_records)]; [now] is what
    [datetime.now()] answers when [date] is [None]. *)
Definition generate_sample_data (now : datetime) (date : option datetime)
    (num_records : nat) (g : G) : result (list transaction) :=
  let date := match date with None => now | Some d => d end in
  generate_from date 0 num_records g.

End Generator.

Section Upload.

Variable bucket_name : string.
(** [df.to_csv(index=False)] and [df.to_json(orient='records', ...)] *)
Variable to_csv : list transaction -> string.
Variable to_json : list transaction -> string.
(** What [put_object] answers: [None], or the exception it raises. *)
Variable put_object : put_request -> option exn.

(** [upload_csv_data(df, date, folder)]: the request sent to the store
    and the returned key. [now] answers the default date, [now'] the
    upload timestamp. *)
Definition upload_csv_request (now now' : datetime) (df : list transaction)
    (date : option datetime) (folder : string) : put_request :=
  let date := match date with None => now | Some d => d end in
  (* Create partitioned key structure *)
  let year := PyTime.fmt_Y date in
  let month := PyTime.fmt_m date in
  let day := PyTime.fmt_d date in
  let filename := "transactions-" +:+ PyTime.strftime_Ymd date +:+ ".csv" in
  let s3_key := folder +:+ "/year=" +:+ year +:+ "/month=" +:+ month +:+
                "/day=" +:+ day +:+ "/" +:+ filename in
  {| Bucket := bucket_name;
     Key := s3_key;
     Body := to_csv df;
     ContentType := "text/csv";
     Metadata := [("upload_timestamp", isoformat now');
                  ("record_count", PyStr.str_nat (length df));
                  ("data_date", PyTime.strftime_date date)] |}.

Definition upload_csv_data (now now' : datetime) (df : list transaction)
    (date : option datetime) (folder : string) : put_request * result string :=
  let req := upload_csv_request now now' df date folder in
  (req, match put_object req with
        | None => inr (Key req)
        | Some e => inl e
        end).

Definition upload_json_request (now now' : datetime) (df : list transaction)
    (date : option datetime) (folder : string) : put_request :=
  let date := match date with None => now | Some d => d end in
  (* Create partitioned key structure *)
  let year := PyTime.fmt_Y date in
  let month := PyTime.fmt_m date in
  let day := PyTime.fmt_d date in
  let filename := "transactions-" +:+ PyTime.strftime_Ymd date +:+ ".json" in
  let s3_key := folder +:+ "/year=" +:+ year +:+ "/month=" +:+ month +:+
                "/day=" +:+ day +:+ "/" +:+ filename in
  {| Bucket := bucket_name;
     Key := s3_key;
     Body := to_json df;
     ContentType := "application/json";
     Metadata := [("upload_timestamp", isoformat now');
                  ("record_count", PyStr.str_nat (length df));
                  ("data_date", PyTime.strftime_date date)] |}.

Definition upload_json_data (now now' : datetime) (df : list transaction)
    (date : option datetime) (folder : string) : put_request * result string :=
  let req := upload_json_request now now' df date folder in
  (req, match put_object req with
        | None => inr (Key req)
        | Some e => inl e
        end).

End Upload.

End Uploader.

(** ** The warehouse table [portfolio_transactions] *)

Global Instance Q_eq_dec : EqDecision Q.
Proof. solve_decision. Defined.
Global Instance datetime_eq_dec : EqDecision datetime.
Proof. solve_decision. Defined.
Global Instance number_eq_dec : EqDecision number.
Proof. solve_decision. Defined.
Global Instance cell_eq_dec : EqDecision cell.
Proof. solve_decision. Defined.

Module Warehouse.

(** One row of the table, in the column order of the [INSERT]. A value is
    what [row.get(col)] hands to the driver: [None] when the frame has no
    such column (SQL NULL), otherwise the cell. *)
Record wrow := mk_wrow {
  transaction_id : option cell;
  date : option cell;
  timestamp : option cell;
  amount : option cell;
  amount_abs : option cell;
  amount_category : option cell;
  category : option cell;
  description : option cell;
  transaction_type : option cell;
  account : option cell;
  location : option cell;
  day_of_week : option cell;
  month : option cell;
  year : option cell;
  processed_timestamp : option cell;
  processed_by : option cell;
  source_file : string
}.

(** The parameter tuple of [cursor.execute(insert_query, (...))]. *)
Definition of_row (row : gmap string cell) (source_file : string) : wrow :=
  {| transaction_id := row !! "transaction_id";
     date := row !! "date";
     timestamp := row !! "timestamp";
     amount := row !! "amount";
     amount_abs := row !! "amount_abs";
     amount_category := row !! "amount_category";
     category := row !! "category";
     description := row !! "description";
     transaction_type := row !! "transaction_type";
     account := row !! "account";
     location := row !! "location";
     day_of_week := row !! "day_of_week";
     month := row !! "month";
     year := row !! "year";
     processed_timestamp := row !! "processed_timestamp";
     processed_by := row !! "processed_by";
     source_file := source_file |}.

(** [DO UPDATE SET amount = EXCLUDED.amount,
                   processed_timestamp = EXCLUDED.processed_timestamp] *)
Definition do_update (existing excluded : wrow) : wrow :=
  {| transaction_id := transaction_id existing;
     date := date existing;
     timestamp := timestamp existing;
     amount := amount excluded;
     amount_abs := amount_abs existing;
     amount_category := amount_category existing;
     category := category existing;
     description := description existing;
     transaction_type := transaction_type existing;
     account := account existing;
     location := location existing;
     day_of_week := day_of_week existing;
     month := month existing;
     year := year existing;
     processed_timestamp := processed_timestamp excluded;
     processed_by := processed_by existing;
     source_file := source_file existing |}.

Definition same_key (a b : wrow) : bool :=
  bool_decide (transaction_id a = transaction_id b).

(** [INSERT INTO portfolio_transactions (...) VALUES (...)
     ON CONFLICT (transaction_id) DO UPDATE SET ...], one statement: the
    row is appended when no stored row has its [transaction_id], otherwise
    the stored row with that key is updated in place. *)
Definition upsert (table : list wrow) (r : wrow) : list wrow :=
  if existsb (same_key r) table
  then map (fun o => if same_key r o then do_update o r else o) table
  else table ++ [r].


(** The rows stored under a key. *)
Definition rows_with (k : option cell) (table : list wrow) : list wrow :=
  List.filter (fun o => bool_decide (transaction_id o = k)) table.

End Warehouse.

(** ** [lambda_function]: the handler and its stages *)

Inductive level := INFO | WARNING | ERROR.

(** The calls to [logger], with the values their messages interpolate. *)
Inductive log_message :=
| MsgStarted                                (* ETL Lambda function started *)
| MsgProcessingFile (bucket key : string)   (* Processing file: s3://.. *)
| MsgSkipping                               (* Skipping file - not in raw-data folder *)
| MsgNotConfigured                          (* Redshift not configured - skipping database load *)
| MsgProcessed (n : nat)                    (* Successfully processed n records *)
| MsgPipelineError (e : exn)                (* Error in ETL pipeline: .. *)
| MsgRead (n : nat)                         (* Successfully read n records from S3 *)
| MsgColumns (cols : list string)           (* Columns: [..] *)
| MsgReadError (e : exn)                    (* Error reading data from S3: .. *)
| MsgTransformStart                         (* Starting data transformations *)
| MsgRemoved (n : nat)                      (* Removed n rows with missing critical data *)
| MsgTransformDone (n : nat)                (* Transformations completed. .. *)
| MsgTransformError (e : exn)               (* Error in data transformation: .. *)
| MsgLoading                                (* Loading data to Redshift *)
| MsgTableVerified                          (* Table created/verified *)
| MsgRowFailed (id : option cell) (e : exn) (* Failed to insert row ..: .. *)
| MsgLoaded (n : nat)                       (* Successfully loaded n records to Redshift *)
| MsgLoadError (e : exn)                    (* Error loading to Redshift: .. *)
| MsgSaving                                 (* Saving processed data to S3 *)
| MsgSaved (bucket key : string)            (* Processed data saved to: s3://.. *)
| MsgSaveError (e : exn).                   (* Error saving processed data: .. *)

(** What the handler does to the outside, in order: a call to the store
    or to the warehouse is recorded when it is made, whatever it answers;
    a row's statement is recorded when the driver accepts it. The cursor
    is an object of the driver: making and closing it reaches nobody. *)
Inductive action :=
| Log (l : level) (m : log_message)
| S3GetObject (bucket key : string)
| S3PutObject (req : put_request)
| DbConnect (host port database user password : string)
| DbCreateTable
| DbUpsert (r : Warehouse.wrow)
| DbCommit
| DbClose.

(** The collaborators of one invocation. *)
Record platform := {
  environ : gmap string string;                        (* [os.environ] *)
  s3_get_object : string -> string -> result string;   (* body, decoded as UTF-8 *)
  pd_read_csv : string -> result DataFrame;
  pd : pandas_codec;
  now_transform : datetime;      (* [datetime.now()] in [transform_data] *)
  now_save : datetime;           (* [datetime.now()] in [save_processed_data] *)
  db_connect : option exn;       (* the exception [psycopg2.connect] raises, if any *)
  db_cursor : option exn;        (* .. [conn.cursor()] *)
  db_create_table : option exn;  (* .. [cursor.execute(create_table_query)] *)
  db_execute : Warehouse.wrow -> option exn;   (* .. the [INSERT] of a row *)
  db_commit : option exn;        (* .. [conn.commit()] *)
  db_cursor_close : option exn;  (* .. [cursor.close()] *)
  db_close : option exn;         (* .. [conn.close()] *)
  df_to_json : DataFrame -> string;
  s3_put_object : put_request -> option exn
}.

(** The state an invocation runs in: the warehouse table and the actions
    performed so far. *)
Record world := mk_world {
  warehouse : list Warehouse.wrow;
  trace : list action
}.

(** Computations that act on the world and may raise. *)
Definition M (A : Type) : Type := world -> world * result A.

Global Instance M_ret : MRet M := fun A (a : A) w => (w, inr a).
Global Instance M_bind : MBind M := fun A B (f : A -> M B) (m : M A) w =>
  match m w with
  | (w', inl e) => (w', inl e)
  | (w', inr a) => f a w'
  end.

Definition raise {A : Type} (e : exn) : M A := fun w => (w, inl e).

Definition emit (a : action) : M unit := fun w =>
  ({| warehouse := warehouse w; trace := trace w ++ [a] |}, inr tt).

Definition log (l : level) (m : log_message) : M unit := emit (Log l m).

(** [try: body except Exception as e: handler(e)] *)
Definition try_except {A : Type} (body : M A) (handler : exn -> M A) : M A :=
  fun w =>
    match body w with
    | (w', inl e) => handler e w'
    | done => done
    end.

Definition lift {A : Type} (r : result A) : M A :=
  match r with inl e => raise e | inr a => mret a end.

(** A call that returns nothing of interest: [None], or the exception it
    raises. *)
Definition answer (r : option exn) : M unit :=
  match r with Some e => raise e | None => mret tt end.

(** The table as the invocation finds it. *)
Definition stored_rows : M (list Warehouse.wrow) := fun w => (w, inr (warehouse w)).

(** A computation only adds to the trace. *)
Definition grows {A : Type} (m : M A) : Prop :=
  forall w, exists added, trace (fst (m w)) = trace w ++ added.

(** The actions on the object store and on the warehouse, as opposed to
    log lines. *)
Definition is_log (a : action) : bool :=
  match a with Log _ _ => true | _ => false end.

Definition is_warehouse_action (a : action) : bool :=
  match a with
  | DbConnect _ _ _ _ _ | DbCreateTable | DbUpsert _ | DbCommit | DbClose => true
  | _ => false
  end.

(** One element of [event['Records']]: the bucket name and the object key
    of its ['s3'] entry. *)
Record s3_record := mk_record {
  bucket : string;
  key : string
}.

Inductive body :=
| BodyText (s : string)
| BodyCompleted (records_processed : nat) (source_file : string)
| BodyError (error : exn) (source_file : string).

Record response := mk_response {
  statusCode : nat;
  response_body : body
}.

Definition required_vars : list string :=
  ["REDSHIFT_HOST"; "REDSHIFT_PORT"; "REDSHIFT_DB"; "REDSHIFT_USER";
   "REDSHIFT_PASSWORD"].

(** Truth value of [os.environ.get(var)]: an unset variable gives [None],
    a variable set to the empty string gives [''], both false. *)
Definition truthy (v : option string) : bool :=
  match v with
  | None => false
  | Some s => negb (String.eqb s "")
  end.

Definition is_redshift_configured (env : gmap string string) : bool :=
  forallb (fun var => truthy (env !! var)) required_vars.

(** [os.environ[var]] *)
Definition environ_item (env : gmap string string) (var : string) : M string :=
  match env !! var with
  | Some v => mret v
  | None => raise (KeyError [var])
  end.

Section Handler.

Variable Pl : platform.

Definition read_s3_data (bucket_name object_key : string) : M DataFrame :=
  try_except
    (_ ← emit (S3GetObject bucket_name object_key);
     data ← lift (s3_get_object Pl bucket_name object_key);
     df ← lift (pd_read_csv Pl data);
     _ ← log INFO (MsgRead (length (rows df)));
     _ ← log INFO (MsgColumns (columns df));
     mret df)
    (fun e => _ ← log ERROR (MsgReadError e); raise e).

(** [transform_data] with its log lines. *)
Definition transform_data_logged (df : DataFrame) : M DataFrame :=
  _ ← log INFO MsgTransformStart;
  try_except
    (kept ← lift (dropna ["transaction_id"; "amount"] df);
     _ ← log INFO (MsgRemoved (length (rows df) - length (rows kept)));
     let df_transformed := transform_kept (pd Pl) (now_transform Pl) kept in
     _ ← log INFO (MsgTransformDone (length (rows df_transformed)));
     mret df_transformed)
    (fun e => _ ← log ERROR (MsgTransformError e); raise e).

(** [cursor.execute(insert_query, ...)]: the statement reaches the table
    unless the driver raises. *)
Definition execute_upsert (r : Warehouse.wrow) : M unit := fun w =>
  match db_execute Pl r with
  | Some e => (w, inl e)
  | None =>
      ({| warehouse := Warehouse.upsert (warehouse w) r;
          trace := trace w ++ [DbUpsert r] |}, inr tt)
  end.

(** [for _, row in df.iterrows(): try: ... except: ... continue] *)
Fixpoint insert_rows (source_file : string) (rs : list (gmap string cell))
    (insert_count : nat) : M nat :=
  match rs with
  | [] => mret insert_count
  | row :: rest =>
      n ← try_except
            (_ ← execute_upsert (Warehouse.of_row row source_file);
             mret (insert_count + 1))
            (fun e =>
               _ ← log WARNING (MsgRowFailed (row !! "transaction_id") e);
               mret insert_count);
      insert_rows source_file rest n
  end.

(** [conn.commit()]: the statements of the transaction stay in the table
    once it returns; when it raises they are not committed, and the table
    is as the transaction [found] it. *)
Definition commit (found : list Warehouse.wrow) : M unit := fun w =>
  match db_commit Pl with
  | None => ({| warehouse := warehouse w; trace := trace w ++ [DbCommit] |}, inr tt)
  | Some e => ({| warehouse := found; trace := trace w ++ [DbCommit] |}, inl e)
  end.

Definition load_to_redshift (df : DataFrame) (source_file : string) : M unit :=
  _ ← log INFO MsgLoading;
  try_except
    (host ← environ_item (environ Pl) "REDSHIFT_HOST";
     port ← environ_item (environ Pl) "REDSHIFT_PORT";
     database ← environ_item (environ Pl) "REDSHIFT_DB";
     user ← environ_item (environ Pl) "REDSHIFT_USER";
     password ← environ_item (environ Pl) "REDSHIFT_PASSWORD";
     (* Connect to Redshift *)
     _ ← emit (DbConnect host port database user password);
     _ ← answer (db_connect Pl);
     _ ← answer (db_cursor Pl);
     found ← stored_rows;
     (* Create table if not exists *)
     _ ← emit DbCreateTable;
     _ ← answer (db_create_table Pl);
     _ ← log INFO MsgTableVerified;
     (* Insert data *)
     insert_count ← insert_rows source_file (rows df) 0;
     (* Commit changes *)
     _ ← commit found;
     _ ← answer (db_cursor_close Pl);
     _ ← emit DbClose;
     _ ← answer (db_close Pl);
     log INFO (MsgLoaded insert_count))
    (fun e => _ ← log ERROR (MsgLoadError e); raise e).

(** The key that [save_processed_data] writes to. *)
Definition processed_key (original_key : string) : string :=
  PyStr.replace (PyStr.replace original_key "raw-data" "processed-data")
                ".csv" ".json".

(** The arguments of [s3_client.put_object] in [save_processed_data]. *)
Definition save_request (bucket_name : string) (df : DataFrame)
    (original_key : string) : put_request :=
  let json_data := df_to_json Pl df in
  {| Bucket := bucket_name;
     Key := processed_key original_key;
     Body := json_data;
     ContentType := "application/json";
     Metadata := [("original_file", original_key);
                  ("processed_timestamp", isoformat (now_save Pl));
                  ("record_count", PyStr.str_nat (length (rows df)));
                  ("processing_stage", "transformed")] |}.

Definition save_processed_data (bucket_name : string) (df : DataFrame)
    (original_key : string) : M unit :=
  _ ← log INFO MsgSaving;
  try_except
    (let req := save_request bucket_name df original_key in
     _ ← emit (S3PutObject req);
     _ ← match s3_put_object Pl req with Some e => raise e | None => mret tt end;
     log INFO (MsgSaved bucket_name (processed_key original_key)))
    (fun e => _ ← log ERROR (MsgSaveError e); raise e).

(** The part of [lambda_handler] that runs once [object_key] is bound. *)
Definition process_object (bucket_name object_key : string) : M response :=
  _ ← log INFO (MsgProcessingFile bucket_name object_key);
  (* Only process files from raw-data folder *)
  if negb (PyStr.startswith object_key "raw-data/") then
    _ ← log INFO MsgSkipping;
    mret {| statusCode := 200;
            response_body := BodyText "File skipped - not in raw-data folder" |}
  else
    (* Read and transform data *)
    df ← read_s3_data bucket_name object_key;
    transformed_df ← transform_data_logged df;
    (* Load to Redshift (if configured) *)
    _ ← (if is_redshift_configured (environ Pl)
         then load_to_redshift transformed_df object_key
         else log INFO MsgNotConfigured);
    (* Save processed data back to S3 *)
    _ ← save_processed_data bucket_name transformed_df object_key;
    _ ← log INFO (MsgProcessed (length (rows transformed_df)));
    mret {| statusCode := 200;
            response_body := BodyCompleted (length (rows transformed_df)) object_key |}.

(** [lambda_handler(event, context)]: the response and the world after
    the invocation. *)
Definition lambda_handler (event : list s3_record) (w : world) : world * response :=
  let started := fst (log INFO MsgStarted w) in
  let failed (source_file : string) (e : exn) (w' : world) : world * response :=
    (fst (log ERROR (MsgPipelineError e) w'),
     {| statusCode := 500; response_body := BodyError e source_file |}) in
  match event with
  | [] => failed "unknown" IndexError started
  | s3_event :: _ =>
      match process_object (bucket s3_event) (key s3_event) started with
      | (w', inr resp) => (w', resp)
      | (w', inl e) => failed (key s3_event) e w'
      end
  end.

End Handler.

(** ** [s3_uploader]: the methods with their effects

    The methods of [S3DataUploader], [main] and [DailyDataGenerator] as
    they act on the state of the [random] module, on the clock and on the
    object store, and as they print. *)

Module Script.

(** The calendar day before [(y, m, d)]; nothing precedes 0001-01-01
    (Python raises [OverflowError]: date value out of range). *)
Definition prev_day (ymd : nat * nat * nat) : option (nat * nat * nat) :=
  let '(y, m, d) := ymd in
  if Nat.ltb 1 d then Some (y, m, d - 1)
  else if Nat.ltb 1 m then Some (y, m - 1, PyTime.days_in_month y (m - 1))
  else if Nat.ltb 1 y then Some (y - 1, 12, 31)
  else None.

Fixpoint sub_days (n : nat) (ymd : nat * nat * nat) : option (nat * nat * nat) :=
  match n with
  | O => Some ymd
  | S k =>
      match prev_day ymd with
      | Some ymd' => sub_days k ymd'
      | None => None
      end
  end.

(** [t - timedelta(days=n)] *)
Definition sub_timedelta_days (t : datetime) (n : nat) : option datetime :=
  match sub_days n (year t, month t, day t) with
  | Some (y, m, d) =>
      Some {| year := y; month := m; day := d;
              hour := hour t; minute := minute t;
              second := second t; microsecond := microsecond t |}
  | None => None
  end.

(** One element of [response['Contents']]. *)
Record s3_object := mk_object {
  object_key : string;
  object_size : nat;               (* ['Size'], in bytes *)
  last_modified : datetime
}.

(** What the store answers to the calls of the script: [None] when a call
    returns, the exception that it raises otherwise; for a listing, the
    ['Contents'] of the response when it has any. *)
Record s3_client := {
  head_bucket : string -> option exn;
  create_bucket : string -> option exn;
  put_object : put_request -> option exn;
  list_objects_v2 : string -> string -> result (option (list s3_object))
}.

(** The lines that the script prints, with the values they interpolate. *)
Inductive message :=
| BucketExists (bucket : string)          (* Bucket '..' already exists *)
| BucketCreated (bucket : string)         (* Created bucket '..' *)
| ErrorCreatingBucket (e : exn)           (* Error creating bucket: .. *)
| Uploaded (n : nat) (bucket key : string) (* Successfully uploaded n records to s3://../.. *)
| ErrorUploading (e : exn)                (* Error uploading to S3: .. *)
| GeneratingHistorical (days_back : nat)  (* Generating n days of historical data... *)
| ProcessedDays (done days_back : nat)    (* Processed i/n days... *)
| HistoricalComplete                      (* Historical data upload complete! *)
| FilesIn (bucket prefix : string)        (* Files in s3://../..: *)
| FileLine (key : string) (size_mb : Q) (modified : datetime)
| NoFilesFound (bucket prefix : string)   (* No files found in s3://../.. *)
| ErrorListing (e : exn)                  (* Error listing files: .. *)
| StartingUpload                          (* Starting S3 Data Upload Process... *)
| GeneratingToday                         (* Generating today's data... *)
| GeneratedToday (n : nat)                (* Generated n records for today *)
| SampleData                              (* Sample data: *)
| DataHead (head : list Uploader.transaction)  (* today_data.head() *)
| UploadCompleted                         (* Upload process completed! *)
| DataUploadedTo (bucket : string)        (* Data uploaded to bucket: .. *)
| ShouldTrigger                           (* This should trigger your Lambda function .. *)
| DailySuccessful (key : string)          (* Daily upload successful: .. *)
| DailyFailed (e : exn).                  (* Daily upload failed: .. *)

(** What the script does to the outside, in order. *)
Inductive call :=
| Print (m : message)
| HeadBucket (bucket : string)
| CreateBucket (bucket : string)
| PutObject (req : put_request)
| ListObjectsV2 (bucket prefix : string).

(** The state of a run: the state of the [random] module, the number of
    clock readings taken, and the calls made so far. *)
Record state (G : Type) := mk_state {
  rng : G;
  ticks : nat;
  calls : list call
}.
Arguments mk_state {G}.
Arguments rng {G}.
Arguments ticks {G}.
Arguments calls {G}.

Definition IO (G A : Type) : Type := state G -> state G * result A.

Global Instance IO_ret {G : Type} : MRet (IO G) := fun A (a : A) s => (s, inr a).
Global Instance IO_bind {G : Type} : MBind (IO G) :=
  fun A B (f : A -> IO G B) (m : IO G A) s =>
    match m s with
    | (s', inl e) => (s', inl e)
    | (s', inr a) => f a s'
    end.

(** The requests that reached [put_object] among the calls. *)
Definition puts (cs : list call) : list put_request :=
  omap (fun c => match c with PutObject req => Some req | _ => None end) cs.

(** [S3DataUploader]: the bucket name and the client. *)
Record S3DataUploader := mk_uploader {
  bucket_name : string;
  s3_client_of : s3_client
}.

Record DailyDataGenerator := mk_daily {
  uploader : S3DataUploader
}.

Definition BUCKET_NAME : string := "your-portfolio-etl-bucket".
Definition AWS_PROFILE : option string := None.

Section Methods.

Context {G : Type}.
Variable R : random_source G.
(** [round(x, 2)] *)
Variable round2 : Q -> Q.
(** The n-th answer of [datetime.now()], from 0. *)
Variable clock : nat -> datetime.
(** [df.to_csv(index=False)] and [df.to_json(orient='records', ...)] *)
Variable to_csv : list Uploader.transaction -> string.
Variable to_json : list Uploader.transaction -> string.
(** [boto3.client('s3')], or the client of the session of a profile. *)
Variable boto3_client : option string -> s3_client.

Definition raise {A : Type} (e : exn) : IO G A := fun s => (s, inl e).

Definition do_call (c : call) : IO G unit := fun s =>
  ({| rng := rng s; ticks := ticks s; calls := calls s ++ [c] |}, inr tt).

Definition print (m : message) : IO G unit := do_call (Print m).

(** [try: body except Exception as e: handler(e)] *)
Definition try_except {A : Type} (body : IO G A) (handler : exn -> IO G A)
  : IO G A :=
  fun s =>
    match body s with
    | (s', inl e) => handler e s'
    | done => done
    end.

(** A call of the [random] module. *)
Definition draw {A : Type} (f : G -> A * G) : IO G A := fun s =>
  let '(a, g) := f (rng s) in
  ({| rng := g; ticks := ticks s; calls := calls s |}, inr a).

(** [datetime.now()] *)
Definition datetime_now : IO G datetime := fun s =>
  ({| rng := rng s; ticks := S (ticks s); calls := calls s |},
   inr (clock (ticks s))).

Definition lift {A : Type} (r : result A) : IO G A := fun s => (s, r).

(** The outcome of a call of the client that returns nothing. *)
Definition answer (r : option exn) : IO G unit :=
  match r with Some e => raise e | None => mret tt end.

(** [S3DataUploader(bucket_name, aws_profile)] *)
Definition init (bucket_name : string) (aws_profile : option string)
  : S3DataUploader :=
  {| bucket_name := bucket_name;
     s3_client_of := if truthy aws_profile then boto3_client aws_profile
                     else boto3_client None |}.

(** [random.choice(seq)] *)
Definition choice {A : Type} (seq : list A) : IO G A :=
  i ← draw (rand_below R (length seq));
  match seq !! i with
  | Some x => mret x
  | None => raise IndexError
  end.

(** One pass through the body of the [for] loop of
    [generate_sample_data]. *)
Definition generate_record (date : datetime) (i : nat)
  : IO G Uploader.transaction :=
  (* Random transaction type (70% expenses, 30% income) *)
  u ← draw (rand_random R);
  let is_income := negb (Qle_bool Uploader.float_0_3 u) in
  '(category, description) ←
    choice (if is_income then Uploader.income_categories
            else Uploader.expense_categories);
  x ← draw (if is_income then rand_uniform R 500 5000 else rand_uniform R 10 500);
  let amount := if is_income then round2 x else Qopp (round2 x) in
  (* Add some time variation within the day *)
  hours ← draw (rand_randint R 6 22);
  minutes ← draw (rand_randint R 0 59);
  transaction_time ←
    match PyTime.add_timedelta date hours minutes with
    | Some t => mret t
    | None => raise OverflowError
    end;
  account ← choice Uploader.accounts;
  location ← choice Uploader.locations;
  mret {| Uploader.transaction_id :=
            "TXN_" +:+ PyTime.strftime_Ymd date +:+ "_" +:+ PyStr.fmt_0d 4 (i + 1);
          Uploader.date := PyTime.strftime_date transaction_time;
          Uploader.timestamp := PyTime.strftime_datetime transaction_time;
          Uploader.amount := amount;
          Uploader.category := category;
          Uploader.description := description;
          Uploader.transaction_type := if is_income then "income" else "expense";
          Uploader.account := account;
          Uploader.location := location |}.

(** [for i in range(num_records)], from index [i] with [n] passes left. *)
Fixpoint generate_from (date : datetime) (i n : nat)
  : IO G (list Uploader.transaction) :=
  match n with
  | O => mret []
  | S k =>
      r ← generate_record date i;
      data ← generate_from date (S i) k;
      mret (r :: data)
  end.

Definition generate_sample_data (date : option datetime) (num_records : nat)
  : IO G (list Uploader.transaction) :=
  date ← match date with None => datetime_now | Some d => mret d end;
  generate_from date 0 num_records.

Definition upload_csv_data (self : S3DataUploader)
    (df : list Uploader.transaction) (date : option datetime) (folder : string)
  : IO G string :=
  date ← match date with None => datetime_now | Some d => mret d end;
  (* Upload to S3 *)
  try_except
    (upload_timestamp ← datetime_now;
     let req := Uploader.upload_csv_request (bucket_name self) to_csv
                  date upload_timestamp df (Some date) folder in
     _ ← do_call (PutObject req);
     _ ← answer (put_object (s3_client_of self) req);
     _ ← print (Uploaded (length df) (bucket_name self) (Key req));
     mret (Key req))
    (fun e => _ ← print (ErrorUploading e); raise e).

Definition upload_json_data (self : S3DataUploader)
    (df : list Uploader.transaction) (date : option datetime) (folder : string)
  : IO G string :=
  date ← match date with None => datetime_now | Some d => mret d end;
  (* Upload to S3 *)
  try_except
    (upload_timestamp ← datetime_now;
     let req := Uploader.upload_json_request (bucket_name self) to_json
                  date upload_timestamp df (Some date) folder in
     _ ← do_call (PutObject req);
     _ ← answer (put_object (s3_client_of self) req);
     _ ← print (Uploaded (length df) (bucket_name self) (Key req));
     mret (Key req))
    (fun e => _ ← print (ErrorUploading e); raise e).

Definition create_bucket_if_not_exists (self : S3DataUploader) : IO G unit :=
  try_except
    (_ ← do_call (HeadBucket (bucket_name self));
     _ ← answer (head_bucket (s3_client_of self) (bucket_name self));
     print (BucketExists (bucket_name self)))
    (fun _ =>
       try_except
         (_ ← do_call (CreateBucket (bucket_name self));
          _ ← answer (create_bucket (s3_client_of self) (bucket_name self));
          print (BucketCreated (bucket_name self)))
         (fun e => _ ← print (ErrorCreatingBucket e); raise e)).

(** [for i in range(days_back)], from day [i] with [n] days left. *)
Fixpoint historical_from (self : S3DataUploader) (days_back i n : nat)
  : IO G unit :=
  match n with
  | O => mret tt
  | S k =>
      today ← datetime_now;
      date ← match sub_timedelta_days today i with
             | Some d => mret d
             | None => raise OverflowError
             end;
      (* Generate varying amounts of data (20-100 records per day) *)
      num_records ← draw (rand_randint R 20 100);
      df ← generate_sample_data (Some date) num_records;
      (* Upload as CSV *)
      _ ← upload_csv_data self df (Some date) "raw-data";
      _ ← (if Nat.eqb (i mod 10) 0 then print (ProcessedDays (i + 1) days_back)
           else mret tt);
      historical_from self days_back (S i) k
  end.

Definition upload_historical_data (self : S3DataUploader) (days_back : nat)
  : IO G unit :=
  _ ← print (GeneratingHistorical days_back);
  _ ← historical_from self days_back 0 days_back;
  print HistoricalComplete.

Fixpoint print_files (contents : list s3_object) : IO G unit :=
  match contents with
  | [] => mret tt
  | obj :: rest =>
      let size_mb := (inject_Z (Z.of_nat (object_size obj)) / inject_Z (1024 * 1024))%Q in
      _ ← print (FileLine (object_key obj) size_mb (last_modified obj));
      print_files rest
  end.

Definition list_uploaded_files (self : S3DataUploader) (prefix : string)
  : IO G unit :=
  try_except
    (_ ← do_call (ListObjectsV2 (bucket_name self) prefix);
     response ← lift (list_objects_v2 (s3_client_of self)
                        (bucket_name self) prefix);
     match response with
     | Some contents =>
         _ ← print (FilesIn (bucket_name self) prefix);
         print_files contents
     | None => print (NoFilesFound (bucket_name self) prefix)
     end)
    (fun e => print (ErrorListing e)).

Definition main : IO G unit :=
  (* Initialize uploader *)
  let uploader := init BUCKET_NAME AWS_PROFILE in
  _ ← print StartingUpload;
  (* Create bucket if needed *)
  _ ← create_bucket_if_not_exists uploader;
  (* Option 1: Upload today's data *)
  _ ← print GeneratingToday;
  today_data ← generate_sample_data None 75;
  _ ← print (GeneratedToday (length today_data));
  _ ← print SampleData;
  _ ← print (DataHead (take 5 today_data));
  (* Upload as CSV *)
  _ ← upload_csv_data uploader today_data None "raw-data";
  (* List uploaded files *)
  _ ← list_uploaded_files uploader "raw-data";
  _ ← print UploadCompleted;
  _ ← print (DataUploadedTo BUCKET_NAME);
  print ShouldTrigger.

(** [DailyDataGenerator(bucket_name)] *)
Definition init_daily (bucket_name : string) : DailyDataGenerator :=
  {| uploader := init bucket_name None |}.

Definition run_daily_upload (self : DailyDataGenerator) : IO G bool :=
  try_except
    ((* Generate data for today *)
     num_records ← draw (rand_randint R 50 150);
     data ← generate_sample_data None num_records;
     (* Upload to S3 *)
     s3_key ← upload_csv_data (uploader self) data None "raw-data";
     _ ← print (DailySuccessful s3_key);
     mret true)
    (fun e => _ ← print (DailyFailed e); mret false).

End Methods.

End Script.

(** ** The key layout, in the words of the specification

    [<folder>/year=<YYYY>/month=<MM>/day=<DD>/transactions-<YYYYMMDD>.<ext>]:
    [YYYY] is the four decimal digits of the year, [MM] and [DD] the two
    digits of the month and of the day. *)

Module KeyLayout.

Definition digit (n : nat) : ascii := ascii_of_nat (48 + n mod 10).

Definition two_digits (n : nat) : string :=
  String (digit (n / 10)) (String (digit n) EmptyString).

Definition four_digits (n : nat) : string :=
  String (digit (n / 1000)) (String (digit (n / 100)) (two_digits n)).

Definition YYYY (t : datetime) : string := four_digits (year t).
Definition MM (t : datetime) : string := two_digits (month t).
Definition DD (t : datetime) : string := two_digits (day t).
Definition YYYYMMDD (t : datetime) : string := YYYY t +:+ MM t +:+ DD t.

Definition generate_key (folder : string) (date : datetime) (ext : string) : string :=
  folder +:+ "/year=" +:+ YYYY date +:+ "/month=" +:+ MM date +:+
  "/day=" +:+ DD date +:+ "/transactions-" +:+ YYYYMMDD date +:+ "." +:+ ext.

End KeyLayout.

(** What the specification asks of one call of the generator: [count]
    records, pairwise distinct identifiers, the k-th of them (from 0)
    [TXN_<YYYYMMDD>_<seq>] where [seq] reads as the number k + 1 and is
    zero-padded to four digits. *)
Definition generates_batch {G : Type} (R : random_source G) (round2 : Q -> Q)
    (now : datetime) (date : datetime) (count : nat) (g : G) : Prop :=
  exists data,
    Uploader.generate_sample_data R round2 now (Some date) count g = inr data /\
    length data = count /\
    NoDup (Uploader.transaction_id <$> data) /\
    forall k r, data !! k = Some r ->
      exists seq,
        Uploader.transaction_id r
          = "TXN_" +:+ KeyLayout.YYYYMMDD date +:+ "_" +:+ seq /\
        PyStr.int_of seq = Some (k + 1) /\
        4 <= String.length seq /\
        (k + 1 < 100 * 100 -> String.length seq = 4).

(** ** The handler, in the words of the specification *)

(** The write-back key of the source key [K]: the raw-data folder
    replaced by the processed-data folder, the extension .csv by .json,
    the rest of the key as it was. *)
Definition swaps_folder_and_extension (K : string) : Prop :=
  forall rest,
    K = "raw-data/" +:+ rest +:+ ".csv" ->
    processed_key K = "processed-data/" +:+ rest +:+ ".json".

(** The load stage is enabled exactly when the five connection
    parameters are present in the environment. *)
Definition present (env : gmap string string) (var : string) : Prop :=
  is_Some (env !! var).

(** .. present with a value that is not the empty string. *)
Definition set_nonempty (env : gmap string string) (var : string) : Prop :=
  exists v, env !! var = Some v /\ v <> "".

Definition load_enabled_iff_present (env : gmap string string) : Prop :=
  is_redshift_configured env = true <-> Forall (present env) required_vars.

(** ** The table after a batch of statements *)

(** The last row of a batch that carries the key [k], and a stored row
    with the amount and the processing time of the last row of the batch
    that carries its key. *)
Definition last_with (k : option cell) (rs : list Warehouse.wrow)
  : option Warehouse.wrow :=
  last (Warehouse.rows_with k rs).

Definition refresh (rs : list Warehouse.wrow) (o : Warehouse.wrow) : Warehouse.wrow :=
  match last_with (Warehouse.transaction_id o) rs with
  | Some r => Warehouse.do_update o r
  | None => o
  end.

(** ** The load stage, row by row *)

(** The rows of a frame as the load stage sends them, and those among
    them that the driver accepts. *)
Definition sent_rows (source_file : string) (df : DataFrame) : list Warehouse.wrow :=
  map (fun row => Warehouse.of_row row source_file) (rows df).

Definition accepted_rows (Pl : platform) (source_file : string) (df : DataFrame)
  : list Warehouse.wrow :=
  List.filter (fun r => bool_decide (db_execute Pl r = None))
              (sent_rows source_file df).

(** What one pass of the insert loop adds to the trace: the statement,
    or the warning about the row that the driver refused. *)
Definition row_action (Pl : platform) (source_file : string)
    (row : gmap string cell) : action :=
  match db_execute Pl (Warehouse.of_row row source_file) with
  | None => DbUpsert (Warehouse.of_row row source_file)
  | Some e => Log WARNING (MsgRowFailed (row !! "transaction_id") e)
  end.

(** The value of a connection parameter ([os.environ[var]] once the
    variable is known to be set). *)
Definition environ_value (Pl : platform) (var : string) : string :=
  default "" (environ Pl !! var).

(** The actions of a load that the driver carries through, for the rows
    of [df]. *)
Definition load_actions (Pl : platform) (source_file : string) (df : DataFrame)
  : list action :=
  [Log INFO MsgLoading;
   DbConnect (environ_value Pl "REDSHIFT_HOST") (environ_value Pl "REDSHIFT_PORT")
             (environ_value Pl "REDSHIFT_DB") (environ_value Pl "REDSHIFT_USER")
             (environ_value Pl "REDSHIFT_PASSWORD");
   DbCreateTable; Log INFO MsgTableVerified] ++
  map (row_action Pl source_file) (rows df) ++
  [DbCommit; DbClose;
   Log INFO (MsgLoaded (length (accepted_rows Pl source_file df)))].

(** The driver raises at none of its calls around the row loop:
    [connect], [cursor], the [CREATE TABLE] statement, [commit] and the two
    [close]. *)
Definition session_ok (Pl : platform) : Prop :=
  db_connect Pl = None /\ db_cursor Pl = None /\ db_create_table Pl = None /\
  db_commit Pl = None /\ db_cursor_close Pl = None /\ db_close Pl = None.



(** The actions of a load up to the connection, and up to the commit. *)
Definition connect_actions (Pl : platform) : list action :=
  [Log INFO MsgLoading;
   DbConnect (environ_value Pl "REDSHIFT_HOST") (environ_value Pl "REDSHIFT_PORT")
             (environ_value Pl "REDSHIFT_DB") (environ_value Pl "REDSHIFT_USER")
             (environ_value Pl "REDSHIFT_PASSWORD")].

Definition commit_actions (Pl : platform) (source_file : string) (df : DataFrame)
  : list action :=
  connect_actions Pl ++ [DbCreateTable; Log INFO MsgTableVerified] ++
  map (row_action Pl source_file) (rows df) ++ [DbCommit].

(** A computation that leaves the warehouse alone: the table is as it
    was and no action on the warehouse is added to the trace. *)
Definition quiet {A : Type} (m : M A) : Prop :=
  forall w,
    warehouse (fst (m w)) = warehouse w /\
    exists added,
      trace (fst (m w)) = trace w ++ added /\
      Forall (fun a => is_warehouse_action a = false) added.

(** ** The actions of an invocation *)

(** What an invocation adds to the trace until the load decision, when
    the object is read as [df], [kept] are its rows with the critical
    cells and [transformed] is the transformed frame. *)
Definition actions_before_load (s3_event : s3_record)
    (df kept transformed : DataFrame) : list action :=
  [Log INFO MsgStarted;
   Log INFO (MsgProcessingFile (bucket s3_event) (key s3_event));
   S3GetObject (bucket s3_event) (key s3_event);
   Log INFO (MsgRead (length (rows df)));
   Log INFO (MsgColumns (columns df));
   Log INFO MsgTransformStart;
   Log INFO (MsgRemoved (length (rows df) - length (rows kept)));
   Log INFO (MsgTransformDone (length (rows transformed)))].

(** The value of a metadata entry of a request. *)
Definition metadata_value (req : put_request) (name : string) : option string :=
  snd <$> List.find (fun kv => String.eqb (fst kv) name) (Metadata req).

(** ** Frames along the pipeline *)

(** The column list of [df'] is that of [df] followed by columns of [L]. *)
Definition cols_ext (L : list string) (df df' : DataFrame) : Prop :=
  exists k, columns df' = columns df ++ k /\ Forall (fun c => c ∈ L) k.

(** ** Sample inputs *)

Module Sample.

Definition codec : pandas_codec :=
  {| parse_number := fun s =>
       if String.eqb s "12.50" then Some (Fin (25 # 2))
       else if String.eqb s "-640.00" then Some (Fin (- (640 # 1)))
       else None;
     parse_datetime := fun s =>
       if String.eqb s "2024-07-26" then Some (midnight 2024 7 26) else None;
     datetime_of_number := fun _ => None;
     number_of_datetime := fun _ => Fin 0;
     str_number := fun _ => "0.0";
     int64_column := fun _ => false |}.

Definition clock : datetime := mk_datetime 2024 7 27 3 15 0 0.

Definition evening_later : datetime := mk_datetime 2024 7 27 21 40 0 0.

Definition columns9 : list string :=
  ["transaction_id"; "date"; "timestamp"; "amount"; "category"; "description";
   "transaction_type"; "account"; "location"].

Definition row (id amount description : cell) : gmap string cell :=
  list_to_map
    [("transaction_id", id); ("date", Str "2024-07-26");
     ("timestamp", Str "2024-07-26 09:30:00"); ("amount", amount);
     ("category", Str "food"); ("description", description);
     ("transaction_type", Str "expense"); ("account", Str "checking");
     ("location", Str "Online")].

(** Ten rows, two of them without an amount, one with text for an amount
    and one without a description. *)
Definition ten_rows : DataFrame :=
  {| columns := columns9;
     rows := [ row (Str "TXN_20240726_0001") (Num (Fin (- (1250 # 100)))) (Str "Groceries");
               row (Str "TXN_20240726_0002") (Num (Fin (2499 # 100))) (Str "  grocery STORE  ");
               row (Str "TXN_20240726_0003") NA (Str "Gas");
               row (Str "TXN_20240726_0004") (Str "12.50") (Str "Pharmacy");
               row (Str "TXN_20240726_0005") (Str "n/a?") (Str "Restaurant");
               row (Str "TXN_20240726_0006") (Num (Fin (500 # 1))) NA;
               row (Str "TXN_20240726_0007") NA (Str "Clothing");
               row (Str "TXN_20240726_0008") (Num (Inf true)) (Str "Electronics");
               row (Str "TXN_20240726_0009") (Num (Fin (100 # 1))) (Str "Monthly salary");
               row (Str "TXN_20240726_0010") (Str "-640.00") (Str "Doctor visit") ] |}.

(** Two rows: an amount of 24.99 without a description, and an amount
    that arrives as text. *)
Definition two_rows : DataFrame :=
  {| columns := columns9;
     rows := [ row (Str "TXN_20240726_0001") (Num (Fin (2499 # 100))) NA;
               row (Str "TXN_20240726_0002") (Str "12.50") (Str "Pharmacy") ] |}.

(** Both rows have their critical cells; this is what the transform makes
    of them, and the first row of that. *)
Definition two_rows_out : DataFrame :=
  transform_kept codec clock two_rows.

Definition first_row_out : gmap string cell :=
  default ∅ (head (rows two_rows_out)).

(** Whole amounts, held as [int64]: the least [int64] and -7. *)
Definition int64_codec : pandas_codec :=
  {| parse_number := parse_number codec;
     parse_datetime := parse_datetime codec;
     datetime_of_number := datetime_of_number codec;
     number_of_datetime := number_of_datetime codec;
     str_number := str_number codec;
     int64_column := fun _ => true |}.

Definition whole_amounts : DataFrame :=
  {| columns := columns9;
     rows := [ row (Str "TXN_20240726_0001") (Num (Fin INT64_MIN)) (Str "Groceries");
               row (Str "TXN_20240726_0002") (Num (Fin (- (7 # 1)))) (Str "Gas") ] |}.

(** A frame that has no [amount] column. *)
Definition no_amount_column : DataFrame :=
  {| columns := ["transaction_id"; "description"];
     rows := [ list_to_map [("transaction_id", Str "TXN_20240726_0001");
                            ("description", Str "Groceries")] ] |}.

(** A random source that always draws the least value. *)
Definition least : random_source unit :=
  {| rand_random := fun g => (0%Q, g);
     rand_uniform := fun a _ g => (a, g);
     rand_randint := fun a _ g => (a, g);
     rand_below := fun _ g => (0, g) |}.

(** .. and one that always draws the greatest. *)
Definition greatest : random_source unit :=
  {| rand_random := fun g => ((999 # 1000)%Q, g);
     rand_uniform := fun _ b g => (b, g);
     rand_randint := fun _ b g => (b, g);
     rand_below := fun n g => (n - 1, g) |}.

Definition round2 (x : Q) : Q := x.

Definition full_environ : gmap string string :=
  list_to_map
    [("REDSHIFT_HOST", "warehouse.example.com"); ("REDSHIFT_PORT", "5439");
     ("REDSHIFT_DB", "portfolio"); ("REDSHIFT_USER", "etl");
     ("REDSHIFT_PASSWORD", "secret")].

(** All five variables are set, the password to the empty string. *)
Definition empty_password_environ : gmap string string :=
  <["REDSHIFT_PASSWORD" := ""]> full_environ.

Definition raw_key : string :=
  "raw-data/year=2024/month=07/day=26/transactions-20240726.csv".

(** A store that holds one object, a reader that returns [two_rows] for
    it, a warehouse and a store that accept everything. *)
Definition platform_with (env : gmap string string) : platform :=
  {| environ := env;
     s3_get_object := fun _ k =>
       if String.eqb k raw_key then inr "csv text" else inl (ClientError "NoSuchKey");
     pd_read_csv := fun _ => inr two_rows;
     pd := codec;
     now_transform := clock;
     now_save := clock;
     db_connect := None;
     db_cursor := None;
     db_create_table := None;
     db_execute := fun _ => None;
     db_commit := None;
     db_cursor_close := None;
     db_close := None;
     df_to_json := fun _ => "[]";
     s3_put_object := fun _ => None |}.

Definition empty_world : world := {| warehouse := []; trace := [] |}.

(** The same store and reader in front of a warehouse that answers
    [connect] and [execute], and a store that answers [put]. *)
Definition platform_of (connect : option exn)
    (execute : Warehouse.wrow -> option exn) (put : put_request -> option exn)
  : platform :=
  {| environ := full_environ;
     s3_get_object := fun _ k =>
       if String.eqb k raw_key then inr "csv text" else inl (ClientError "NoSuchKey");
     pd_read_csv := fun _ => inr two_rows;
     pd := codec;
     now_transform := clock;
     now_save := clock;
     db_connect := connect;
     db_cursor := None;
     db_create_table := None;
     db_execute := execute;
     db_commit := None;
     db_cursor_close := None;
     db_close := None;
     df_to_json := fun _ => "[]";
     s3_put_object := put |}.

(** A warehouse that cannot be reached, a store that refuses the
    write-back, and a warehouse that refuses the second sample row. *)
Definition warehouse_down : platform :=
  platform_of (Some (DatabaseError "connection refused")) (fun _ => None)
              (fun _ => None).


Definition second_row_refused : platform :=
  platform_of None
    (fun r => if bool_decide (Warehouse.transaction_id r
                              = Some (Str "TXN_20240726_0002"))
              then Some (DatabaseError "value too long") else None)
    (fun _ => None).


Definition raw_event : s3_record :=
  mk_record "your-portfolio-etl-bucket" raw_key.

(** A store that accepts every call and lists nothing, one that has no
    bucket and lets none be created, and one that refuses every upload. *)
Definition store_accepting : Script.s3_client :=
  {| Script.head_bucket := fun _ => None;
     Script.create_bucket := fun _ => None;
     Script.put_object := fun _ => None;
     Script.list_objects_v2 := fun _ _ => inr None |}.

Definition store_without_bucket : Script.s3_client :=
  {| Script.head_bucket := fun _ => Some (ClientError "404");
     Script.create_bucket := fun _ => Some (ClientError "AccessDenied");
     Script.put_object := fun _ => None;
     Script.list_objects_v2 := fun _ _ => inr None |}.

Definition store_refusing : Script.s3_client :=
  {| Script.head_bucket := fun _ => None;
     Script.create_bucket := fun _ => None;
     Script.put_object := fun _ => Some (ClientError "AccessDenied");
     Script.list_objects_v2 := fun _ _ => inl (ClientError "AccessDenied") |}.

Definition uploader_with (client : Script.s3_client) : Script.S3DataUploader :=
  Script.mk_uploader "your-portfolio-etl-bucket" client.

(** A clock that stands at 03:15 on 2024-07-27. *)
Definition standing_clock : nat -> datetime := fun _ => clock.

Definition fresh : Script.state unit :=
  {| Script.rng := tt; Script.ticks := 0; Script.calls := [] |}.

(** Three records generated for [date] with the least draws, and the
    first of them. *)
Definition batch_on (date : datetime) : list Uploader.transaction :=
  match Uploader.generate_sample_data least round2 clock (Some date) 3 tt with
  | inr data => data
  | inl _ => []
  end.

Definition first_on (date : datetime) : Uploader.transaction :=
  default (Uploader.mk_transaction "" "" "" 0 "" "" "" "" "")
          (head (batch_on date)).

(** A warehouse row and a later version of it: same identifier, another
    amount, category and processing time. *)
Definition stored : Warehouse.wrow :=
  Warehouse.of_row
    (<["amount" := Num (Fin (- (1250 # 100)))]>
       (<["processed_timestamp" := Time clock]>
          (row (Str "TXN_20240726_0001") NA (Str "Groceries"))))
    raw_key.

Definition resent_row : gmap string cell :=
  <["amount" := Num (Fin (- (990 # 100)))]>
    (<["category" := Str "shopping"]>
       (<["processed_timestamp" := Time evening_later]>
          (row (Str "TXN_20240726_0001") NA (Str "Groceries")))).

Definition resent : Warehouse.wrow := Warehouse.of_row resent_row raw_key.

(** A warehouse that holds the stored row, and a frame that sends the
    later version of it. *)
Definition stored_world : world := {| warehouse := [stored]; trace := [] |}.

Definition resent_frame : DataFrame :=
  {| columns := columns9 ++ ["processed_timestamp"]; rows := [resent_row] |}.

Definition evening : datetime := mk_datetime 2024 7 26 20 0 0 0.

Definition last_evening : datetime := mk_datetime 9999 12 31 20 0 0 0.

(** A day of the year 999. *)
Definition in_year_999 : datetime := midnight 999 7 26.

End Sample.

(** * Properties *)

(** ** Sample evaluations of the library models *)

Example startswith_raw :
  PyStr.startswith "raw-data/year=2024/x.csv" "raw-data/" = true.
Proof. reflexivity. Qed.

Example fmt_0d_7 : PyStr.fmt_0d 4 7 = "0007".
Proof. vm_compute. reflexivity. Qed.

Example fmt_0d_wide : PyStr.fmt_0d 4 (100 * 100) = "10000".
Proof. vm_compute. reflexivity. Qed.

Example int_of_padded : PyStr.int_of "0042" = Some 42.
Proof. vm_compute. reflexivity. Qed.

Example replace_all_occurrences :
  PyStr.replace "a.csv.csv" ".csv" ".json" = "a.json.json".
Proof. vm_compute. reflexivity. Qed.

Example strip_title_grocery :
  PyStr.title (PyStr.strip "  grocery STORE  ") = "Grocery Store".
Proof. vm_compute. reflexivity. Qed.

Example add_timedelta_rollover :
  PyTime.add_timedelta (mk_datetime 2024 2 28 20 0 0 0) 6 30
  = Some (mk_datetime 2024 2 29 2 30 0 0).
Proof. vm_compute. reflexivity. Qed.

Example add_timedelta_overflow :
  PyTime.add_timedelta Sample.last_evening 6 0 = None.
Proof. vm_compute. reflexivity. Qed.

Example day_name_samples :
  PyTime.day_name (midnight 2024 7 26) = "Friday" /\
  PyTime.day_name (midnight 2000 1 1) = "Saturday" /\
  PyTime.day_name (midnight 1970 1 1) = "Thursday".
Proof. repeat split; vm_compute; reflexivity. Qed.

Example strftime_20240726 :
  PyTime.strftime_datetime (mk_datetime 2024 7 26 6 5 0 0) = "2024-07-26 06:05:00".
Proof. vm_compute. reflexivity. Qed.

(** ** Frames: columns and rows through [assign] and [when_column] *)

Lemma has_column_assign_mono c col f df :
  has_column c df = true -> has_column c (assign col f df) = true.
Proof.
  intros H. unfold has_column at 1. unfold assign. simpl.
  destruct (has_column col df); [exact H|].
  apply bool_decide_eq_true. apply bool_decide_eq_true in H.
  apply elem_of_app. now left.
Qed.

Lemma has_column_when_mono c col T df :
  (forall d, has_column c d = true -> has_column c (T d) = true) ->
  has_column c df = true -> has_column c (when_column col T df) = true.
Proof.
  intros HT H. unfold when_column. destruct (has_column col df); auto.
Qed.

Lemma when_column_true col T df :
  has_column col df = true -> when_column col T df = T df.
Proof. intros H. unfold when_column. now rewrite H. Qed.

(** Columns only grow along the pipeline. *)
Ltac has_column_mono :=
  repeat first
    [ assumption
    | apply has_column_assign_mono
    | apply has_column_when_mono; [intros ? ? |] ].

Section RowSteps.

Context {A : Type}.
Variable l : list A.
Variables R R' : A -> gmap string cell -> Prop.

Lemma rows_assign_step col f df :
  (forall a r, R a r -> R' a (<[col := f r]> r)) ->
  Forall2 R l (rows df) -> Forall2 R' l (rows (assign col f df)).
Proof.
  intros Hstep. unfold assign. simpl.
  generalize (rows df). clear df. intros rs H.
  induction H as [|a r l' rs' Har _ IH]; simpl; constructor; auto.
Qed.

Lemma rows_when_step col T df :
  (forall a r, R a r -> R' a r) ->
  (forall d, Forall2 R l (rows d) -> Forall2 R' l (rows (T d))) ->
  Forall2 R l (rows df) -> Forall2 R' l (rows (when_column col T df)).
Proof.
  intros Hskip HT H. unfold when_column. destruct (has_column col df).
  - now apply HT.
  - eapply Forall2_impl; eauto.
Qed.

End RowSteps.

Lemma dropna_inr subset df kept :
  dropna subset df = inr kept ->
  Forall (fun c => has_column c df = true) subset /\
  columns kept = columns df /\
  rows kept = List.filter
                (fun r => forallb (fun c => negb (isna (get r c))) subset)
                (rows df).
Proof.
  unfold dropna. intros H.
  destruct (List.filter (fun c => negb (has_column c df)) subset) eqn:E;
    [|discriminate].
  injection H as <-. split; [|split; reflexivity].
  apply Forall_forall. intros c Hc.
  destruct (has_column c df) eqn:Hh; [reflexivity|].
  assert (Hin : In c (List.filter (fun c => negb (has_column c df)) subset)).
  { apply filter_In. split; [now apply list_elem_of_In|]. now rewrite Hh. }
  rewrite E in Hin. destruct Hin.
Qed.

Lemma dropna_has_columns subset df :
  Forall (fun c => has_column c df = true) subset ->
  exists kept, dropna subset df = inr kept.
Proof.
  intros H. unfold dropna.
  replace (List.filter (fun c => negb (has_column c df)) subset) with (@nil string).
  - eauto.
  - symmetry. induction H as [|c cs Hc _ IH]; simpl; [reflexivity|].
    rewrite Hc. simpl. exact IH.
Qed.

(** After [to_numeric] a cell is missing or a number. *)
Lemma to_numeric_float P c :
  to_numeric P c = NA \/ exists x, to_numeric P c = Num x.
Proof.
  destruct c as [|x|s|t]; simpl; eauto.
  destruct (parse_number P s); eauto.
Qed.

Lemma number_ltb_lt x n : number_ltb x n = true <-> number_lt x n.
Proof.
  destruct x as [q|b]; simpl; [|reflexivity].
  rewrite negb_true_iff. split.
  - intros H. apply Qnot_le_lt. intros Hle.
    apply Qle_bool_iff in Hle. congruence.
  - intros H. destruct (Qle_bool (inject_Z n) q) eqn:E; [|reflexivity].
    apply Qle_bool_iff in E. exfalso. eapply Qlt_not_le; eauto.
Qed.

Lemma number_ltb_ge x n : number_ltb x n = false <-> number_ge x n.
Proof.
  destruct x as [q|b]; simpl.
  - rewrite negb_false_iff. apply Qle_bool_iff.
  - destruct b; split; congruence.
Qed.

Lemma number_lt_not_ge x n : number_lt x n -> number_ge x n -> False.
Proof.
  intros H1 H2. apply number_ltb_lt in H1. apply number_ltb_ge in H2. congruence.
Qed.

Lemma number_lt_trans x n m : (n <= m)%Z -> number_lt x n -> number_lt x m.
Proof.
  destruct x as [q|b]; simpl; [|auto].
  intros Hnm H. eapply Qlt_le_trans; [exact H|]. now rewrite <- Zle_Qle.
Qed.

(** The thresholds of [categorize_amount], case by case. *)
Lemma categorize_amount_spec x :
  (number_lt (number_abs x) 25 -> categorize_amount (Some x) = "small") /\
  (number_ge (number_abs x) 25 -> number_lt (number_abs x) 100 ->
     categorize_amount (Some x) = "medium") /\
  (number_ge (number_abs x) 100 -> number_lt (number_abs x) 500 ->
     categorize_amount (Some x) = "large") /\
  (number_ge (number_abs x) 500 -> categorize_amount (Some x) = "very_large").
Proof.
  unfold categorize_amount. cbv zeta.
  destruct (number_ltb (number_abs x) 25) eqn:E25;
  destruct (number_ltb (number_abs x) 100) eqn:E100;
  destruct (number_ltb (number_abs x) 500) eqn:E500;
  repeat match goal with
         | H : number_ltb _ _ = true |- _ => apply number_ltb_lt in H
         | H : number_ltb _ _ = false |- _ => apply number_ltb_ge in H
         end;
  repeat split; intros;
  try reflexivity;
  exfalso;
  match goal with
  | H1 : number_lt ?a ?n, H2 : number_ge ?a ?m |- _ =>
      apply (number_lt_not_ge a m);
      [apply (number_lt_trans a n m); [lia | exact H1] | exact H2]
  end.
Qed.

Lemma rows_assign_keep {A : Type} (l : list A) R c f df :
  (forall a r, R a r -> R a (<[c := f r]> r)) ->
  Forall2 R l (rows df) -> Forall2 R l (rows (assign c f df)).
Proof. apply rows_assign_step. Qed.

Lemma rows_when_keep {A : Type} (l : list A) R col T df :
  (forall d, Forall2 R l (rows d) -> Forall2 R l (rows (T d))) ->
  Forall2 R l (rows df) -> Forall2 R l (rows (when_column col T df)).
Proof. apply rows_when_step. auto. Qed.

(** Walks down the steps of the pipeline that keep a relation between
    the kept input rows and the current rows; [tac] shows that one
    assignment keeps it. [keep_step] passes one step, [keep_steps] all
    that are left. *)
Ltac keep_inner tac :=
  lazymatch goal with
  | |- Forall2 _ _ (rows (assign _ _ _)) =>
      apply rows_assign_keep;
      [ let a := fresh "a" in let r := fresh "r" in let HR := fresh "HR" in
        intros a r HR; tac HR
      | keep_inner tac ]
  | _ => assumption
  end.

Ltac keep_step tac :=
  lazymatch goal with
  | |- Forall2 _ _ (rows (when_column _ _ _)) =>
      apply rows_when_keep;
      [ let d := fresh "d" in let Hd := fresh "Hd" in
        intros d Hd; cbv beta; keep_inner tac
      | ]
  | |- Forall2 _ _ (rows (assign _ _ _)) =>
      apply rows_assign_keep;
      [ let a := fresh "a" in let r := fresh "r" in let HR := fresh "HR" in
        intros a r HR; tac HR
      | ]
  end.

Ltac keep_steps tac := repeat keep_step tac.

Ltac other_column HR :=
  repeat (rewrite lookup_insert_ne by congruence); exact HR.

Lemma Forall2_same {A : Type} (R : A -> A -> Prop) (l : list A) :
  (forall a, R a a) -> Forall2 R l l.
Proof. intros H. induction l; constructor; auto. Qed.

Section TransformFacts.

Variable P : pandas_codec.
Variable now : datetime.

(** The transform leaves every column that it does not write as it was. *)
Lemma transform_kept_frame (c : string) (df : DataFrame) :
  c ∉ written_columns ->
  Forall2 (fun a r => r !! c = a !! c) (rows df) (rows (transform_kept P now df)).
Proof.
  intros Hc. unfold written_columns in Hc.
  repeat (apply not_elem_of_cons in Hc as [? Hc]).
  unfold transform_kept, text_columns. cbn [fold_left]. cbv zeta.
  keep_steps other_column.
  apply Forall2_same. reflexivity.
Qed.

(** The numeric columns of an output row, from the kept input row. *)
Lemma transform_kept_amount (df : DataFrame) :
  has_column "amount" df = true ->
  Forall2 (fun a r =>
             r !! "amount" = Some (to_numeric P (get a "amount")) /\
             r !! "amount_category" =
               Some (Str (categorize_amount
                            (float_of_cell (to_numeric P (get a "amount"))))))
          (rows df) (rows (transform_kept P now df)).
Proof.
  intros Ham.
  unfold transform_kept, text_columns. cbn [fold_left]. cbv zeta.
  do 4 keep_step other_column.
  rewrite when_column_true by has_column_mono.
  keep_step other_column.
  apply (rows_assign_step _
           (fun a r => r !! "amount" = Some (to_numeric P (get a "amount")))).
  { intros a r HR. rewrite lookup_insert_ne by congruence.
    rewrite lookup_insert_eq. split; [exact HR|].
    unfold get. rewrite HR. reflexivity. }
  do 4 keep_step other_column.
  rewrite when_column_true by exact Ham.
  apply (rows_assign_step _ (fun a r => r = a)).
  { intros a r ->. apply lookup_insert_eq. }
  apply Forall2_same. reflexivity.
Qed.

(** A text column of an output row, from the kept input row. *)
Lemma transform_kept_text (c : string) (df : DataFrame) :
  c ∈ text_columns ->
  has_column c df = true ->
  Forall2 (fun a r => r !! c = Some (clean_text P (get a c)))
          (rows df) (rows (transform_kept P now df)).
Proof.
  intros Hc Hhas. unfold text_columns in Hc.
  unfold transform_kept, text_columns. cbn [fold_left]. cbv zeta.
  repeat (apply elem_of_cons in Hc as [-> | Hc]); [| | |inversion Hc].
  - do 2 keep_step other_column.
    rewrite when_column_true by has_column_mono.
    apply (rows_assign_step _ (fun a r => r !! "description" = a !! "description")).
    { intros a r HR. rewrite lookup_insert_eq. unfold get. now rewrite HR. }
    keep_steps other_column.
    apply Forall2_same. reflexivity.
  - keep_step other_column.
    rewrite when_column_true by has_column_mono.
    apply (rows_assign_step _ (fun a r => r !! "category" = a !! "category")).
    { intros a r HR. rewrite lookup_insert_eq. unfold get. now rewrite HR. }
    keep_steps other_column.
    apply Forall2_same. reflexivity.
  - rewrite when_column_true by has_column_mono.
    apply (rows_assign_step _ (fun a r => r !! "location" = a !! "location")).
    { intros a r HR. rewrite lookup_insert_eq. unfold get. now rewrite HR. }
    keep_steps other_column.
    apply Forall2_same. reflexivity.
Qed.

Lemma transform_kept_length (df : DataFrame) :
  length (rows (transform_kept P now df)) = length (rows df).
Proof.
  symmetry. eapply Forall2_length.
  apply (transform_kept_frame "transaction_id"). unfold written_columns.
  rewrite !not_elem_of_cons. repeat split; try discriminate. apply not_elem_of_nil.
Qed.

End TransformFacts.

Lemma Forall2_forall_r {A B C : Type} (R : C -> A -> B -> Prop) (c0 : C) l l' :
  (forall c, Forall2 (R c) l l') -> Forall2 (fun a b => forall c, R c a b) l l'.
Proof.
  revert l'. induction l as [|a l IH]; intros l' H.
  - specialize (H c0). inversion H. constructor.
  - destruct l' as [|b l']; [specialize (H c0); inversion H|].
    constructor.
    + intros c. specialize (H c). now inversion H.
    + apply IH. intros c. specialize (H c). now inversion H.
Qed.

Lemma filter_lacks_critical (l : list (gmap string cell)) :
  length (List.filter has_critical l) + length (List.filter lacks_critical l)
  = length l.
Proof.
  induction l as [|r l IH]; simpl; [reflexivity|].
  unfold has_critical, lacks_critical in *.
  destruct (isna (get r "transaction_id")), (isna (get r "amount")); simpl; lia.
Qed.

Lemma dropna_critical_rows df kept :
  dropna ["transaction_id"; "amount"] df = inr kept ->
  has_column "amount" kept = true /\
  rows kept = List.filter has_critical (rows df).
Proof.
  intros H. apply dropna_inr in H as (Hcols & Hc & Hrows). split.
  - unfold has_column. rewrite Hc.
    inversion Hcols as [|? ? _ Hrest]. inversion Hrest as [|? ? Ham _]. exact Ham.
  - rewrite Hrows. apply filter_ext. intros r. unfold has_critical. simpl.
    now rewrite andb_true_r.
Qed.

(** C1: every row of the transform output carries a coerced amount that
    is either missing or a number; its [amount_category] is "unknown" when
    the amount is missing and is otherwise fixed by the absolute amount:
    "small" below 25, "medium" from 25 and below 100, "large" from 100 and
    below 500, "very_large" from 500. Absolute amounts 24.99, 25.00, 99.99,
    100.00, 499.99 and 500.00 give small, medium, medium, large, large and
    very_large. *)
Theorem amount_category_by_thresholds P now df out r :
  transform_data P now df = inr out ->
  r ∈ rows out ->
  (get r "amount" = NA \/ exists x, get r "amount" = Num x) /\
  (get r "amount" = NA -> get r "amount_category" = Str "unknown") /\
  (forall x, get r "amount" = Num x ->
     (number_lt (number_abs x) 25 -> get r "amount_category" = Str "small") /\
     (number_ge (number_abs x) 25 -> number_lt (number_abs x) 100 ->
        get r "amount_category" = Str "medium") /\
     (number_ge (number_abs x) 100 -> number_lt (number_abs x) 500 ->
        get r "amount_category" = Str "large") /\
     (number_ge (number_abs x) 500 -> get r "amount_category" = Str "very_large")) /\
  (forall q s,
     (q, s) ∈ [(2499 # 100, "small"); (25 # 1, "medium"); (9999 # 100, "medium");
               (100 # 1, "large"); (49999 # 100, "large"); (500 # 1, "very_large")]%Q ->
     (get r "amount" = Num (Fin q) \/ get r "amount" = Num (Fin (- q)))  ->
     get r "amount_category" = Str s).
Proof.
  intros Ht Hr. unfold transform_data in Ht.
  destruct (dropna _ df) as [e|kept] eqn:Hd; [discriminate|].
  assert (Hout : out = transform_kept P now kept) by congruence.
  subst out. clear Ht.
  apply dropna_critical_rows in Hd as [Ham _].
  pose proof (transform_kept_amount P now kept Ham) as HF.
  apply list_elem_of_lookup in Hr as [i Hi].
  destruct (Forall2_lookup_r _ _ _ _ _ HF Hi) as (a & _ & Hamount & Hcat).
  unfold get. rewrite Hamount, Hcat. simpl.
  set (v := to_numeric P (default NA (a !! "amount"))).
  assert (Hv : v = NA \/ exists x, v = Num x) by apply to_numeric_float.
  split; [exact Hv|]. split; [|split].
  - intros ->. reflexivity.
  - intros x ->. simpl.
    destruct (categorize_amount_spec x) as (H1 & H2 & H3 & H4).
    repeat split; intros; f_equal; auto.
  - intros q s Hin Hq.
    repeat (apply elem_of_cons in Hin as [Hin | Hin];
            [injection Hin as -> ->; destruct Hq as [-> | ->]; reflexivity|]).
    inversion Hin.
Qed.

(** A row of a sample output: 24.99 is a small amount. *)
Lemma amount_category_by_thresholds_witness :
  transform_data Sample.codec Sample.clock Sample.two_rows
    = inr Sample.two_rows_out /\
  Sample.first_row_out ∈ rows Sample.two_rows_out /\
  get Sample.first_row_out "amount" = Num (Fin (2499 # 100)) /\
  get Sample.first_row_out "amount_category" = Str "small".
Proof.
  assert (Ht : transform_data Sample.codec Sample.clock Sample.two_rows
               = inr Sample.two_rows_out) by exact eq_refl.
  assert (Hr : Sample.first_row_out ∈ rows Sample.two_rows_out).
  { apply (list_elem_of_lookup_2 _ 0). exact eq_refl. }
  assert (Ha : get Sample.first_row_out "amount" = Num (Fin (2499 # 100)))
    by exact eq_refl.
  split; [exact Ht|]. split; [exact Hr|]. split; [exact Ha|].
  refine (proj2 (proj2 (proj2
            (amount_category_by_thresholds
               Sample.codec Sample.clock Sample.two_rows _ _ Ht Hr)))
          (2499 # 100)%Q "small" _ (or_introl Ha)).
  apply list_elem_of_here.
Defined.

(** For every input table that has both a [transaction_id] and an
    [amount] column, the transform returns a frame whose rows are, in
    order, exactly the input rows with both cells present; the row count is
    the input count less the number of rows lacking either cell, and never
    more than the input count. *)
Theorem transform_drops_rows_missing_critical P now df :
  has_column "transaction_id" df = true ->
  has_column "amount" df = true ->
  drops_exactly_missing P now df.
Proof.
  intros Hid Ham. unfold drops_exactly_missing, transform_data.
  destruct (dropna_has_columns ["transaction_id"; "amount"] df) as [kept Hk].
  { repeat constructor; assumption. }
  rewrite Hk. exists (transform_kept P now kept). split; [reflexivity|].
  apply dropna_critical_rows in Hk as [_ Hrows].
  pose proof (filter_lacks_critical (rows df)) as Hcount.
  rewrite transform_kept_length, Hrows. split; [|lia].
  rewrite <- Hrows.
  apply (Forall2_forall_r
           (fun c a r => c ∉ written_columns -> r !! c = a !! c) "transaction_id").
  intros c. destruct (decide (c ∈ written_columns)) as [Hin|Hout].
  - eapply Forall2_impl; [apply (transform_kept_frame P now "transaction_id" kept)|].
    + unfold written_columns. rewrite !not_elem_of_cons.
      repeat split; try congruence. apply not_elem_of_nil.
    + intros a r _ Hc. contradiction.
  - eapply Forall2_impl; [apply (transform_kept_frame P now c _ Hout)|].
    intros a r H _. exact H.
Qed.

(** Ten input rows of which two lack an amount give eight output rows. *)
Lemma transform_drops_rows_missing_critical_witness :
  has_column "transaction_id" Sample.ten_rows = true /\
  has_column "amount" Sample.ten_rows = true /\
  drops_exactly_missing Sample.codec Sample.clock Sample.ten_rows.
Proof.
  assert (Hid : has_column "transaction_id" Sample.ten_rows = true)
    by exact eq_refl.
  assert (Ham : has_column "amount" Sample.ten_rows = true)
    by exact eq_refl.
  split; [exact Hid|]. split; [exact Ham|].
  exact (transform_drops_rows_missing_critical
           Sample.codec Sample.clock Sample.ten_rows Hid Ham).
Defined.

Example ten_rows_two_without_amount :
  length (rows Sample.ten_rows) = 10 /\
  length (List.filter (fun r => isna (get r "amount")) (rows Sample.ten_rows)) = 2 /\
  option_map (fun out => length (rows out))
    (match transform_data Sample.codec Sample.clock Sample.ten_rows with
     | inr out => Some out
     | inl _ => None
     end) = Some 8.
Proof. repeat split; exact eq_refl. Qed.

(** C2 on a table without an [amount] column: [dropna] raises
    [KeyError] for the column, so the transform returns no frame at all,
    where the specification has it return the rows that have both cells.
    The tests [if 'amount' in df_transformed.columns] that follow show
    that the transform means to take such a table; they are never false,
    since every frame that [dropna] returns has the column. *)
Theorem transform_raises_without_amount_column P now df :
  has_column "amount" df = false ->
  (exists missing,
     "amount" ∈ missing /\
     transform_data P now df = inl (KeyError missing)) /\
  ~ drops_exactly_missing P now df /\
  (forall df' kept,
     dropna ["transaction_id"; "amount"] df' = inr kept ->
     has_column "amount" kept = true).
Proof.
  intros Ham.
  assert (H : exists missing,
            "amount" ∈ missing /\
            transform_data P now df = inl (KeyError missing)).
  { unfold transform_data, dropna. cbn [List.filter]. rewrite Ham. cbn [negb].
    destruct (has_column "transaction_id" df); cbn [negb];
      eexists; (split; [|reflexivity]).
    - apply list_elem_of_here.
    - apply list_elem_of_further, list_elem_of_here. }
  split; [exact H|]. split.
  - destruct H as (missing & _ & H). intros (out & Hout & _).
    rewrite H in Hout. discriminate.
  - intros df' kept Hk. now apply dropna_critical_rows in Hk as [Hk _].
Qed.

Lemma transform_raises_without_amount_column_witness :
  has_column "amount" Sample.no_amount_column = false /\
  exists missing,
    "amount" ∈ missing /\
    transform_data Sample.codec Sample.clock Sample.no_amount_column
      = inl (KeyError missing).
Proof.
  split; [exact eq_refl|].
  exact (proj1 (transform_raises_without_amount_column Sample.codec Sample.clock
                  Sample.no_amount_column eq_refl)).
Defined.

Example no_amount_column_sample :
  transform_data Sample.codec Sample.clock Sample.no_amount_column
    = inl (KeyError ["amount"]).
Proof. exact eq_refl. Qed.

(** C10: when the frame has a text column (description, category or
    location), every kept row in which that cell is missing comes out with
    the string "Nan" in it: the missing value is printed as "nan" by
    [astype(str)] and title-cased. *)
Theorem missing_text_becomes_Nan P now df out c :
  transform_data P now df = inr out ->
  c ∈ text_columns ->
  has_column c df = true ->
  Forall2 (fun a r => get a c = NA -> r !! c = Some (Str "Nan"))
          (List.filter has_critical (rows df)) (rows out).
Proof.
  intros Ht Hc Hhas. unfold transform_data in Ht.
  destruct (dropna _ df) as [e|kept] eqn:Hd; [discriminate|].
  assert (Hout : out = transform_kept P now kept) by congruence.
  subst out. clear Ht.
  pose proof (dropna_inr _ _ _ Hd) as (_ & Hcols & _).
  apply dropna_critical_rows in Hd as [_ Hrows]. rewrite <- Hrows.
  eapply Forall2_impl.
  - apply (transform_kept_text P now c kept Hc).
    unfold has_column. rewrite Hcols. exact Hhas.
  - intros a r Hr Hna. rewrite Hr, Hna. reflexivity.
Qed.

(** The first sample row has no description. *)
Lemma missing_text_becomes_Nan_witness :
  transform_data Sample.codec Sample.clock Sample.two_rows
    = inr Sample.two_rows_out /\
  "description" ∈ text_columns /\
  has_column "description" Sample.two_rows = true /\
  Forall2 (fun a r => get a "description" = NA ->
                      r !! "description" = Some (Str "Nan"))
          (List.filter has_critical (rows Sample.two_rows))
          (rows Sample.two_rows_out).
Proof.
  assert (Ht : transform_data Sample.codec Sample.clock Sample.two_rows
               = inr Sample.two_rows_out) by exact eq_refl.
  assert (Hh : has_column "description" Sample.two_rows = true)
    by exact eq_refl.
  split; [exact Ht|]. split; [apply list_elem_of_here|]. split; [exact Hh|].
  exact (missing_text_becomes_Nan
           Sample.codec Sample.clock Sample.two_rows _ "description"
           Ht (list_elem_of_here _ _) Hh).
Defined.

Example first_row_description_Nan :
  get (Sample.row (Str "TXN_20240726_0001") (Num (Fin (2499 # 100))) NA)
      "description" = NA /\
  Sample.first_row_out !! "description" = Some (Str "Nan").
Proof. split; exact eq_refl. Qed.

(** ** Decimal text *)

Lemma string_app_cons x (a b : string) : String x a +:+ b = String x (a +:+ b).
Proof. reflexivity. Qed.

Lemma string_app_nil_l (a : string) : "" +:+ a = a.
Proof. reflexivity. Qed.

Lemma string_app_assoc (a b c : string) : (a +:+ b) +:+ c = a +:+ (b +:+ c).
Proof.
  induction a as [|x a IH]; [reflexivity|].
  rewrite !string_app_cons. now f_equal.
Qed.

Lemma string_length_app (a b : string) :
  String.length (a +:+ b) = String.length a + String.length b.
Proof.
  induction a as [|x a IH]; [reflexivity|].
  rewrite string_app_cons. simpl. now f_equal.
Qed.

Lemma string_app_nil_r (a : string) : a +:+ "" = a.
Proof.
  induction a as [|x a IH]; [reflexivity|].
  rewrite string_app_cons. now f_equal.
Qed.

Lemma string_app_inv_head (a b c : string) : a +:+ b = a +:+ c -> b = c.
Proof.
  induction a as [|x a IH]; [auto|].
  rewrite !string_app_cons. intros H. injection H. auto.
Qed.

Lemma length_repeat_char c n : String.length (PyStr.repeat_char c n) = n.
Proof. induction n; simpl; congruence. Qed.

Lemma div10_lt n : n / 10 <> 0 -> n / 10 < n.
Proof. intros H. apply Nat.div_lt; [|lia]. destruct n; [|lia]. now simpl in H. Qed.

Lemma str_nat_from_written fuel : forall n written,
  PyStr.str_nat_from fuel n written = PyStr.str_nat_from fuel n "" +:+ written.
Proof.
  induction fuel as [|fuel IH]; intros n written; [reflexivity|].
  cbn [PyStr.str_nat_from]. cbv zeta.
  destruct (n / 10 =? 0); [reflexivity|].
  rewrite (IH _ (String _ written)), (IH _ (String _ "")).
  now rewrite string_app_assoc.
Qed.

Lemma str_nat_from_fuel fuel1 : forall fuel2 n written,
  n < fuel1 -> n < fuel2 ->
  PyStr.str_nat_from fuel1 n written = PyStr.str_nat_from fuel2 n written.
Proof.
  induction fuel1 as [|fuel1 IH]; intros fuel2 n written H1 H2; [lia|].
  destruct fuel2 as [|fuel2]; [lia|]. cbn [PyStr.str_nat_from]. cbv zeta.
  destruct (n / 10 =? 0) eqn:E; [reflexivity|].
  apply Nat.eqb_neq in E. pose proof (div10_lt n E).
  apply IH; lia.
Qed.

(** [str] writes the digits of [n // 10] and then the last digit. *)
Lemma str_nat_eq n :
  PyStr.str_nat n =
  if n / 10 =? 0 then String (PyStr.digit_char (n mod 10)) ""
  else PyStr.str_nat (n / 10) +:+ String (PyStr.digit_char (n mod 10)) "".
Proof.
  unfold PyStr.str_nat at 1. cbn [PyStr.str_nat_from]. cbv zeta.
  destruct (n / 10 =? 0) eqn:E; [reflexivity|].
  apply Nat.eqb_neq in E. pose proof (div10_lt n E).
  rewrite str_nat_from_written. f_equal.
  unfold PyStr.str_nat. apply str_nat_from_fuel; lia.
Qed.

Lemma digit_value_char d : d < 10 -> PyStr.digit_value (PyStr.digit_char d) = Some d.
Proof.
  intros H. do 10 (destruct d as [|d]; [reflexivity|]). lia.
Qed.

Lemma int_from_snoc a : forall v w d,
  PyStr.int_from v a = Some w -> d < 10 ->
  PyStr.int_from v (a +:+ String (PyStr.digit_char d) "") = Some (10 * w + d).
Proof.
  induction a as [|c a IH]; intros v w d Hv Hd.
  - rewrite string_app_nil_l. cbn [PyStr.int_from] in *.
    injection Hv as <-. now rewrite digit_value_char.
  - rewrite string_app_cons. cbn [PyStr.int_from] in *.
    destruct (PyStr.digit_value c); [|discriminate]. now apply IH.
Qed.

(** Reading what [str] wrote gives the number back. *)
Lemma int_from_str_nat n : PyStr.int_from 0 (PyStr.str_nat n) = Some n.
Proof.
  induction n as [n IH] using lt_wf_ind.
  rewrite str_nat_eq.
  pose proof (Nat.mod_upper_bound n 10 ltac:(lia)) as Hm.
  pose proof (Nat.div_mod_eq n 10) as Hdm.
  destruct (n / 10 =? 0) eqn:E.
  - apply Nat.eqb_eq in E. cbn [PyStr.int_from].
    rewrite digit_value_char by exact Hm. f_equal. lia.
  - apply Nat.eqb_neq in E. pose proof (div10_lt n E) as Hlt.
    rewrite (int_from_snoc _ 0 (n / 10)); [f_equal; lia| |exact Hm].
    now apply IH.
Qed.

Lemma str_nat_nonempty n : PyStr.str_nat n <> "".
Proof.
  rewrite str_nat_eq. destruct (n / 10 =? 0); [discriminate|].
  destruct (PyStr.str_nat (n / 10)); discriminate.
Qed.

Lemma int_from_zeros k s :
  PyStr.int_from 0 (PyStr.repeat_char "0" k +:+ s) = PyStr.int_from 0 s.
Proof.
  induction k as [|k IH]; [reflexivity|].
  cbn [PyStr.repeat_char]. rewrite string_app_cons. exact IH.
Qed.

(** A zero-padded number reads as the number. *)
Lemma int_of_fmt_0d w n : PyStr.int_of (PyStr.fmt_0d w n) = Some n.
Proof.
  unfold PyStr.int_of, PyStr.fmt_0d, PyStr.zfill.
  destruct (PyStr.repeat_char "0" _ +:+ PyStr.str_nat n) eqn:E.
  - exfalso. destruct (PyStr.repeat_char "0" _); [|discriminate].
    now apply (str_nat_nonempty n).
  - rewrite <- E, int_from_zeros. apply int_from_str_nat.
Qed.

Lemma fmt_0d_inj w n m : PyStr.fmt_0d w n = PyStr.fmt_0d w m -> n = m.
Proof.
  intros H. apply (f_equal PyStr.int_of) in H.
  rewrite !int_of_fmt_0d in H. congruence.
Qed.

Lemma length_fmt_0d w n : w <= String.length (PyStr.fmt_0d w n).
Proof.
  unfold PyStr.fmt_0d, PyStr.zfill.
  rewrite string_length_app, length_repeat_char. lia.
Qed.

(** Below 100 the two-digit field is the two decimal digits, below 10000
    the four-digit field is the four decimal digits. *)
Lemma fmt_0d_two_digits n : n < 100 -> PyStr.fmt_0d 2 n = KeyLayout.two_digits n.
Proof.
  intros H. unfold PyStr.fmt_0d, KeyLayout.two_digits, KeyLayout.digit.
  rewrite str_nat_eq. destruct (n / 10 =? 0) eqn:E1.
  - apply Nat.eqb_eq in E1. rewrite E1. reflexivity.
  - rewrite str_nat_eq.
    replace (n / 10 / 10) with 0
      by (symmetry; apply Nat.div_small; apply Nat.Div0.div_lt_upper_bound; lia).
    reflexivity.
Qed.

Lemma fmt_0d_four_digits n :
  n < 100 * 100 -> PyStr.fmt_0d 4 n = KeyLayout.four_digits n.
Proof.
  intros H.
  unfold PyStr.fmt_0d, KeyLayout.four_digits, KeyLayout.two_digits, KeyLayout.digit.
  assert (H100 : n / 100 = n / 10 / 10) by (now rewrite Nat.Div0.div_div).
  assert (H1000 : n / 1000 = n / 10 / 10 / 10) by (now rewrite !Nat.Div0.div_div).
  rewrite H100, H1000.
  rewrite str_nat_eq. destruct (n / 10 =? 0) eqn:E1.
  { apply Nat.eqb_eq in E1. rewrite E1. reflexivity. }
  rewrite str_nat_eq. destruct (n / 10 / 10 =? 0) eqn:E2.
  { apply Nat.eqb_eq in E2. rewrite E2. reflexivity. }
  rewrite str_nat_eq. destruct (n / 10 / 10 / 10 =? 0) eqn:E3.
  { apply Nat.eqb_eq in E3. rewrite E3. reflexivity. }
  rewrite str_nat_eq.
  replace (n / 10 / 10 / 10 / 10) with 0; [reflexivity|].
  symmetry. apply Nat.div_small. rewrite <- H1000.
  apply Nat.Div0.div_lt_upper_bound. lia.
Qed.

(** From 1000 on [str] writes the four decimal digits. *)
Lemma str_nat_four_digits n :
  1000 <= n -> n < 100 * 100 -> PyStr.str_nat n = KeyLayout.four_digits n.
Proof.
  intros Hlo Hhi.
  unfold KeyLayout.four_digits, KeyLayout.two_digits, KeyLayout.digit.
  assert (H100 : n / 100 = n / 10 / 10) by (now rewrite Nat.Div0.div_div).
  assert (H1000 : n / 1000 = n / 10 / 10 / 10) by (now rewrite !Nat.Div0.div_div).
  assert (H3 : 1 <= n / 1000) by (apply Nat.div_le_lower_bound; lia).
  assert (H2 : 10 <= n / 100) by (apply Nat.div_le_lower_bound; lia).
  assert (H1 : 100 <= n / 10) by (apply Nat.div_le_lower_bound; lia).
  rewrite H100 in *. rewrite H1000 in *.
  rewrite str_nat_eq. destruct (n / 10 =? 0) eqn:E1.
  { apply Nat.eqb_eq in E1. lia. }
  rewrite str_nat_eq. destruct (n / 10 / 10 =? 0) eqn:E2.
  { apply Nat.eqb_eq in E2. lia. }
  rewrite str_nat_eq. destruct (n / 10 / 10 / 10 =? 0) eqn:E3.
  { apply Nat.eqb_eq in E3. lia. }
  rewrite str_nat_eq.
  replace (n / 10 / 10 / 10 / 10) with 0; [reflexivity|].
  symmetry. apply Nat.div_small.
  replace (n / 10 / 10 / 10) with (n / 1000) by (now rewrite !Nat.Div0.div_div).
  apply Nat.Div0.div_lt_upper_bound. lia.
Qed.

(** ** Dates *)

Lemma days_in_month_le y m : PyTime.days_in_month y m <= 31.
Proof.
  unfold PyTime.days_in_month.
  do 12 (destruct m as [|m]; [try destruct (PyTime.is_leap y); lia|]). lia.
Qed.

Lemma valid_bounds t :
  PyTime.valid t = true ->
  year t < 100 * 100 /\ month t < 100 /\ day t < 100.
Proof.
  unfold PyTime.valid. rewrite !andb_true_iff, !Nat.leb_le, !Nat.ltb_lt.
  intros H.
  assert (Hmax : PyTime.MAXYEAR < 100 * 100).
  { apply Nat.ltb_lt. vm_compute. reflexivity. }
  pose proof (days_in_month_le (year t) (month t)). lia.
Qed.

(** On a valid date the month and the day are the digits of the layout,
    and so is the year from 1000 on. *)
Lemma strftime_md_fields t :
  PyTime.valid t = true ->
  PyTime.fmt_m t = KeyLayout.MM t /\
  PyTime.fmt_d t = KeyLayout.DD t.
Proof.
  intros Hv. apply valid_bounds in Hv as (Hy & Hm & Hd).
  unfold PyTime.fmt_m, PyTime.fmt_d, KeyLayout.MM, KeyLayout.DD.
  now rewrite (fmt_0d_two_digits _ Hm), (fmt_0d_two_digits _ Hd).
Qed.

Lemma strftime_fields t :
  PyTime.valid t = true ->
  1000 <= year t ->
  PyTime.fmt_Y t = KeyLayout.YYYY t /\
  PyTime.fmt_m t = KeyLayout.MM t /\
  PyTime.fmt_d t = KeyLayout.DD t /\
  PyTime.strftime_Ymd t = KeyLayout.YYYYMMDD t.
Proof.
  intros Hv Hy1. destruct (strftime_md_fields t Hv) as [Hm Hd].
  apply valid_bounds in Hv as (Hy & _ & _).
  unfold PyTime.strftime_Ymd, KeyLayout.YYYYMMDD.
  rewrite Hm, Hd. unfold PyTime.fmt_Y, KeyLayout.YYYY.
  rewrite (str_nat_four_digits _ Hy1 Hy).
  repeat split; reflexivity.
Qed.

Lemma add_days_mono k : forall n d,
  k <= n -> is_Some (PyTime.add_days n d) -> is_Some (PyTime.add_days k d).
Proof.
  induction k as [|k IH]; intros n d Hle Hn; [now eexists|].
  destruct n as [|n]; [lia|]. cbn [PyTime.add_days] in *.
  destruct (PyTime.next_day d) as [d'|].
  - apply (IH n); [lia|exact Hn].
  - exact Hn.
Qed.

(** A shorter offset overflows no sooner than a longer one. *)
Lemma add_timedelta_mono t h m h' m' :
  h <= h' -> m <= m' ->
  is_Some (PyTime.add_timedelta t h' m') -> is_Some (PyTime.add_timedelta t h m).
Proof.
  intros Hh Hm. unfold PyTime.add_timedelta. cbv zeta.
  set (mins := hour t * 60 + minute t + h * 60 + m).
  set (mins' := hour t * 60 + minute t + h' * 60 + m').
  intros H.
  assert (Hd : is_Some (PyTime.add_days (mins' / 1440) (year t, month t, day t))).
  { destruct (PyTime.add_days (mins' / 1440) _) as [[[? ?] ?]|]; [now eexists|].
    destruct H as [? H]. discriminate. }
  apply (add_days_mono (mins / 1440)) in Hd.
  - destruct Hd as [[[y mo] d] ->]. now eexists.
  - apply Nat.Div0.div_le_mono. subst mins mins'. lia.
Qed.

(** From midnight an offset below one day stays within the day. *)
Lemma add_timedelta_midnight t h m :
  hour t = 0 -> minute t = 0 -> h < 24 -> m < 60 ->
  PyTime.add_timedelta t h m =
    Some {| year := year t; month := month t; day := day t;
            hour := h; minute := m;
            second := second t; microsecond := microsecond t |}.
Proof.
  intros Hh Hm Hlt Hlt'. unfold PyTime.add_timedelta. cbv zeta.
  rewrite Hh, Hm.
  replace (0 * 60 + 0 + h * 60 + m) with (m + h * 60) by lia.
  rewrite (Nat.div_small (m + h * 60) 1440) by lia.
  rewrite (Nat.mod_small (m + h * 60) 1440) by lia.
  rewrite Nat.div_add by lia. rewrite Nat.Div0.mod_add.
  rewrite (Nat.div_small m 60), (Nat.mod_small m 60) by lia.
  reflexivity.
Qed.

(** ** The generator *)

Section GeneratorFacts.

Context {G : Type}.
Variable R : random_source G.
Variable round2 : Q -> Q.
Hypothesis R_ok : random_ok R.

Lemma choice_inr {A : Type} (seq : list A) (g : G) :
  0 < length seq -> exists x g', Uploader.choice R seq g = inr (x, g').
Proof.
  intros Hlen. unfold Uploader.choice.
  pose proof (below_range R R_ok (length seq) g Hlen) as Hlt.
  destruct (rand_below R (length seq) g) as [i g']. simpl in Hlt.
  destruct (lookup_lt_is_Some_2 seq i Hlt) as [x ->]. eauto.
Qed.

(** What one pass of the loop returns, when it returns. *)
Lemma generate_record_inr date i g r g' :
  Uploader.generate_record R round2 date i g = inr (r, g') ->
  Uploader.transaction_id r
    = "TXN_" +:+ PyTime.strftime_Ymd date +:+ "_" +:+ PyStr.fmt_0d 4 (i + 1) /\
  exists hours minutes transaction_time,
    6 <= hours <= 22 /\ minutes <= 59 /\
    PyTime.add_timedelta date hours minutes = Some transaction_time /\
    Uploader.date r = PyTime.strftime_date transaction_time /\
    Uploader.timestamp r = PyTime.strftime_datetime transaction_time.
Proof.
  unfold Uploader.generate_record.
  destruct (rand_random R g) as [u g1].
  destruct (Uploader.choice R _ g1) as [e|[[category description] g2]];
    [discriminate|].
  destruct (if negb (Qle_bool Uploader.float_0_3 u)
            then rand_uniform R 500 5000 g2 else rand_uniform R 10 500 g2)
    as [x g3].
  pose proof (randint_range R R_ok 6 22 g3 ltac:(lia)) as Hh.
  destruct (rand_randint R 6 22 g3) as [hours g4]. simpl in Hh.
  pose proof (randint_range R R_ok 0 59 g4 ltac:(lia)) as Hm.
  destruct (rand_randint R 0 59 g4) as [minutes g5]. simpl in Hm.
  destruct (PyTime.add_timedelta date hours minutes) as [tt|] eqn:Ett;
    [|discriminate].
  destruct (Uploader.choice R Uploader.accounts g5) as [e|[account g6]];
    [discriminate|].
  destruct (Uploader.choice R Uploader.locations g6) as [e|[location g7]];
    [discriminate|].
  intros H. injection H as <- <-. cbn.
  split; [reflexivity|].
  exists hours, minutes, tt. repeat split; try lia. exact Ett.
Qed.

(** One pass of the loop returns a record unless the date overflows. *)
Lemma generate_record_total date i g :
  is_Some (PyTime.add_timedelta date 22 59) ->
  exists r g', Uploader.generate_record R round2 date i g = inr (r, g').
Proof.
  intros Hfit. unfold Uploader.generate_record.
  destruct (rand_random R g) as [u g1].
  destruct (choice_inr
              (if negb (Qle_bool Uploader.float_0_3 u)
               then Uploader.income_categories else Uploader.expense_categories) g1)
    as ([category description] & g2 & ->).
  { destruct (negb _); simpl; lia. }
  destruct (if negb (Qle_bool Uploader.float_0_3 u)
            then rand_uniform R 500 5000 g2 else rand_uniform R 10 500 g2)
    as [x g3].
  pose proof (randint_range R R_ok 6 22 g3 ltac:(lia)) as Hh.
  destruct (rand_randint R 6 22 g3) as [hours g4]. simpl in Hh.
  pose proof (randint_range R R_ok 0 59 g4 ltac:(lia)) as Hm.
  destruct (rand_randint R 0 59 g4) as [minutes g5]. simpl in Hm.
  destruct (add_timedelta_mono date hours minutes 22 59) as [tt ->];
    [lia|lia|exact Hfit|].
  destruct (choice_inr Uploader.accounts g5) as (account & g6 & ->);
    [simpl; lia|].
  destruct (choice_inr Uploader.locations g6) as (location & g7 & ->);
    [simpl; lia|].
  eauto.
Qed.

Lemma generate_from_inr date n : forall i g data,
  Uploader.generate_from R round2 date i n g = inr data ->
  length data = n /\
  forall k r, data !! k = Some r ->
    exists g0 g', Uploader.generate_record R round2 date (i + k) g0 = inr (r, g').
Proof.
  induction n as [|n IH]; intros i g data H; cbn [Uploader.generate_from] in H.
  - injection H as <-. split; [reflexivity|]. intros k r Hk. discriminate.
  - destruct (Uploader.generate_record R round2 date i g) as [e|[r0 g1]] eqn:E0;
      [discriminate|].
    destruct (Uploader.generate_from R round2 date (S i) n g1) as [e|rest] eqn:Er;
      [discriminate|].
    injection H as <-. destruct (IH _ _ _ Er) as [Hlen Hrest].
    split; [simpl; now rewrite Hlen|].
    intros [|k] r Hk; simpl in Hk.
    + injection Hk as <-. rewrite Nat.add_0_r. eauto.
    + replace (i + S k) with (S i + k) by lia. now apply Hrest.
Qed.

Lemma generate_from_total date n : forall i g,
  is_Some (PyTime.add_timedelta date 22 59) ->
  exists data, Uploader.generate_from R round2 date i n g = inr data.
Proof.
  induction n as [|n IH]; intros i g Hfit; cbn [Uploader.generate_from].
  - eauto.
  - destruct (generate_record_total date i g Hfit) as (r & g' & ->).
    destruct (IH (S i) g' Hfit) as [rest ->]. eauto.
Qed.

End GeneratorFacts.

(** C4, as amended: for every folder and every (valid) date of the year
    1000 or later, the key that [upload_csv_data] and [upload_json_data] put
    the object under is
    [<folder>/year=<YYYY>/month=<MM>/day=<DD>/transactions-<YYYYMMDD>.<ext>]
    with [ext] csv and json: a function of the folder, the date and the
    extension only, which the call returns when the store accepts the
    object. Folder raw-data, date 2024-07-26 and csv give
    raw-data/year=2024/month=07/day=26/transactions-20240726.csv. *)
Theorem upload_key_is_partition_path
    (bucket_name : string) (to_csv to_json : list Uploader.transaction -> string)
    (put_object : put_request -> option exn)
    (now now' : datetime) (df : list Uploader.transaction)
    (date : datetime) (folder : string) :
  PyTime.valid date = true ->
  1000 <= year date ->
  Key (Uploader.upload_csv_request bucket_name to_csv now now' df (Some date) folder)
    = KeyLayout.generate_key folder date "csv" /\
  Key (Uploader.upload_json_request bucket_name to_json now now' df (Some date) folder)
    = KeyLayout.generate_key folder date "json" /\
  (put_object (Uploader.upload_csv_request bucket_name to_csv now now' df
                 (Some date) folder) = None ->
   snd (Uploader.upload_csv_data bucket_name to_csv put_object
          now now' df (Some date) folder)
     = inr (KeyLayout.generate_key folder date "csv")) /\
  KeyLayout.generate_key "raw-data" (midnight 2024 7 26) "csv"
    = "raw-data/year=2024/month=07/day=26/transactions-20240726.csv".
Proof.
  intros Hv Hy. destruct (strftime_fields date Hv Hy) as (HY & Hm & Hd & HYmd).
  assert (Hcsv : Key (Uploader.upload_csv_request bucket_name to_csv now now' df
                        (Some date) folder)
                 = KeyLayout.generate_key folder date "csv").
  { unfold Uploader.upload_csv_request, KeyLayout.generate_key. cbn [Key].
    rewrite HY, Hm, Hd, HYmd. reflexivity. }
  split; [exact Hcsv|]. split; [|split].
  - unfold Uploader.upload_json_request, KeyLayout.generate_key. cbn [Key].
    rewrite HY, Hm, Hd, HYmd. reflexivity.
  - intros Hput. unfold Uploader.upload_csv_data. cbv zeta. cbn [snd].
    now rewrite Hput, Hcsv.
  - vm_compute. reflexivity.
Qed.

Lemma upload_key_is_partition_path_witness :
  PyTime.valid (midnight 2024 7 26) = true /\
  1000 <= year (midnight 2024 7 26) /\
  Key (Uploader.upload_csv_request "your-portfolio-etl-bucket" (fun _ => "")
         Sample.clock Sample.clock [] (Some (midnight 2024 7 26)) "raw-data")
    = KeyLayout.generate_key "raw-data" (midnight 2024 7 26) "csv".
Proof.
  assert (Hv : PyTime.valid (midnight 2024 7 26) = true)
    by (vm_compute; reflexivity).
  assert (Hy : 1000 <= year (midnight 2024 7 26)) by (cbn; lia).
  split; [exact Hv|]. split; [exact Hy|].
  exact (proj1 (upload_key_is_partition_path
                  "your-portfolio-etl-bucket" (fun _ => "") (fun _ => "")
                  (fun _ => None) Sample.clock Sample.clock []
                  (midnight 2024 7 26) "raw-data" Hv Hy)).
Defined.

(** C4 as stated, at a date before the year 1000: [strftime('%Y')] writes
    the year 999 with three digits, so the key of the upload for
    0999-07-26 has [year=999] and [transactions-9990726], not the four
    digits of the layout. *)
Lemma upload_key_of_year_999 :
  PyTime.valid Sample.in_year_999 = true /\
  Key (Uploader.upload_csv_request "your-portfolio-etl-bucket" (fun _ => "")
         Sample.clock Sample.clock [] (Some Sample.in_year_999) "raw-data")
    = "raw-data/year=999/month=07/day=26/transactions-9990726.csv" /\
  KeyLayout.generate_key "raw-data" Sample.in_year_999 "csv"
    = "raw-data/year=0999/month=07/day=26/transactions-09990726.csv" /\
  Key (Uploader.upload_csv_request "your-portfolio-etl-bucket" (fun _ => "")
         Sample.clock Sample.clock [] (Some Sample.in_year_999) "raw-data")
    <> KeyLayout.generate_key "raw-data" Sample.in_year_999 "csv".
Proof.
  assert (HK : Key (Uploader.upload_csv_request "your-portfolio-etl-bucket"
                      (fun _ => "") Sample.clock Sample.clock []
                      (Some Sample.in_year_999) "raw-data")
               = "raw-data/year=999/month=07/day=26/transactions-9990726.csv")
    by (vm_compute; reflexivity).
  assert (HL : KeyLayout.generate_key "raw-data" Sample.in_year_999 "csv"
               = "raw-data/year=0999/month=07/day=26/transactions-09990726.csv")
    by (vm_compute; reflexivity).
  split; [vm_compute; reflexivity|]. split; [exact HK|]. split; [exact HL|].
  rewrite HK, HL. discriminate.
Qed.

(** The identifier of the k-th record of a batch. *)
Lemma generate_from_ids {G : Type} (R : random_source G) round2 date n g data :
  random_ok R ->
  Uploader.generate_from R round2 date 0 n g = inr data ->
  forall k r, data !! k = Some r ->
    Uploader.transaction_id r
      = "TXN_" +:+ PyTime.strftime_Ymd date +:+ "_" +:+ PyStr.fmt_0d 4 (k + 1).
Proof.
  intros Hok Hd k r Hk.
  destruct (generate_from_inr R round2 date n 0 g data Hd) as [_ Hrec].
  destruct (Hrec k r Hk) as (g0 & g' & Hr).
  apply (generate_record_inr R round2 Hok) in Hr as [Hid _]. exact Hid.
Qed.

(** For every (valid) date of the year 1000 or later whose latest
    possible transaction time, the date plus 22 hours 59 minutes, is still
    a representable date-time, and for every count N, the generator returns
    exactly N records; their transaction identifiers are pairwise distinct
    and the k-th is TXN_<YYYYMMDD>_<seq> with seq the number k + 1 (from 1)
    zero-padded to four digits. *)
Theorem generator_batch_unique_ids {G : Type} (R : random_source G)
    (round2 : Q -> Q) (now date : datetime) (count : nat) (g : G) :
  random_ok R ->
  PyTime.valid date = true ->
  1000 <= year date ->
  is_Some (PyTime.add_timedelta date 22 59) ->
  generates_batch R round2 now date count g.
Proof.
  intros Hok Hv Hy Hfit. unfold generates_batch, Uploader.generate_sample_data.
  destruct (generate_from_total R round2 Hok date count 0 g Hfit) as [data Hd].
  exists data. split; [exact Hd|].
  destruct (generate_from_inr R round2 date count 0 g data Hd) as [Hlen _].
  pose proof (generate_from_ids R round2 date count g data Hok Hd) as Hids.
  split; [exact Hlen|]. split.
  - apply NoDup_alt. intros i j x Hi Hj.
    apply list_lookup_fmap_Some in Hi as (ri & -> & Hri).
    apply list_lookup_fmap_Some in Hj as (rj & Heq & Hrj).
    rewrite (Hids _ _ Hri), (Hids _ _ Hrj) in Heq.
    do 3 apply string_app_inv_head in Heq.
    apply fmt_0d_inj in Heq. lia.
  - intros k r Hk. exists (PyStr.fmt_0d 4 (k + 1)).
    destruct (strftime_fields date Hv Hy) as (_ & _ & _ & HYmd).
    rewrite (Hids _ _ Hk), HYmd.
    split; [reflexivity|]. split; [apply int_of_fmt_0d|].
    split; [apply length_fmt_0d|].
    intros Hk4. now rewrite fmt_0d_four_digits.
Qed.

Lemma least_random_ok : random_ok Sample.least.
Proof. split; simpl; intros; lia. Qed.

Lemma generator_batch_unique_ids_witness :
  random_ok Sample.least /\
  PyTime.valid Sample.evening = true /\
  1000 <= year Sample.evening /\
  is_Some (PyTime.add_timedelta Sample.evening 22 59) /\
  generates_batch Sample.least Sample.round2 Sample.clock Sample.evening 3 tt.
Proof.
  assert (Hok : random_ok Sample.least) by exact least_random_ok.
  assert (Hv : PyTime.valid Sample.evening = true) by (vm_compute; reflexivity).
  assert (Hy : 1000 <= year Sample.evening) by (cbn; lia).
  assert (Hfit : is_Some (PyTime.add_timedelta Sample.evening 22 59))
    by (eexists; vm_compute; reflexivity).
  split; [exact Hok|]. split; [exact Hv|]. split; [exact Hy|]. split; [exact Hfit|].
  exact (generator_batch_unique_ids Sample.least Sample.round2 Sample.clock
           Sample.evening 3 tt Hok Hv Hy Hfit).
Defined.

(** When the least transaction time, the date plus six hours, is past the
    last representable date-time, one pass of the loop raises. *)
Lemma generate_record_overflows {G : Type} (R : random_source G) round2 date i g :
  random_ok R ->
  PyTime.add_timedelta date 6 0 = None ->
  Uploader.generate_record R round2 date i g = inl OverflowError.
Proof.
  intros Hok Hover. unfold Uploader.generate_record.
  destruct (rand_random R g) as [u g1].
  destruct (choice_inr R Hok
              (if negb (Qle_bool Uploader.float_0_3 u)
               then Uploader.income_categories else Uploader.expense_categories) g1)
    as ([category description] & g2 & ->).
  { destruct (negb _); simpl; lia. }
  destruct (if negb (Qle_bool Uploader.float_0_3 u)
            then rand_uniform R 500 5000 g2 else rand_uniform R 10 500 g2)
    as [x g3].
  pose proof (randint_range R Hok 6 22 g3 ltac:(lia)) as Hh.
  destruct (rand_randint R 6 22 g3) as [hours g4]. simpl in Hh.
  pose proof (randint_range R Hok 0 59 g4 ltac:(lia)) as Hm.
  destruct (rand_randint R 0 59 g4) as [minutes g5]. simpl in Hm.
  destruct (PyTime.add_timedelta date hours minutes) as [tt|] eqn:Ett;
    [|reflexivity].
  destruct (add_timedelta_mono date 6 0 hours minutes) as [tt' Htt'];
    [lia|lia|rewrite Ett; eauto|].
  rewrite Hover in Htt'. discriminate.
Qed.

(** C8 on the evening of 9999-12-31: whatever the random draws and
    whatever the count (one record or more), the transaction time of the
    first record, the date argument plus at least six hours, is past the
    last representable date-time; the generator raises [OverflowError] and
    returns no record, where the specification has it return the
    batch. *)
Theorem generator_overflows_on_last_evening {G : Type} (R : random_source G)
    (round2 : Q -> Q) (now : datetime) (count : nat) (g : G) :
  random_ok R ->
  0 < count ->
  PyTime.valid Sample.last_evening = true /\
  Uploader.generate_sample_data R round2 now (Some Sample.last_evening) count g
    = inl OverflowError /\
  ~ generates_batch R round2 now Sample.last_evening count g.
Proof.
  intros Hok Hcount.
  assert (H : Uploader.generate_sample_data R round2 now
                (Some Sample.last_evening) count g = inl OverflowError).
  { unfold Uploader.generate_sample_data.
    destruct count as [|n]; [lia|]. cbn [Uploader.generate_from].
    rewrite (generate_record_overflows R round2 _ _ _ Hok); [reflexivity|].
    vm_compute. reflexivity. }
  split; [vm_compute; reflexivity|]. split; [exact H|].
  intros (data & Hd & _). rewrite H in Hd. discriminate.
Qed.

Lemma generator_overflows_on_last_evening_witness :
  random_ok Sample.least /\
  Uploader.generate_sample_data Sample.least Sample.round2 Sample.clock
    (Some Sample.last_evening) 1 tt = inl OverflowError.
Proof.
  split; [exact least_random_ok|].
  exact (proj1 (proj2 (generator_overflows_on_last_evening Sample.least
                         Sample.round2 Sample.clock 1 tt least_random_ok
                         ltac:(lia)))).
Defined.

(** C9 at a date argument that carries a time of day, 2024-07-26 20:00,
    whether passed or read from the clock as the default: the hour drawn
    is added to it, the timestamp is 02:00 on the next day, and the date
    field follows the timestamp while the identifier keeps the day of the
    argument. *)
Theorem generated_timestamp_leaves_the_day :
  exists r,
    Uploader.generate_sample_data Sample.least Sample.round2 Sample.clock
      (Some Sample.evening) 1 tt = inr [r] /\
    Uploader.generate_sample_data Sample.least Sample.round2 Sample.evening
      None 1 tt = inr [r] /\
    Uploader.transaction_id r = "TXN_20240726_0001" /\
    Uploader.date r = "2024-07-27" /\
    Uploader.timestamp r = "2024-07-27 02:00:00".
Proof.
  eexists. split; [vm_compute; reflexivity|].
  repeat split; vm_compute; reflexivity.
Qed.

(** With the greatest draws the time of day is back between 06:00 and
    22:59, on the next day. *)
Example generated_timestamp_next_day :
  Uploader.timestamp <$>
    match Uploader.generate_sample_data Sample.greatest Sample.round2
            Sample.clock (Some Sample.evening) 1 tt with
    | inr data => data
    | inl _ => []
    end
  = ["2024-07-27 18:59:00"].
Proof. vm_compute. reflexivity. Qed.

(** From a date argument at midnight every record is stamped on the day
    of the argument, between 06:00 and 22:59. *)
Lemma generated_timestamp_within_day_from_midnight {G : Type}
    (R : random_source G) (round2 : Q -> Q) (now date : datetime)
    (count : nat) (g : G) (data : list Uploader.transaction) :
  random_ok R ->
  hour date = 0 -> minute date = 0 ->
  Uploader.generate_sample_data R round2 now (Some date) count g = inr data ->
  forall r, r ∈ data ->
    exists hours minutes,
      6 <= hours <= 22 /\ minutes <= 59 /\
      Uploader.date r = PyTime.strftime_date date /\
      Uploader.timestamp r
        = PyTime.strftime_date date +:+ " " +:+ PyStr.fmt_0d 2 hours +:+ ":" +:+
          PyStr.fmt_0d 2 minutes +:+ ":" +:+ PyTime.fmt_S date.
Proof.
  intros Hok Hh Hm Hd r Hr. unfold Uploader.generate_sample_data in Hd.
  apply list_elem_of_lookup in Hr as [k Hk].
  destruct (generate_from_inr R round2 date count 0 g data Hd) as [_ Hrec].
  destruct (Hrec k r Hk) as (g0 & g' & Hrk).
  apply (generate_record_inr R round2 Hok) in Hrk
    as (_ & hours & minutes & tt & Hhours & Hminutes & Htt & Hdate & Hts).
  rewrite add_timedelta_midnight in Htt by (assumption || lia).
  injection Htt as <-.
  exists hours, minutes. split; [exact Hhours|]. split; [exact Hminutes|].
  split; [exact Hdate|]. exact Hts.
Qed.

(** ** The write-back key *)

Lemma prefix_cons_same a s1 s2 :
  String.prefix (String a s1) (String a s2) = String.prefix s1 s2.
Proof. cbn [String.prefix]. destruct (ascii_dec a a); congruence. Qed.

Lemma prefix_cons_diff a b s1 s2 :
  a <> b -> String.prefix (String a s1) (String b s2) = false.
Proof. intros H. cbn [String.prefix]. destruct (ascii_dec a b); congruence. Qed.

Lemma prefix_app old : forall s,
  String.prefix old s = true -> exists t, s = old +:+ t.
Proof.
  induction old as [|c old IH]; intros s H.
  - exists s. reflexivity.
  - destruct s as [|c' s]; [discriminate|]. cbn [String.prefix] in H.
    destruct (ascii_dec c c') as [<-|]; [|discriminate].
    destruct (IH _ H) as [t ->]. exists t. reflexivity.
Qed.

Lemma prefix_length old s :
  String.prefix old s = true -> String.length old <= String.length s.
Proof.
  intros H. destruct (prefix_app _ _ H) as [t ->].
  rewrite string_length_app. lia.
Qed.

(** An occurrence list is made of positions from [i] on, where [old]
    fits. *)
Lemma find_all_from_bounds old : forall s i p,
  p ∈ PyStr.find_all_from old i s ->
  i <= p /\ p + String.length old <= i + String.length s.
Proof.
  induction s as [|c s IH]; intros i p Hp; cbn [PyStr.find_all_from] in Hp.
  - rewrite app_nil_r in Hp.
    destruct (String.prefix old "") eqn:E; [|inversion Hp].
    apply prefix_length in E. apply list_elem_of_singleton in Hp as ->.
    simpl in *. lia.
  - apply elem_of_app in Hp as [Hp|Hp].
    + destruct (String.prefix old (String c s)) eqn:E; [|inversion Hp].
      apply prefix_length in E. apply list_elem_of_singleton in Hp as ->.
      simpl in *. lia.
    + apply IH in Hp. simpl. lia.
Qed.

(** Where [old] does not occur, [replace] changes nothing. *)
Lemma replace_from_none old new : forall s i,
  PyStr.find_all_from old i s = [] -> PyStr.replace_from old new 0 s = s.
Proof.
  induction s as [|c s IH]; intros i H; [reflexivity|].
  cbn [PyStr.find_all_from PyStr.replace_from] in *.
  destruct (String.prefix old (String c s)); [discriminate|].
  simpl in H. f_equal. now apply (IH (S i)).
Qed.

(** The characters of a matched occurrence are passed over. *)
Lemma replace_from_skip old new : forall a s,
  PyStr.replace_from old new (String.length a) (a +:+ s)
  = PyStr.replace_from old new 0 s.
Proof.
  induction a as [|c a IH]; intros s.
  - rewrite string_app_nil_l. reflexivity.
  - rewrite string_app_cons. cbn [String.length PyStr.replace_from].
    apply IH.
Qed.

(** A character that does not start an occurrence is copied. *)
Lemma replace_from_cons_diff o old new c s :
  o <> c ->
  PyStr.replace_from (String o old) new 0 (String c s)
  = String c (PyStr.replace_from (String o old) new 0 s).
Proof.
  intros H. cbn [PyStr.replace_from]. now rewrite prefix_cons_diff.
Qed.

Lemma replace_from_skip_all old new a :
  PyStr.replace_from old new (String.length a) a = "".
Proof.
  rewrite <- (string_app_nil_r a) at 2. apply (replace_from_skip old new a "").
Qed.

Lemma find_all_from_app old : forall a s i,
  PyStr.find_all_from old i (a +:+ s) = [] ->
  PyStr.find_all_from old (i + String.length a) s = [].
Proof.
  induction a as [|c a IH]; intros s i H.
  - rewrite string_app_nil_l in H. simpl. now rewrite Nat.add_0_r.
  - rewrite string_app_cons in H. cbn [PyStr.find_all_from] in H.
    apply app_eq_nil in H as [_ H]. apply IH in H.
    simpl. now rewrite Nat.add_succ_r.
Qed.

(** An occurrence at the start and nowhere else: the occurrence is
    replaced, what follows is kept. *)
Lemma replace_leading old new s :
  old <> "" ->
  PyStr.find_all old s = [0] ->
  exists t, s = old +:+ t /\
            PyStr.find_all_from old (String.length old) t = [] /\
            PyStr.replace s old new = new +:+ t.
Proof.
  intros Hold H. unfold PyStr.find_all, PyStr.replace in *.
  destruct old as [|o old]; [congruence|]. clear Hold.
  destruct s as [|c s].
  { cbn in H. discriminate. }
  cbn [PyStr.find_all_from PyStr.replace_from] in *.
  destruct (String.prefix (String o old) (String c s)) eqn:E.
  - injection H as H.
    destruct (prefix_app _ _ E) as [t Ht]. exists t.
    rewrite string_app_cons in Ht. injection Ht as -> ->.
    split; [reflexivity|].
    pose proof (find_all_from_app _ old t 1 H) as Ht.
    split; [exact Ht|].
    f_equal.
    cbn [String.length]. rewrite Nat.sub_succ, Nat.sub_0_r.
    rewrite replace_from_skip.
    now apply (replace_from_none _ _ _ (1 + String.length old)).
  - simpl in H.
    assert (Hin : 0 ∈ PyStr.find_all_from (String o old) 1 s).
    { rewrite H. apply list_elem_of_here. }
    apply find_all_from_bounds in Hin. lia.
Qed.

(** An occurrence at the end and nowhere else: what precedes is kept,
    the occurrence is replaced. *)
Lemma replace_trailing old new : forall s i,
  old <> "" ->
  PyStr.find_all_from old i s = [i + (String.length s - String.length old)] ->
  exists t, s = t +:+ old /\ PyStr.replace_from old new 0 s = t +:+ new.
Proof.
  intros s i Hold. revert i.
  induction s as [|c s IH]; intros i H.
  - cbn [PyStr.find_all_from] in H.
    destruct (String.prefix old "") eqn:E; [|discriminate].
    destruct (prefix_app _ _ E) as [t Ht].
    destruct old; [congruence|discriminate].
  - cbn [PyStr.find_all_from PyStr.replace_from] in *.
    destruct (String.prefix old (String c s)) eqn:E.
    + injection H as Hi Hrest.
      pose proof (prefix_length _ _ E) as Hlen.
      destruct (prefix_app _ _ E) as [t Ht].
      assert (t = "") as ->.
      { apply (f_equal String.length) in Ht.
        rewrite string_length_app in Ht. destruct t; [reflexivity|].
        simpl in *. lia. }
      rewrite string_app_nil_r in Ht. exists "".
      split; [now rewrite string_app_nil_l|].
      rewrite string_app_nil_l.
      destruct old as [|o old]; [congruence|]. injection Ht as -> ->.
      cbn [String.length]. rewrite Nat.sub_succ, Nat.sub_0_r.
      rewrite replace_from_skip_all. apply string_app_nil_r.
    + simpl in H.
      assert (Hin : i + (String.length (String c s) - String.length old)
                    ∈ PyStr.find_all_from old (S i) s).
      { rewrite H. apply list_elem_of_here. }
      apply find_all_from_bounds in Hin. cbn [String.length] in *.
      assert (Hrest : PyStr.find_all_from old (S i) s
                      = [S i + (String.length s - String.length old)]).
      { rewrite H. f_equal. lia. }
      destruct (IH _ Hrest) as (t & -> & Hr).
      exists (String c t). rewrite !string_app_cons. split; [reflexivity|].
      now f_equal.
Qed.

Lemma string_app_inv_tail (c : string) : forall a b, a +:+ c = b +:+ c -> a = b.
Proof.
  induction a as [|x a IH]; intros [|y b] H.
  - reflexivity.
  - apply (f_equal String.length) in H.
    rewrite !string_length_app in H. simpl in H. lia.
  - apply (f_equal String.length) in H.
    rewrite !string_length_app in H. simpl in H. lia.
  - rewrite !string_app_cons in H. injection H as -> H. f_equal. now apply IH.
Qed.

(** C6, as amended: for every source key K under raw-data/ in which
    raw-data occurs only as the leading folder and .csv only as the final
    extension, the write-back key is K with the folder replaced by
    processed-data and the extension by .json, the partition path and the
    file stem in between unchanged. *)
Theorem processed_key_swaps_folder_and_extension (K : string) :
  PyStr.startswith K "raw-data/" = true ->
  PyStr.find_all "raw-data" K = [0] ->
  PyStr.find_all ".csv" K = [String.length K - 4] ->
  (exists rest,
     K = "raw-data/" +:+ rest +:+ ".csv" /\
     processed_key K = "processed-data/" +:+ rest +:+ ".json") /\
  swaps_folder_and_extension K.
Proof.
  intros Hstart Hraw Hcsv.
  assert (Hne1 : "raw-data" <> "") by discriminate.
  assert (Hne2 : ".csv" <> "") by discriminate.
  destruct (replace_leading "raw-data" "processed-data" K Hne1 Hraw)
    as (t & -> & _ & Hfirst).
  unfold PyStr.startswith in Hstart.
  rewrite !string_app_cons, string_app_nil_l in Hstart, Hcsv.
  destruct t as [|c t]; [discriminate|].
  rewrite !prefix_cons_same in Hstart.
  destruct (ascii_dec "/" c) as [<-|Hc];
    [|rewrite prefix_cons_diff in Hstart by exact Hc; discriminate].
  clear Hstart.
  assert (Hocc : PyStr.find_all_from ".csv" 9 t
                 = [9 + (String.length t - 4)]).
  { unfold PyStr.find_all in Hcsv. cbn [PyStr.find_all_from] in Hcsv.
    rewrite !prefix_cons_diff in Hcsv by congruence.
    cbn [app String.length] in Hcsv.
    assert (Hin : S (S (S (S (S (String.length t)))))
                  ∈ PyStr.find_all_from ".csv" 9 t).
    { rewrite Hcsv. apply list_elem_of_here. }
    apply find_all_from_bounds in Hin. simpl in Hin.
    rewrite Hcsv. f_equal. lia. }
  destruct (replace_trailing ".csv" ".json" t 9 Hne2 Hocc)
    as (rest & -> & Hsecond).
  assert (Hkey : processed_key ("raw-data" +:+ String "/" (rest +:+ ".csv"))
                 = "processed-data/" +:+ rest +:+ ".json").
  { unfold processed_key. rewrite Hfirst. unfold PyStr.replace.
    rewrite !string_app_cons, !string_app_nil_l.
    rewrite !replace_from_cons_diff by congruence.
    now rewrite Hsecond. }
  split.
  - exists rest. split; [reflexivity|exact Hkey].
  - intros rest' Hrest'. rewrite Hkey.
    change ("raw-data" +:+ String "/" (rest +:+ ".csv"))
      with ("raw-data/" +:+ rest +:+ ".csv") in Hrest'.
    apply string_app_inv_head in Hrest'.
    apply string_app_inv_tail in Hrest'. now subst.
Qed.

(** *** The keys of the uploader *)

Lemma digit_char_not (c : ascii) :
  (nat_of_ascii c <? 48) || (57 <? nat_of_ascii c) = true ->
  forall n, c <> KeyLayout.digit n.
Proof.
  intros Hc n E. unfold KeyLayout.digit in E.
  pose proof (Nat.mod_upper_bound n 10 ltac:(lia)) as H.
  apply (f_equal nat_of_ascii) in E.
  rewrite nat_ascii_embedding in E by lia.
  rewrite E in Hc. apply orb_true_iff in Hc as [Hc|Hc].
  - apply Nat.ltb_lt in Hc. lia.
  - apply Nat.ltb_lt in Hc. lia.
Qed.

Lemma digit_not_r n : "r"%char <> KeyLayout.digit n.
Proof. now apply digit_char_not. Qed.

Lemma digit_not_dot n : "."%char <> KeyLayout.digit n.
Proof. now apply digit_char_not. Qed.

Lemma prefix_self_app old t : String.prefix old (old +:+ t) = true.
Proof.
  induction old as [|c old IH]; [now destruct t|].
  rewrite string_app_cons, prefix_cons_same. exact IH.
Qed.

(** An occurrence at the head is replaced and the scan goes on behind it. *)
Lemma replace_from_here o old new t :
  PyStr.replace_from (String o old) new 0 (String o old +:+ t)
  = new +:+ PyStr.replace_from (String o old) new 0 t.
Proof.
  rewrite string_app_cons. cbn [PyStr.replace_from].
  rewrite prefix_cons_same, prefix_self_app.
  cbn [String.length]. rewrite Nat.sub_succ, Nat.sub_0_r.
  now rewrite replace_from_skip.
Qed.

Lemma replace_from_cons_no old new c s :
  String.prefix old (String c s) = false ->
  PyStr.replace_from old new 0 (String c s)
  = String c (PyStr.replace_from old new 0 s).
Proof. intros H. cbn [PyStr.replace_from]. now rewrite H. Qed.

(** No occurrence starts here: the first character differs, or a later
    one after characters that agree, or the text ends first. *)
Ltac prefix_false :=
  repeat rewrite prefix_cons_same;
  first [ reflexivity
        | apply prefix_cons_diff;
          first [ congruence | apply digit_not_r | apply digit_not_dot ] ].

(** The write-back key of the key that the uploader derives for a date
    under raw-data is the key it derives for that date under
    processed-data with the extension json. *)
Lemma processed_key_of_uploader_key date :
  processed_key (KeyLayout.generate_key "raw-data" date "csv")
  = KeyLayout.generate_key "processed-data" date "json".
Proof.
  unfold processed_key, PyStr.replace, KeyLayout.generate_key,
    KeyLayout.YYYYMMDD, KeyLayout.YYYY, KeyLayout.MM, KeyLayout.DD,
    KeyLayout.four_digits, KeyLayout.two_digits.
  rewrite (replace_from_here "r" "aw-data").
  rewrite !string_app_cons, !string_app_nil_l.
  repeat (rewrite replace_from_cons_no by prefix_false).
  cbn [PyStr.replace_from].
  rewrite !string_app_cons, !string_app_nil_l.
  repeat (rewrite replace_from_cons_no by prefix_false).
  reflexivity.
Qed.

(** A key as the uploader writes it. *)
Lemma processed_key_swaps_folder_and_extension_witness :
  PyStr.startswith Sample.raw_key "raw-data/" = true /\
  PyStr.find_all "raw-data" Sample.raw_key = [0] /\
  PyStr.find_all ".csv" Sample.raw_key = [String.length Sample.raw_key - 4] /\
  processed_key Sample.raw_key
    = "processed-data/year=2024/month=07/day=26/transactions-20240726.json".
Proof.
  assert (H1 : PyStr.startswith Sample.raw_key "raw-data/" = true)
    by (vm_compute; reflexivity).
  assert (H2 : PyStr.find_all "raw-data" Sample.raw_key = [0])
    by (vm_compute; reflexivity).
  assert (H3 : PyStr.find_all ".csv" Sample.raw_key
               = [String.length Sample.raw_key - 4])
    by (vm_compute; reflexivity).
  split; [exact H1|]. split; [exact H2|]. split; [exact H3|].
  apply (proj2 (processed_key_swaps_folder_and_extension
                  Sample.raw_key H1 H2 H3)
           "year=2024/month=07/day=26/transactions-20240726").
  reflexivity.
Defined.

(** A key whose file name contains the folder name: every occurrence is
    replaced, the file stem changes. *)
Lemma processed_key_rewrites_the_stem :
  processed_key "raw-data/raw-data-export.csv"
    = "processed-data/processed-data-export.json" /\
  ~ swaps_folder_and_extension "raw-data/raw-data-export.csv".
Proof.
  split; [vm_compute; reflexivity|].
  intros H. specialize (H "raw-data-export" eq_refl).
  vm_compute in H. discriminate.
Qed.

(** ** The warehouse *)

Lemma same_key_true (a b : Warehouse.wrow) :
  Warehouse.same_key a b = true <->
  Warehouse.transaction_id a = Warehouse.transaction_id b.
Proof. unfold Warehouse.same_key. apply bool_decide_eq_true. Qed.

Lemma same_key_false (a b : Warehouse.wrow) :
  Warehouse.same_key a b = false <->
  Warehouse.transaction_id a <> Warehouse.transaction_id b.
Proof. unfold Warehouse.same_key. apply bool_decide_eq_false. Qed.


Lemma existsb_lookup {A : Type} (f : A -> bool) (l : list A) i x :
  l !! i = Some x -> f x = true -> existsb f l = true.
Proof.
  intros Hl Hf. apply existsb_exists. exists x. split; [|exact Hf].
  apply list_elem_of_In. eapply list_elem_of_lookup_2. exact Hl.
Qed.

Lemma existsb_false_filter {A : Type} (f : A -> bool) (l : list A) :
  List.filter f l = [] -> existsb f l = false.
Proof.
  induction l as [|a l IH]; simpl; [reflexivity|].
  destruct (f a); [discriminate|]. exact IH.
Qed.

Lemma rows_with_app k t1 t2 :
  Warehouse.rows_with k (t1 ++ t2)
  = Warehouse.rows_with k t1 ++ Warehouse.rows_with k t2.
Proof. unfold Warehouse.rows_with. apply List.filter_app. Qed.

(** The statement on a stored row with the key: the row is updated where
    it stands, the table keeps its length and its other rows. *)
Lemma upsert_conflict table r i old :
  table !! i = Some old ->
  Warehouse.transaction_id old = Warehouse.transaction_id r ->
  Warehouse.upsert table r !! i = Some (Warehouse.do_update old r) /\
  length (Warehouse.upsert table r) = length table /\
  forall j o, table !! j = Some o ->
    Warehouse.transaction_id o <> Warehouse.transaction_id r ->
    Warehouse.upsert table r !! j = Some o.
Proof.
  intros Hi Hk. unfold Warehouse.upsert.
  rewrite (existsb_lookup _ _ i old Hi) by (now apply same_key_true).
  split; [|split].
  - change (map ?f table) with (f <$> table).
    rewrite list_lookup_fmap, Hi. simpl.
    replace (Warehouse.same_key r old) with true
      by (symmetry; now apply same_key_true).
    reflexivity.
  - apply length_map.
  - intros j o Hj Hne.
    change (map ?f table) with (f <$> table).
    rewrite list_lookup_fmap, Hj. simpl.
    replace (Warehouse.same_key r o) with false
      by (symmetry; apply same_key_false; congruence).
    reflexivity.
Qed.

(** The sample row, stored and sent again with another amount, category
    and processing time: one row, the new amount and time, the category
    of the first insert. *)
Example upsert_twice_sample :
  Warehouse.upsert (Warehouse.upsert [] Sample.stored) Sample.resent
    = [Warehouse.do_update Sample.stored Sample.resent] /\
  Warehouse.amount (Warehouse.do_update Sample.stored Sample.resent)
    = Some (Num (Fin (- (990 # 100)))) /\
  Warehouse.category (Warehouse.do_update Sample.stored Sample.resent)
    = Some (Str "food") /\
  Warehouse.category Sample.resent = Some (Str "shopping").
Proof. repeat split; vm_compute; reflexivity. Qed.

(** ** The handler *)

Lemma bind_inr {A B : Type} (m : M A) (f : A -> M B) w w1 a :
  m w = (w1, inr a) -> (m ≫= f) w = f a w1.
Proof. intros H. unfold mbind, M_bind. now rewrite H. Qed.

(** *** The trace only grows *)

Lemma grows_ret {A : Type} (a : A) : grows (mret a).
Proof. intros w. exists []. now rewrite app_nil_r. Qed.

Lemma grows_raise {A : Type} (e : exn) : grows (@raise A e).
Proof. intros w. exists []. now rewrite app_nil_r. Qed.

Lemma grows_emit a : grows (emit a).
Proof. intros w. exists [a]. reflexivity. Qed.

Lemma grows_log l m : grows (log l m).
Proof. apply grows_emit. Qed.

Lemma grows_lift {A : Type} (r : result A) : grows (lift r).
Proof. destruct r; [apply grows_raise|apply grows_ret]. Qed.

Lemma grows_bind {A B : Type} (m : M A) (f : A -> M B) :
  grows m -> (forall a, grows (f a)) -> grows (m ≫= f).
Proof.
  intros Hm Hf w. unfold mbind, M_bind.
  destruct (Hm w) as [tr Htr]. destruct (m w) as [w1 [e|a]]; simpl in *.
  - eauto.
  - destruct (Hf a w1) as [tr' Htr']. exists (tr ++ tr').
    now rewrite Htr', Htr, app_assoc.
Qed.

Lemma grows_try {A : Type} (body : M A) (handler : exn -> M A) :
  grows body -> (forall e, grows (handler e)) -> grows (try_except body handler).
Proof.
  intros Hb Hh w. unfold try_except.
  destruct (Hb w) as [tr Htr]. destruct (body w) as [w1 [e|a]]; simpl in *.
  - destruct (Hh e w1) as [tr' Htr']. exists (tr ++ tr').
    now rewrite Htr', Htr, app_assoc.
  - eauto.
Qed.

Lemma grows_answer (r : option exn) : grows (answer r).
Proof. destruct r; [apply grows_raise|apply grows_ret]. Qed.

Lemma grows_stored_rows : grows stored_rows.
Proof. intros w. exists []. now rewrite app_nil_r. Qed.

Lemma grows_commit Pl found : grows (commit Pl found).
Proof. intros w. unfold commit. exists [DbCommit]. now destruct (db_commit Pl). Qed.

Ltac grows_step :=
  first [ apply grows_bind; [|intros ?]
        | apply grows_try; [|intros ?]
        | apply grows_log | apply grows_emit | apply grows_ret
        | apply grows_raise | apply grows_lift | apply grows_answer
        | apply grows_stored_rows | apply grows_commit ].

Lemma grows_execute_upsert Pl r : grows (execute_upsert Pl r).
Proof.
  intros w. unfold execute_upsert. destruct (db_execute Pl r).
  - exists []. now rewrite app_nil_r.
  - exists [DbUpsert r]. reflexivity.
Qed.

Lemma grows_insert_rows Pl source_file rs : forall n,
  grows (insert_rows Pl source_file rs n).
Proof.
  induction rs as [|row rs IH]; intros n; cbn [insert_rows].
  - apply grows_ret.
  - apply grows_bind; [|intros ?; apply IH].
    apply grows_try; [|intros ?].
    + apply grows_bind; [apply grows_execute_upsert|intros ?; apply grows_ret].
    + repeat grows_step.
Qed.

Lemma grows_save_processed_data Pl bucket_name df original_key :
  grows (save_processed_data Pl bucket_name df original_key).
Proof.
  unfold save_processed_data. cbv zeta.
  repeat grows_step.
Qed.

(** Runs the monadic plumbing of a computation applied to a world. *)
Ltac run_M :=
  unfold mbind, M_bind, mret, M_ret, log, emit, raise, lift, try_except; cbn.

(** C3: for every invocation whose object key does not start with
    raw-data/, the handler answers 200 with the skipped message; it leaves
    the warehouse as it was and adds three log lines to the trace and no
    other action: nothing is read, transformed, loaded or written back. An
    event with key processed-data/x.csv is skipped. *)
Theorem handler_skips_outside_raw_data (Pl : platform) (s3_event : s3_record)
    (others : list s3_record) (w : world) :
  PyStr.startswith (key s3_event) "raw-data/" = false ->
  lambda_handler Pl (s3_event :: others) w =
    ({| warehouse := warehouse w;
        trace := trace w ++
                 [Log INFO MsgStarted;
                  Log INFO (MsgProcessingFile (bucket s3_event) (key s3_event));
                  Log INFO MsgSkipping] |},
     {| statusCode := 200;
        response_body := BodyText "File skipped - not in raw-data folder" |}) /\
  forall a, a ∈ trace (fst (lambda_handler Pl (s3_event :: others) w)) ->
            a ∈ trace w \/ is_log a = true.
Proof.
  intros Hkey.
  assert (Hrun : lambda_handler Pl (s3_event :: others) w =
    ({| warehouse := warehouse w;
        trace := trace w ++
                 [Log INFO MsgStarted;
                  Log INFO (MsgProcessingFile (bucket s3_event) (key s3_event));
                  Log INFO MsgSkipping] |},
     {| statusCode := 200;
        response_body := BodyText "File skipped - not in raw-data folder" |})).
  { unfold lambda_handler, process_object.
    rewrite Hkey. run_M. rewrite <- !app_assoc. reflexivity. }
  split; [exact Hrun|].
  intros a. rewrite Hrun. cbn [fst trace]. intros Ha.
  apply elem_of_app in Ha as [Ha|Ha]; [now left|right].
  repeat (apply elem_of_cons in Ha as [->|Ha]; [reflexivity|]).
  inversion Ha.
Qed.

Lemma handler_skips_outside_raw_data_witness :
  PyStr.startswith "processed-data/x.csv" "raw-data/" = false /\
  lambda_handler (Sample.platform_with Sample.full_environ)
    [mk_record "your-portfolio-etl-bucket" "processed-data/x.csv"]
    Sample.empty_world =
    ({| warehouse := [];
        trace := [Log INFO MsgStarted;
                  Log INFO (MsgProcessingFile "your-portfolio-etl-bucket"
                                              "processed-data/x.csv");
                  Log INFO MsgSkipping] |},
     {| statusCode := 200;
        response_body := BodyText "File skipped - not in raw-data folder" |}).
Proof.
  split; [reflexivity|].
  exact (proj1 (handler_skips_outside_raw_data
                  (Sample.platform_with Sample.full_environ)
                  (mk_record "your-portfolio-etl-bucket" "processed-data/x.csv")
                  [] Sample.empty_world eq_refl)).
Defined.

(** *** The stages, one by one *)

Lemma read_s3_data_inr Pl bucket_name object_key data df w :
  s3_get_object Pl bucket_name object_key = inr data ->
  pd_read_csv Pl data = inr df ->
  read_s3_data Pl bucket_name object_key w =
    ({| warehouse := warehouse w;
        trace := trace w ++ [S3GetObject bucket_name object_key;
                             Log INFO (MsgRead (length (rows df)));
                             Log INFO (MsgColumns (columns df))] |}, inr df).
Proof.
  intros Hget Hread. unfold read_s3_data. run_M.
  rewrite Hget. cbn. rewrite Hread. cbn. rewrite <- !app_assoc. reflexivity.
Qed.

Lemma transform_data_logged_inr Pl df kept w :
  dropna ["transaction_id"; "amount"] df = inr kept ->
  transform_data_logged Pl df w =
    ({| warehouse := warehouse w;
        trace := trace w ++
                 [Log INFO MsgTransformStart;
                  Log INFO (MsgRemoved (length (rows df) - length (rows kept)));
                  Log INFO (MsgTransformDone
                              (length (rows (transform_kept (pd Pl)
                                               (now_transform Pl) kept))))] |},
     inr (transform_kept (pd Pl) (now_transform Pl) kept)).
Proof.
  intros Hdrop. unfold transform_data_logged. run_M.
  rewrite Hdrop. cbn. rewrite <- !app_assoc. reflexivity.
Qed.

Lemma save_processed_data_run Pl bucket_name df original_key w :
  save_processed_data Pl bucket_name df original_key w =
    let request := save_request Pl bucket_name df original_key in
    match s3_put_object Pl request with
    | None =>
        ({| warehouse := warehouse w;
            trace := trace w ++
                     [Log INFO MsgSaving; S3PutObject request;
                      Log INFO (MsgSaved bucket_name (processed_key original_key))] |},
         inr tt)
    | Some e =>
        ({| warehouse := warehouse w;
            trace := trace w ++
                     [Log INFO MsgSaving; S3PutObject request;
                      Log ERROR (MsgSaveError e)] |},
         inl e)
    end.
Proof.
  unfold save_processed_data. cbv zeta. run_M.
  destruct (s3_put_object Pl _); cbn; rewrite <- !app_assoc; reflexivity.
Qed.

(** The switch of the load stage, variable by variable. *)
Lemma is_redshift_configured_iff env :
  is_redshift_configured env = true <-> Forall (set_nonempty env) required_vars.
Proof.
  unfold is_redshift_configured. rewrite forallb_forall, Forall_forall.
  assert (Hone : forall var, truthy (env !! var) = true <-> set_nonempty env var).
  { intros var. unfold truthy, set_nonempty.
    destruct (env !! var) as [v|].
    - rewrite negb_true_iff. split.
      + intros H. exists v. split; [reflexivity|].
        intros ->. discriminate.
      + intros (v' & Hv & Hne). injection Hv as <-.
        destruct (String.eqb v "") eqn:E; [|reflexivity].
        apply String.eqb_eq in E. contradiction.
    - split; [discriminate|]. intros (v & Hv & _). discriminate. }
  split; intros H var Hin.
  - apply Hone, H. now apply list_elem_of_In.
  - apply Hone, H. now apply list_elem_of_In.
Qed.

(** Once configured, the load stage reaches [psycopg2.connect]. *)
Lemma load_to_redshift_connects Pl df source_file w :
  is_redshift_configured (environ Pl) = true ->
  exists host port database user password added,
    trace (fst (load_to_redshift Pl df source_file w)) =
      trace w ++ [Log INFO MsgLoading;
                  DbConnect host port database user password] ++ added.
Proof.
  intros Hcfg. apply is_redshift_configured_iff in Hcfg.
  unfold required_vars in Hcfg.
  repeat match goal with
         | H : Forall _ (_ :: _) |- _ =>
             apply Forall_cons in H as [(? & ? & _) H]
         end.
  unfold load_to_redshift.
  set (rest := fun _ : unit => (_ ≫= _) : M unit).
  set (handler := fun e : exn => (_ ≫= _) : M unit).
  assert (Hrest : grows (rest tt)).
  { subst rest. cbv beta. repeat grows_step. apply grows_insert_rows. }
  assert (Hhandler : forall e, grows (handler e)).
  { intros e. subst handler. cbv beta. repeat grows_step. }
  do 5 eexists.
  unfold mbind at 1, M_bind at 1, log at 1, emit at 1. cbn [fst snd].
  unfold try_except, environ_item.
  repeat match goal with
         | H : environ Pl !! _ = Some _ |- _ => rewrite H; clear H
         end.
  unfold mbind at 1 2 3 4 5 6, M_bind at 1 2 3 4 5 6, mret, M_ret, emit at 1.
  cbn [fst snd warehouse trace].
  match goal with
  | |- context [rest tt ?w1] =>
      destruct (Hrest w1) as [added Hadded];
      destruct (rest tt w1) as [w2 [e|[]]]; cbn [fst] in Hadded |- *
  end.
  - destruct (Hhandler e w2) as [added' Hadded'].
    exists (added ++ added'). rewrite Hadded', Hadded. cbn [trace].
    now rewrite <- !app_assoc.
  - exists added. rewrite Hadded. cbn [trace]. now rewrite <- !app_assoc.
Qed.

(** Two traces that differ in how their segments are grouped. *)
Ltac trace_eq :=
  cbn [fst snd trace warehouse]; rewrite <- ?app_assoc; cbn [app]; reflexivity.

(** The actions of an invocation up to the load decision, when the read
    and the transform succeed. *)
Lemma process_object_to_load Pl bucket_name object_key data df kept w :
  PyStr.startswith object_key "raw-data/" = true ->
  s3_get_object Pl bucket_name object_key = inr data ->
  pd_read_csv Pl data = inr df ->
  dropna ["transaction_id"; "amount"] df = inr kept ->
  let transformed := transform_kept (pd Pl) (now_transform Pl) kept in
  process_object Pl bucket_name object_key w =
    ((if is_redshift_configured (environ Pl)
      then load_to_redshift Pl transformed object_key
      else log INFO MsgNotConfigured) ≫= fun _ =>
     save_processed_data Pl bucket_name transformed object_key ≫= fun _ =>
     log INFO (MsgProcessed (length (rows transformed))) ≫= fun _ =>
     mret {| statusCode := 200;
             response_body :=
               BodyCompleted (length (rows transformed)) object_key |})
      {| warehouse := warehouse w;
         trace := trace w ++
                  [Log INFO (MsgProcessingFile bucket_name object_key);
                   S3GetObject bucket_name object_key;
                   Log INFO (MsgRead (length (rows df)));
                   Log INFO (MsgColumns (columns df));
                   Log INFO MsgTransformStart;
                   Log INFO (MsgRemoved (length (rows df) - length (rows kept)));
                   Log INFO (MsgTransformDone (length (rows transformed)))] |}.
Proof.
  intros Hkey Hget Hread Hdrop transformed. unfold process_object.
  rewrite Hkey. cbn [negb].
  erewrite bind_inr by reflexivity.
  erewrite bind_inr by (apply (read_s3_data_inr _ _ _ data df); assumption).
  erewrite bind_inr by (apply (transform_data_logged_inr _ _ kept); assumption).
  cbn [warehouse trace]. rewrite <- !app_assoc. reflexivity.
Qed.

Section Invocation.

Variable Pl : platform.
Variables (s3_event : s3_record) (others : list s3_record) (w : world).
Variables (data : string) (df kept : DataFrame).

Hypothesis Hkey : PyStr.startswith (key s3_event) "raw-data/" = true.
Hypothesis Hget : s3_get_object Pl (bucket s3_event) (key s3_event) = inr data.
Hypothesis Hread : pd_read_csv Pl data = inr df.
Hypothesis Hdrop : dropna ["transaction_id"; "amount"] df = inr kept.

Let transformed := transform_kept (pd Pl) (now_transform Pl) kept.
Let request := save_request Pl (bucket s3_event) transformed (key s3_event).
Let before_load :=
  [Log INFO MsgStarted;
   Log INFO (MsgProcessingFile (bucket s3_event) (key s3_event));
   S3GetObject (bucket s3_event) (key s3_event);
   Log INFO (MsgRead (length (rows df)));
   Log INFO (MsgColumns (columns df));
   Log INFO MsgTransformStart;
   Log INFO (MsgRemoved (length (rows df) - length (rows kept)));
   Log INFO (MsgTransformDone (length (rows transformed)))].

(** With the load stage enabled the invocation reaches the connection to
    the warehouse. *)
Lemma handler_load_runs :
  is_redshift_configured (environ Pl) = true ->
  exists host port database user password added,
    trace (fst (lambda_handler Pl (s3_event :: others) w)) =
      trace w ++ before_load ++
      [Log INFO MsgLoading; DbConnect host port database user password] ++
      added.
Proof.
  intros Hcfg. unfold lambda_handler.
  change (log INFO MsgStarted w).1
    with {| warehouse := warehouse w; trace := trace w ++ [Log INFO MsgStarted] |}.
  rewrite (process_object_to_load Pl _ _ data df kept _ Hkey Hget Hread Hdrop).
  fold transformed. rewrite Hcfg. cbn [warehouse trace].
  set (w1 := {| warehouse := _; trace := _ |}).
  destruct (load_to_redshift_connects Pl transformed (key s3_event) w1 Hcfg)
    as (host & port & database & user & password & added & Hload).
  exists host, port, database, user, password.
  set (rest := fun _ : unit => (_ ≫= _) : M response).
  assert (Hrest : grows (rest tt)).
  { subst rest. cbv beta.
    repeat first [apply grows_save_processed_data | grows_step]. }
  unfold mbind at 1, M_bind at 1.
  destruct (load_to_redshift Pl transformed (key s3_event) w1)
    as [w2 [e|[]]]; cbn [fst] in Hload.
  - exists (added ++ [Log ERROR (MsgPipelineError e)]).
    unfold log, emit. cbn [fst trace]. rewrite Hload. subst w1 before_load.
    trace_eq.
  - destruct (Hrest w2) as [added' Hadded'].
    destruct (rest tt w2) as [w3 [e|resp]]; cbn [fst] in Hadded' |- *.
    + exists (added ++ added' ++ [Log ERROR (MsgPipelineError e)]).
      unfold log, emit. cbn [fst trace]. rewrite Hadded', Hload.
      subst w1 before_load. trace_eq.
    + exists (added ++ added'). rewrite Hadded', Hload. subst w1 before_load.
      trace_eq.
Qed.

(** With the load stage disabled the invocation logs the skip and goes on
    to the write-back. *)
Lemma handler_load_skipped :
  is_redshift_configured (environ Pl) = false ->
  lambda_handler Pl (s3_event :: others) w =
    match s3_put_object Pl request with
    | None =>
        ({| warehouse := warehouse w;
            trace := trace w ++ before_load ++
                     [Log INFO MsgNotConfigured;
                      Log INFO MsgSaving; S3PutObject request;
                      Log INFO (MsgSaved (bucket s3_event)
                                         (processed_key (key s3_event)));
                      Log INFO (MsgProcessed (length (rows transformed)))] |},
         {| statusCode := 200;
            response_body :=
              BodyCompleted (length (rows transformed)) (key s3_event) |})
    | Some e =>
        ({| warehouse := warehouse w;
            trace := trace w ++ before_load ++
                     [Log INFO MsgNotConfigured;
                      Log INFO MsgSaving; S3PutObject request;
                      Log ERROR (MsgSaveError e);
                      Log ERROR (MsgPipelineError e)] |},
         {| statusCode := 500;
            response_body := BodyError e (key s3_event) |})
    end.
Proof.
  intros Hcfg. unfold lambda_handler.
  change (log INFO MsgStarted w).1
    with {| warehouse := warehouse w; trace := trace w ++ [Log INFO MsgStarted] |}.
  rewrite (process_object_to_load Pl _ _ data df kept _ Hkey Hget Hread Hdrop).
  fold transformed. rewrite Hcfg. cbn [warehouse trace].
  erewrite bind_inr by reflexivity.
  unfold mbind at 1, M_bind at 1.
  rewrite save_processed_data_run. cbv zeta. fold request.
  destruct (s3_put_object Pl request) as [e|].
  - subst before_load. unfold log, emit. cbn [fst warehouse trace].
    f_equal. f_equal. trace_eq.
  - subst before_load. unfold mbind, M_bind, mret, M_ret, log, emit.
    cbn [fst warehouse trace]. f_equal. f_equal. trace_eq.
Qed.

(** C7, as amended: the load stage is enabled if and only if each of
    REDSHIFT_HOST, REDSHIFT_PORT, REDSHIFT_DB, REDSHIFT_USER and
    REDSHIFT_PASSWORD is present in the environment with a non-empty value.
    In an invocation whose read and transform succeed, an enabled load stage
    runs (it reaches the connection to the warehouse); a disabled one is
    skipped entirely: the skip is logged, no warehouse action is taken, the
    warehouse is unchanged, the transformed rows are written back, and the
    invocation succeeds when the store accepts them. *)
Theorem load_stage_runs_iff_configured :
  (is_redshift_configured (environ Pl) = true <->
   Forall (set_nonempty (environ Pl)) required_vars) /\
  (is_redshift_configured (environ Pl) = true ->
   exists host port database user password added,
     trace (fst (lambda_handler Pl (s3_event :: others) w)) =
       trace w ++ before_load ++
       [Log INFO MsgLoading; DbConnect host port database user password] ++
       added) /\
  (is_redshift_configured (environ Pl) = false ->
   (forall a, a ∈ trace (fst (lambda_handler Pl (s3_event :: others) w)) ->
              a ∈ trace w \/ is_warehouse_action a = false) /\
   warehouse (fst (lambda_handler Pl (s3_event :: others) w)) = warehouse w /\
   exists outcome,
     trace (fst (lambda_handler Pl (s3_event :: others) w)) =
       trace w ++ before_load ++
       [Log INFO MsgNotConfigured; Log INFO MsgSaving; S3PutObject request] ++
       outcome /\
     (s3_put_object Pl request = None ->
      snd (lambda_handler Pl (s3_event :: others) w) =
        {| statusCode := 200;
           response_body :=
             BodyCompleted (length (rows transformed)) (key s3_event) |})).
Proof.
  split; [apply is_redshift_configured_iff|].
  split; [exact handler_load_runs|].
  intros Hcfg. rewrite (handler_load_skipped Hcfg).
  destruct (s3_put_object Pl request) as [e|]; cbn [fst snd warehouse trace].
  - split; [|split; [reflexivity|]].
    + intros a Ha. apply elem_of_app in Ha as [Ha|Ha]; [now left|right].
      subst before_load. cbn [app] in Ha.
      repeat (apply elem_of_cons in Ha as [->|Ha]; [reflexivity|]).
      inversion Ha.
    + exists [Log ERROR (MsgSaveError e); Log ERROR (MsgPipelineError e)].
      split; [|discriminate]. subst before_load. trace_eq.
  - split; [|split; [reflexivity|]].
    + intros a Ha. apply elem_of_app in Ha as [Ha|Ha]; [now left|right].
      subst before_load. cbn [app] in Ha.
      repeat (apply elem_of_cons in Ha as [->|Ha]; [reflexivity|]).
      inversion Ha.
    + exists [Log INFO (MsgSaved (bucket s3_event) (processed_key (key s3_event)));
              Log INFO (MsgProcessed (length (rows transformed)))].
      split; [|reflexivity]. subst before_load. trace_eq.
Qed.

End Invocation.

(** The sample environment with an empty password: the load stage is
    disabled and the invocation completes. *)
Lemma load_stage_runs_iff_configured_witness :
  PyStr.startswith Sample.raw_key "raw-data/" = true /\
  is_redshift_configured Sample.empty_password_environ = false /\
  warehouse
    (fst (lambda_handler (Sample.platform_with Sample.empty_password_environ)
            [mk_record "your-portfolio-etl-bucket" Sample.raw_key]
            Sample.empty_world)) = [].
Proof.
  assert (Hkey : PyStr.startswith Sample.raw_key "raw-data/" = true)
    by (vm_compute; reflexivity).
  assert (Hcfg : is_redshift_configured Sample.empty_password_environ = false)
    by (vm_compute; reflexivity).
  split; [exact Hkey|]. split; [exact Hcfg|].
  exact (proj1 (proj2 (proj2 (proj2
           (load_stage_runs_iff_configured
              (Sample.platform_with Sample.empty_password_environ)
              (mk_record "your-portfolio-etl-bucket" Sample.raw_key) []
              Sample.empty_world "csv text" Sample.two_rows
              {| columns := Sample.columns9; rows := rows Sample.two_rows |}
              Hkey eq_refl eq_refl eq_refl)) Hcfg))).
Defined.

Example sample_invocation_without_load :
  snd (lambda_handler (Sample.platform_with Sample.empty_password_environ)
         [mk_record "your-portfolio-etl-bucket" Sample.raw_key]
         Sample.empty_world)
    = {| statusCode := 200; response_body := BodyCompleted 2 Sample.raw_key |} /\
  forallb (fun a => negb (is_warehouse_action a))
    (trace (fst (lambda_handler
                   (Sample.platform_with Sample.empty_password_environ)
                   [mk_record "your-portfolio-etl-bucket" Sample.raw_key]
                   Sample.empty_world))) = true.
Proof. split; vm_compute; reflexivity. Qed.

Example sample_invocation_with_load :
  existsb is_warehouse_action
    (trace (fst (lambda_handler
                   (Sample.platform_with Sample.full_environ)
                   [mk_record "your-portfolio-etl-bucket" Sample.raw_key]
                   Sample.empty_world))) = true /\
  length (warehouse
            (fst (lambda_handler
                    (Sample.platform_with Sample.full_environ)
                    [mk_record "your-portfolio-etl-bucket" Sample.raw_key]
                    Sample.empty_world))) = 2.
Proof. split; vm_compute; reflexivity. Qed.

(** All five variables are present, one of them with the empty string:
    the load stage is disabled. *)
Lemma load_disabled_by_empty_value :
  Forall (present Sample.empty_password_environ) required_vars /\
  is_redshift_configured Sample.empty_password_environ = false /\
  ~ load_enabled_iff_present Sample.empty_password_environ.
Proof.
  assert (Hall : Forall (present Sample.empty_password_environ) required_vars).
  { unfold required_vars, present.
    repeat constructor; eexists; vm_compute; reflexivity. }
  assert (Hcfg : is_redshift_configured Sample.empty_password_environ = false)
    by (vm_compute; reflexivity).
  split; [exact Hall|]. split; [exact Hcfg|].
  intros [_ H]. rewrite (H Hall) in Hcfg. discriminate.
Qed.

(** ** More on the transform *)

Section TransformColumns.

Variable P : pandas_codec.
Variable now : datetime.

(** The processing metadata of an output row. *)
Lemma transform_kept_metadata (df : DataFrame) :
  Forall2 (fun _ r =>
             r !! "processed_timestamp" = Some (Time now) /\
             r !! "processed_by" = Some (Str "lambda-etl-pipeline"))
          (rows df) (rows (transform_kept P now df)).
Proof.
  unfold transform_kept, text_columns. cbn [fold_left]. cbv zeta.
  do 5 keep_step other_column.
  apply (rows_assign_step _
           (fun _ r => r !! "processed_timestamp" = Some (Time now))).
  { intros a r HR. split.
    - rewrite lookup_insert_ne by congruence. exact HR.
    - apply lookup_insert_eq. }
  apply (rows_assign_step _ (fun _ _ => True)).
  { intros a r _. apply lookup_insert_eq. }
  keep_steps ltac:(fun HR => exact I).
  apply Forall2_same. trivial.
Qed.

(** The elements of a column that is known row by row. *)
Lemma column_of_rows {A : Type} (f : A -> cell) c (l : list A) d :
  Forall2 (fun a r => r !! c = Some (f a)) l (rows d) -> column c d = map f l.
Proof.
  unfold column. generalize (rows d). intros rs H.
  induction H as [|a r l' rs' Har _ IH]; [reflexivity|].
  cbn [map]. unfold get at 1. rewrite Har, IH. reflexivity.
Qed.

(** The absolute amount of an output row, from the kept input row; the
    dtype is that of the coerced amounts. *)
Lemma transform_kept_amount_abs (df : DataFrame) :
  has_column "amount" df = true ->
  Forall2 (fun a r =>
             r !! "amount" = Some (to_numeric P (get a "amount")) /\
             r !! "amount_abs"
               = Some (abs_cell
                         (int64_column P
                            (map (fun a => to_numeric P (get a "amount")) (rows df)))
                         (to_numeric P (get a "amount"))))
          (rows df) (rows (transform_kept P now df)).
Proof.
  intros Ham.
  unfold transform_kept, text_columns. cbn [fold_left]. cbv zeta.
  do 4 keep_step other_column.
  rewrite when_column_true by has_column_mono.
  cbv beta.
  match goal with
  | |- context [int64_column P (column "amount" ?X)] =>
      assert (Hcol : column "amount" X
                     = map (fun a => to_numeric P (get a "amount")) (rows df))
  end.
  { apply column_of_rows.
    do 5 keep_step other_column.
    rewrite when_column_true by exact Ham.
    apply (rows_assign_step _ (fun a r => r = a)).
    { intros a r ->. apply lookup_insert_eq. }
    apply Forall2_same. reflexivity. }
  rewrite Hcol.
  apply (rows_assign_step _
           (fun a r => r !! "amount" = Some (to_numeric P (get a "amount")))).
  { intros a r HR. split.
    - rewrite lookup_insert_ne by congruence. exact HR.
    - rewrite lookup_insert_eq. unfold get. now rewrite HR. }
  do 5 keep_step other_column.
  rewrite when_column_true by exact Ham.
  apply (rows_assign_step _ (fun a r => r = a)).
  { intros a r ->. apply lookup_insert_eq. }
  apply Forall2_same. reflexivity.
Qed.

(** The date columns of an output row, when the frame has a date. *)
Lemma transform_kept_date (df : DataFrame) :
  has_column "date" df = true ->
  Forall2 (fun a r =>
             let d := to_datetime P (get a "date") in
             r !! "date" = Some d /\
             r !! "day_of_week" = Some (day_name_cell d) /\
             r !! "month" = Some (month_cell d) /\
             r !! "year" = Some (year_cell d))
          (rows df) (rows (transform_kept P now df)).
Proof.
  intros Hdate.
  unfold transform_kept, text_columns. cbn [fold_left]. cbv zeta.
  do 3 keep_step other_column.
  rewrite when_column_true by has_column_mono.
  apply (rows_assign_step _
           (fun a r =>
              r !! "date" = Some (to_datetime P (get a "date")) /\
              r !! "day_of_week"
                = Some (day_name_cell (to_datetime P (get a "date"))) /\
              r !! "month" = Some (month_cell (to_datetime P (get a "date"))))).
  { intros a r (Hd & Hw & Hm). repeat split.
    - rewrite lookup_insert_ne by congruence. exact Hd.
    - rewrite lookup_insert_ne by congruence. exact Hw.
    - rewrite lookup_insert_ne by congruence. exact Hm.
    - rewrite lookup_insert_eq. unfold get. now rewrite Hd. }
  apply (rows_assign_step _
           (fun a r =>
              r !! "date" = Some (to_datetime P (get a "date")) /\
              r !! "day_of_week"
                = Some (day_name_cell (to_datetime P (get a "date"))))).
  { intros a r (Hd & Hw). repeat split.
    - rewrite lookup_insert_ne by congruence. exact Hd.
    - rewrite lookup_insert_ne by congruence. exact Hw.
    - rewrite lookup_insert_eq. unfold get. now rewrite Hd. }
  apply (rows_assign_step _
           (fun a r => r !! "date" = Some (to_datetime P (get a "date")))).
  { intros a r Hd. split.
    - rewrite lookup_insert_ne by congruence. exact Hd.
    - rewrite lookup_insert_eq. unfold get. now rewrite Hd. }
  do 4 keep_step other_column.
  rewrite when_column_true by has_column_mono.
  apply (rows_assign_step _ (fun a r => r !! "date" = a !! "date")).
  { intros a r HR. rewrite lookup_insert_eq. unfold get. now rewrite HR. }
  keep_steps other_column.
  apply Forall2_same. reflexivity.
Qed.

End TransformColumns.

(** *** Columns along the pipeline *)

Lemma has_column_assign_same c f df : has_column c (assign c f df) = true.
Proof.
  unfold has_column at 1. unfold assign. cbn [columns].
  destruct (has_column c df) eqn:E.
  - exact E.
  - apply bool_decide_eq_true. apply elem_of_app. right. apply list_elem_of_here.
Qed.

Lemma has_column_assign_ne c col f df :
  c <> col -> has_column c (assign col f df) = has_column c df.
Proof.
  intros Hne. unfold has_column at 1. unfold assign. cbn [columns].
  destruct (has_column col df); [reflexivity|].
  unfold has_column. apply bool_decide_ext. rewrite elem_of_app.
  split; [|now left]. intros [H|H]; [exact H|].
  apply list_elem_of_singleton in H. contradiction.
Qed.

Lemma has_column_when_other c col T df :
  (forall d, has_column c (T d) = has_column c d) ->
  has_column c (when_column col T df) = has_column c df.
Proof. intros HT. unfold when_column. destruct (has_column col df); auto. Qed.

Lemma when_column_false col T df :
  has_column col df = false -> when_column col T df = df.
Proof. intros H. unfold when_column. now rewrite H. Qed.

(** A column that no step of the pipeline adds is in the frame after the
    steps exactly when it was before. *)
Ltac has_column_other :=
  lazymatch goal with
  | |- has_column _ (assign _ _ _) = _ =>
      rewrite has_column_assign_ne by congruence; has_column_other
  | |- has_column _ (when_column _ _ _) = _ =>
      rewrite has_column_when_other;
      [ has_column_other | intros ?; cbv beta; has_column_other ]
  | _ => first [ reflexivity | assumption ]
  end.

Lemma cols_ext_refl L df : cols_ext L df df.
Proof. exists []. split; [now rewrite app_nil_r|constructor]. Qed.

Lemma cols_ext_trans L df1 df2 df3 :
  cols_ext L df1 df2 -> cols_ext L df2 df3 -> cols_ext L df1 df3.
Proof.
  intros (k1 & H1 & F1) (k2 & H2 & F2). exists (k1 ++ k2). split.
  - now rewrite H2, H1, app_assoc.
  - apply Forall_app. now split.
Qed.

Lemma cols_ext_assign L c f df : c ∈ L -> cols_ext L df (assign c f df).
Proof.
  intros Hc. unfold assign, cols_ext. cbn [columns].
  destruct (has_column c df).
  - exists []. split; [now rewrite app_nil_r|constructor].
  - exists [c]. split; [reflexivity|]. repeat constructor. exact Hc.
Qed.

Lemma cols_ext_when L col T df :
  (forall d, cols_ext L d (T d)) -> cols_ext L df (when_column col T df).
Proof.
  intros HT. unfold when_column. destruct (has_column col df);
    [apply HT|apply cols_ext_refl].
Qed.

(** A conversion in place adds no column. *)
Lemma cols_ext_convert L col f df :
  cols_ext L df (when_column col (assign col f) df).
Proof.
  unfold when_column, assign, cols_ext.
  destruct (has_column col df) eqn:E; cbn [columns]; try rewrite E;
    (exists []; split; [now rewrite app_nil_r|constructor]).
Qed.

Ltac cols_ext_steps :=
  lazymatch goal with
  | |- cols_ext _ _ (when_column ?c (assign ?c _) ?X) =>
      apply (cols_ext_trans _ _ X);
      [ cols_ext_steps | apply cols_ext_convert ]
  | |- cols_ext _ _ (assign _ _ ?X) =>
      apply (cols_ext_trans _ _ X);
      [ cols_ext_steps | apply cols_ext_assign; solve [repeat constructor] ]
  | |- cols_ext _ _ (when_column _ _ ?X) =>
      apply (cols_ext_trans _ _ X);
      [ cols_ext_steps
      | apply cols_ext_when; intros ?; cbv beta; cols_ext_steps ]
  | _ => apply cols_ext_refl
  end.

Section TransformFrame.

Variable P : pandas_codec.
Variable now : datetime.

(** The columns that the transform may append, in the order in which it
    assigns them. Columns that it converts in place are not among them. *)
Lemma transform_kept_columns (df : DataFrame) :
  cols_ext ["processed_timestamp"; "processed_by"; "amount_category";
            "amount_abs"; "day_of_week"; "month"; "year"]
           df (transform_kept P now df).
Proof.
  unfold transform_kept, text_columns. cbn [fold_left]. cbv zeta.
  cols_ext_steps.
Qed.

(** The row of the output that stands for a kept input row. *)
Lemma transform_data_rows (df out : DataFrame) :
  transform_data P now df = inr out ->
  exists kept,
    dropna ["transaction_id"; "amount"] df = inr kept /\
    out = transform_kept P now kept /\
    has_column "amount" kept = true /\
    columns kept = columns df /\
    rows kept = List.filter has_critical (rows df).
Proof.
  intros Ht. unfold transform_data in Ht.
  destruct (dropna _ df) as [e|kept] eqn:Hd; [discriminate|].
  exists kept. split; [reflexivity|]. split; [congruence|].
  pose proof (dropna_inr _ _ _ Hd) as (_ & Hcols & _).
  apply dropna_critical_rows in Hd as [Ham Hrows]. auto.
Qed.

End TransformFrame.

(** Every row of the transform output is stamped: [processed_by] is
    lambda-etl-pipeline and [processed_timestamp] is the one clock reading
    of the run, the same on all rows; both columns are in the output frame. *)
Theorem transform_stamps_every_row P now df out r :
  transform_data P now df = inr out ->
  r ∈ rows out ->
  get r "processed_by" = Str "lambda-etl-pipeline" /\
  get r "processed_timestamp" = Time now /\
  has_column "processed_by" out = true /\
  has_column "processed_timestamp" out = true.
Proof.
  intros Ht Hr.
  destruct (transform_data_rows P now df out Ht) as (kept & _ & -> & _).
  apply list_elem_of_lookup in Hr as [i Hi].
  destruct (Forall2_lookup_r _ _ _ _ _ (transform_kept_metadata P now kept) Hi)
    as (a & _ & Hts & Hby).
  unfold get. rewrite Hts, Hby.
  split; [reflexivity|]. split; [reflexivity|].
  unfold transform_kept, text_columns. cbn [fold_left]. cbv zeta.
  split;
    repeat first [ assumption
                 | apply has_column_assign_same
                 | apply has_column_assign_mono
                 | apply has_column_when_mono; [intros ? ?|] ].
Qed.

Lemma transform_stamps_every_row_witness :
  get Sample.first_row_out "processed_by" = Str "lambda-etl-pipeline" /\
  get Sample.first_row_out "processed_timestamp" = Time Sample.clock /\
  has_column "processed_by" Sample.two_rows_out = true /\
  has_column "processed_timestamp" Sample.two_rows_out = true.
Proof.
  apply (transform_stamps_every_row Sample.codec Sample.clock Sample.two_rows).
  - exact eq_refl.
  - apply (list_elem_of_lookup_2 _ 0). exact eq_refl.
Defined.

Lemma number_abs_ge_0 x : number_ge (number_abs x) 0.
Proof. destruct x as [q|b]; simpl; [apply Qabs_nonneg|reflexivity]. Qed.

Lemma int64_min_negative x : is_int64_min x = true -> number_lt x 0.
Proof.
  destruct x as [q|b]; cbn [is_int64_min number_lt]; [|discriminate].
  intros H. apply Qeq_bool_iff in H. rewrite H. reflexivity.
Qed.

(** In every row of the transform output [amount_abs] is missing when the
    coerced amount is missing, and otherwise it is the magnitude of the
    amount, a number that is not negative, with one exception: when pandas
    holds the amount column as [int64] and the amount is the least
    [int64], -2^63, [amount_abs] is that same negative number. *)
Theorem transform_amount_abs_is_magnitude P now df out r :
  transform_data P now df = inr out ->
  r ∈ rows out ->
  (get r "amount" = NA /\ get r "amount_abs" = NA) \/
  (exists x, get r "amount" = Num x /\
     ((int64_column P (column "amount" out) && is_int64_min x = false /\
       get r "amount_abs" = Num (number_abs x) /\
       number_ge (number_abs x) 0) \/
      (int64_column P (column "amount" out) = true /\
       is_int64_min x = true /\
       get r "amount_abs" = Num x /\
       number_lt x 0))).
Proof.
  intros Ht Hr.
  destruct (transform_data_rows P now df out Ht) as (kept & _ & -> & Ham & _).
  pose proof (transform_kept_amount_abs P now kept Ham) as Hrows.
  assert (Hcol : column "amount" (transform_kept P now kept)
                 = map (fun a => to_numeric P (get a "amount")) (rows kept)).
  { apply column_of_rows. eapply Forall2_impl; [exact Hrows|].
    intros a r0 [H _]. exact H. }
  rewrite Hcol.
  apply list_elem_of_lookup in Hr as [i Hi].
  destruct (Forall2_lookup_r _ _ _ _ _ Hrows Hi) as (a & _ & Hamount & Habs).
  unfold get. rewrite Hamount, Habs. cbn [default].
  destruct (to_numeric_float P (get a "amount")) as [->|[x ->]].
  - left. split; reflexivity.
  - right. exists x. split; [reflexivity|]. cbn [abs_cell].
    destruct (int64_column P _ && is_int64_min x) eqn:E.
    + right. apply andb_true_iff in E as [E1 E2].
      split; [exact E1|]. split; [exact E2|]. split; [reflexivity|].
      now apply int64_min_negative.
    + left. split; [reflexivity|]. split; [reflexivity|].
      apply number_abs_ge_0.
Qed.

Lemma transform_amount_abs_is_magnitude_witness :
  (get Sample.first_row_out "amount" = NA /\
   get Sample.first_row_out "amount_abs" = NA) \/
  (exists x, get Sample.first_row_out "amount" = Num x /\
     ((int64_column Sample.codec (column "amount" Sample.two_rows_out)
       && is_int64_min x = false /\
       get Sample.first_row_out "amount_abs" = Num (number_abs x) /\
       number_ge (number_abs x) 0) \/
      (int64_column Sample.codec (column "amount" Sample.two_rows_out) = true /\
       is_int64_min x = true /\
       get Sample.first_row_out "amount_abs" = Num x /\
       number_lt x 0))).
Proof.
  apply (transform_amount_abs_is_magnitude Sample.codec Sample.clock Sample.two_rows
           Sample.two_rows_out).
  - exact eq_refl.
  - apply (list_elem_of_lookup_2 _ 0). exact eq_refl.
Defined.

(** A frame of whole amounts that pandas holds as [int64]: the least
    [int64] comes out of [abs] as it went in, and the amount 7 below it as
    7. *)
Example amount_abs_of_least_int64 :
  (fun r => get r "amount_abs")
    <$> rows (transform_kept Sample.int64_codec Sample.clock Sample.whole_amounts)
  = [Num (Fin INT64_MIN); Num (Fin 7)].
Proof. vm_compute. reflexivity. Qed.

(** Rows are dropped before the amount is coerced: an input row whose
    amount is a text that does not parse as a number has both critical
    cells, so it is kept; it comes out with a missing amount, a missing
    [amount_abs] and the category unknown, as a row that the transform
    itself would drop. *)
Theorem transform_keeps_unparseable_amount P now df out :
  transform_data P now df = inr out ->
  Forall2 (fun a r =>
             forall s, get a "amount" = Str s -> parse_number P s = None ->
               r !! "transaction_id" = a !! "transaction_id" /\
               get r "amount" = NA /\
               get r "amount_abs" = NA /\
               get r "amount_category" = Str "unknown" /\
               has_critical r = false)
          (List.filter has_critical (rows df)) (rows out).
Proof.
  intros Ht.
  destruct (transform_data_rows P now df out Ht)
    as (kept & _ & -> & Ham & _ & Hrows).
  rewrite <- Hrows.
  assert (Hid : "transaction_id" ∉ written_columns).
  { unfold written_columns. rewrite !not_elem_of_cons.
    repeat split; try congruence. apply not_elem_of_nil. }
  pose proof (transform_kept_frame P now "transaction_id" kept Hid) as Hframe.
  pose proof (transform_kept_amount P now kept Ham) as Hcat.
  pose proof (transform_kept_amount_abs P now kept Ham) as Habs.
  set (int64 := int64_column P _) in Habs. clearbody int64.
  revert Hframe Hcat Habs.
  generalize (rows (transform_kept P now kept)). generalize (rows kept).
  intros l l' Hframe. induction Hframe as [|a r l l' Hfr _ IH];
    intros Hcat Habs; [constructor|].
  inversion Hcat as [|? ? ? ? [Hamount Hc] Hcat']. subst.
  inversion Habs as [|? ? ? ? [_ Hab] Habs']. subst.
  constructor; [|now apply IH].
  intros s Hs Hparse. rewrite Hs in Hamount, Hc, Hab.
  cbn [to_numeric] in Hamount, Hc, Hab. rewrite Hparse in Hamount, Hc, Hab.
  unfold has_critical, get. rewrite Hamount, Hc, Hab. cbn.
  split; [exact Hfr|]. repeat split. apply andb_false_r.
Qed.

Lemma transform_keeps_unparseable_amount_witness :
  Forall2 (fun a r =>
             forall s, get a "amount" = Str s ->
               parse_number Sample.codec s = None ->
               r !! "transaction_id" = a !! "transaction_id" /\
               get r "amount" = NA /\
               get r "amount_abs" = NA /\
               get r "amount_category" = Str "unknown" /\
               has_critical r = false)
          (List.filter has_critical (rows Sample.two_rows))
          (rows Sample.two_rows_out).
Proof.
  exact (transform_keeps_unparseable_amount Sample.codec Sample.clock
           Sample.two_rows Sample.two_rows_out eq_refl).
Defined.

(** The fifth of the ten sample rows carries the text n/a? for an amount:
    it is among the eight output rows, without an amount. *)
Example unparseable_amount_sample :
  (fun r => (r !! "transaction_id", r !! "amount", r !! "amount_category"))
    <$> (match transform_data Sample.codec Sample.clock Sample.ten_rows with
         | inr out => rows out
         | inl _ => []
         end) !! 3
  = Some (Some (Str "TXN_20240726_0005"), Some NA, Some (Str "unknown")).
Proof. vm_compute. reflexivity. Qed.

(** The date parts follow the coerced date: when the input has a [date]
    column, every output row either has a missing date, and then a missing
    [day_of_week], [month] and [year], or a date-time, and then its day
    name, month number and year; when the input has no [date] column the
    transform neither adds nor touches these three columns. *)
Theorem transform_date_parts P now df out :
  transform_data P now df = inr out ->
  (has_column "date" df = true ->
   forall r, r ∈ rows out ->
     (get r "date" = NA /\ get r "day_of_week" = NA /\
      get r "month" = NA /\ get r "year" = NA) \/
     (exists t, get r "date" = Time t /\
                get r "day_of_week" = Str (PyTime.day_name t) /\
                get r "month" = Num (Fin (inject_Z (Z.of_nat (month t)))) /\
                get r "year" = Num (Fin (inject_Z (Z.of_nat (year t)))))) /\
  (has_column "date" df = false ->
   has_column "day_of_week" out = has_column "day_of_week" df /\
   has_column "month" out = has_column "month" df /\
   has_column "year" out = has_column "year" df /\
   Forall2 (fun a r =>
              r !! "day_of_week" = a !! "day_of_week" /\
              r !! "month" = a !! "month" /\
              r !! "year" = a !! "year")
           (List.filter has_critical (rows df)) (rows out)).
Proof.
  intros Ht.
  destruct (transform_data_rows P now df out Ht)
    as (kept & _ & -> & _ & Hcols & Hrows).
  assert (Hsame : forall c, has_column c kept = has_column c df).
  { intros c. unfold has_column. now rewrite Hcols. }
  rewrite <- !Hsame, <- Hrows. clear Ht Hcols Hrows Hsame df. split.
  - intros Hdate r Hr.
    apply list_elem_of_lookup in Hr as [i Hi].
    destruct (Forall2_lookup_r _ _ _ _ _ (transform_kept_date P now kept Hdate) Hi)
      as (a & _ & Hd & Hw & Hm & Hy).
    unfold get at 1 2 3 4 5 6 7 8. rewrite Hd, Hw, Hm, Hy. cbn [default].
    destruct (to_datetime P (get a "date")) as [|x|s|t] eqn:E.
    + left. repeat split.
    + exfalso. destruct (get a "date") as [|x'|s'|t']; cbn in E;
        repeat match type of E with
               | context [match ?o with _ => _ end] => destruct o
               end; discriminate.
    + exfalso. destruct (get a "date") as [|x'|s'|t']; cbn in E;
        repeat match type of E with
               | context [match ?o with _ => _ end] => destruct o
               end; discriminate.
    + right. exists t. repeat split.
  - intros Hdate.
    unfold transform_kept, text_columns. cbn [fold_left]. cbv zeta.
    rewrite (when_column_false "date" (assign "date" _)) by has_column_other.
    rewrite (when_column_false "date") by has_column_other.
    split; [has_column_other|]. split; [has_column_other|].
    split; [has_column_other|].
    keep_steps other_column.
    apply Forall2_same. auto.
Qed.

Lemma transform_date_parts_witness :
  (get Sample.first_row_out "date" = NA /\
   get Sample.first_row_out "day_of_week" = NA /\
   get Sample.first_row_out "month" = NA /\
   get Sample.first_row_out "year" = NA) \/
  (exists t, get Sample.first_row_out "date" = Time t /\
             get Sample.first_row_out "day_of_week" = Str (PyTime.day_name t) /\
             get Sample.first_row_out "month"
               = Num (Fin (inject_Z (Z.of_nat (month t)))) /\
             get Sample.first_row_out "year"
               = Num (Fin (inject_Z (Z.of_nat (year t))))).
Proof.
  apply (proj1 (transform_date_parts Sample.codec Sample.clock Sample.two_rows
                  Sample.two_rows_out eq_refl)).
  - exact eq_refl.
  - apply (list_elem_of_lookup_2 _ 0). exact eq_refl.
Defined.

(** 2024-07-26 was a Friday. *)
Example date_parts_sample :
  (Sample.first_row_out !! "date", Sample.first_row_out !! "day_of_week",
   Sample.first_row_out !! "month", Sample.first_row_out !! "year")
  = (Some (Time (midnight 2024 7 26)), Some (Str "Friday"),
     Some (Num (Fin 7)), Some (Num (Fin 2024))).
Proof. vm_compute. reflexivity. Qed.

(** The transform drops and reorders no column: the output columns are
    the input columns, in their order, followed by the columns that the
    transform added, which are among [processed_timestamp], [processed_by],
    [amount_category], [amount_abs], [day_of_week], [month] and [year];
    the first four are always in the output. *)
Theorem transform_keeps_input_columns P now df out :
  transform_data P now df = inr out ->
  columns df `prefix_of` columns out /\
  (forall c, c ∈ columns out ->
     c ∈ columns df \/
     c ∈ ["processed_timestamp"; "processed_by"; "amount_category";
          "amount_abs"; "day_of_week"; "month"; "year"]) /\
  Forall (fun c => has_column c out = true)
    ["processed_timestamp"; "processed_by"; "amount_category"; "amount_abs"].
Proof.
  intros Ht.
  destruct (transform_data_rows P now df out Ht)
    as (kept & _ & -> & Ham & Hcols & _).
  rewrite <- Hcols.
  destruct (transform_kept_columns P now kept) as (k & Hk & HL).
  split; [|split].
  - exists k. exact Hk.
  - intros c Hc. rewrite Hk in Hc. apply elem_of_app in Hc as [Hc|Hc]; [now left|].
    right. rewrite Forall_forall in HL. now apply HL.
  - unfold transform_kept, text_columns. cbn [fold_left]. cbv zeta.
    repeat constructor.
    + repeat first [ assumption | apply has_column_assign_same
                   | apply has_column_assign_mono
                   | apply has_column_when_mono; [intros ? ?|] ].
    + repeat first [ assumption | apply has_column_assign_same
                   | apply has_column_assign_mono
                   | apply has_column_when_mono; [intros ? ?|] ].
    + do 4 (apply has_column_when_mono; [intros ? ?; has_column_mono|]).
      rewrite when_column_true by has_column_mono.
      apply has_column_assign_mono, has_column_assign_same.
    + do 4 (apply has_column_when_mono; [intros ? ?; has_column_mono|]).
      rewrite when_column_true by has_column_mono.
      apply has_column_assign_same.
Qed.

Lemma transform_keeps_input_columns_witness :
  columns Sample.two_rows `prefix_of` columns Sample.two_rows_out.
Proof.
  exact (proj1 (transform_keeps_input_columns Sample.codec Sample.clock
                  Sample.two_rows Sample.two_rows_out eq_refl)).
Defined.

Example columns_sample :
  columns Sample.two_rows_out
  = Sample.columns9 ++
    ["processed_timestamp"; "processed_by"; "amount_category"; "amount_abs";
     "day_of_week"; "month"; "year"].
Proof. vm_compute. reflexivity. Qed.

(** ** Cleaned text *)

(** Changing the case of a letter gives a letter of the other case, and
    no character becomes or stops being a space. *)
Lemma toupper_upper c :
  PyStr.islower c = true ->
  PyStr.isupper (PyStr.toupper c) = true /\
  PyStr.islower (PyStr.toupper c) = false.
Proof.
  destruct c as [[] [] [] [] [] [] [] []]; intros H;
    first [discriminate H | split; reflexivity].
Qed.

Lemma tolower_lower c :
  PyStr.isupper c = true -> PyStr.islower (PyStr.tolower c) = true.
Proof.
  destruct c as [[] [] [] [] [] [] [] []]; intros H;
    first [discriminate H | reflexivity].
Qed.

Lemma isspace_toupper c : PyStr.isspace (PyStr.toupper c) = PyStr.isspace c.
Proof. destruct c as [[] [] [] [] [] [] [] []]; reflexivity. Qed.

Lemma isspace_tolower c : PyStr.isspace (PyStr.tolower c) = PyStr.isspace c.
Proof. destruct c as [[] [] [] [] [] [] [] []]; reflexivity. Qed.

(** [title] leaves a title-cased text as it is. *)
Lemma title_from_idem : forall s b,
  PyStr.title_from b (PyStr.title_from b s) = PyStr.title_from b s.
Proof.
  induction s as [|c s IH]; intros b; cbn [PyStr.title_from]; [reflexivity|].
  destruct (PyStr.islower c) eqn:El.
  - destruct b; cbn [PyStr.title_from].
    + rewrite El. now rewrite IH.
    + destruct (toupper_upper c El) as [Hu Hl]. rewrite Hl, Hu. now rewrite IH.
  - destruct (PyStr.isupper c) eqn:Eu.
    + destruct b; cbn [PyStr.title_from].
      * rewrite (tolower_lower c Eu). now rewrite IH.
      * rewrite El, Eu. now rewrite IH.
    + cbn [PyStr.title_from]. rewrite El, Eu. now rewrite IH.
Qed.

(** The first character of a title-cased text is a space exactly when
    the first character of the text is. *)
Lemma title_from_cons b c s :
  exists c' b', PyStr.title_from b (String c s) = String c' (PyStr.title_from b' s) /\
                PyStr.isspace c' = PyStr.isspace c.
Proof.
  cbn [PyStr.title_from].
  destruct (PyStr.islower c); [|destruct (PyStr.isupper c)].
  - destruct b; eexists _, _; split; try reflexivity. apply isspace_toupper.
  - destruct b; eexists _, _; split; try reflexivity. apply isspace_tolower.
  - eexists _, _; split; reflexivity.
Qed.

Lemma length_lstrip s : String.length (PyStr.lstrip s) <= String.length s.
Proof.
  induction s as [|c s IH]; cbn [PyStr.lstrip String.length]; [lia|].
  destruct (PyStr.isspace c); cbn [String.length]; lia.
Qed.

(** What [lstrip] returns does not start with a space. *)
Lemma lstrip_head s :
  PyStr.lstrip s = "" \/
  exists c r, PyStr.lstrip s = String c r /\ PyStr.isspace c = false.
Proof.
  induction s as [|c s IH]; cbn [PyStr.lstrip]; [now left|].
  destruct (PyStr.isspace c) eqn:E; [exact IH|]. right. eauto.
Qed.

Lemma lstrip_no_space c r :
  PyStr.isspace c = false -> PyStr.lstrip (String c r) = String c r.
Proof. intros H. cbn [PyStr.lstrip]. now rewrite H. Qed.

Lemma rstrip_cons c s :
  PyStr.rstrip (String c s) =
    match PyStr.rstrip s with
    | "" => if PyStr.isspace c then "" else String c ""
    | kept => String c kept
    end.
Proof. reflexivity. Qed.

(** [rstrip] leaves what it returned as it is, and the first character
    of what it returns is the first character of the text. *)
Lemma rstrip_idem : forall s, PyStr.rstrip (PyStr.rstrip s) = PyStr.rstrip s.
Proof.
  induction s as [|c s IH]; [reflexivity|]. rewrite rstrip_cons.
  destruct (PyStr.rstrip s) as [|k ks] eqn:E.
  - destruct (PyStr.isspace c) eqn:Ec; [reflexivity|].
    rewrite rstrip_cons. cbn [PyStr.rstrip]. now rewrite Ec.
  - rewrite rstrip_cons, IH. reflexivity.
Qed.

Lemma rstrip_head c s :
  PyStr.rstrip (String c s) = "" \/ exists r, PyStr.rstrip (String c s) = String c r.
Proof.
  rewrite rstrip_cons. destruct (PyStr.rstrip s).
  - destruct (PyStr.isspace c); [now left|right; eauto].
  - right. eauto.
Qed.

Lemma strip_lstrip s : PyStr.lstrip (PyStr.strip s) = PyStr.strip s.
Proof.
  unfold PyStr.strip. destruct (lstrip_head s) as [->|(c & r & -> & Hc)];
    [reflexivity|].
  destruct (rstrip_head c r) as [->|[r' ->]]; [reflexivity|].
  now apply lstrip_no_space.
Qed.

Lemma strip_rstrip s : PyStr.rstrip (PyStr.strip s) = PyStr.strip s.
Proof. unfold PyStr.strip. apply rstrip_idem. Qed.

Lemma title_from_nonempty b c s : PyStr.title_from b (String c s) <> "".
Proof. destruct (title_from_cons b c s) as (c' & b' & -> & _). discriminate. Qed.

(** Title-casing a text without a space at either end leaves it without
    one. *)
Lemma lstrip_title b s :
  PyStr.lstrip s = s -> PyStr.lstrip (PyStr.title_from b s) = PyStr.title_from b s.
Proof.
  destruct s as [|c s]; [reflexivity|]. intros H.
  destruct (PyStr.isspace c) eqn:Ec.
  - exfalso. cbn [PyStr.lstrip] in H. rewrite Ec in H.
    pose proof (length_lstrip s) as Hlen. rewrite H in Hlen.
    cbn [String.length] in Hlen. lia.
  - destruct (title_from_cons b c s) as (c' & b' & -> & Hc').
    apply lstrip_no_space. congruence.
Qed.

Lemma rstrip_title : forall s b,
  PyStr.rstrip s = s -> PyStr.rstrip (PyStr.title_from b s) = PyStr.title_from b s.
Proof.
  induction s as [|c s IH]; intros b H; [reflexivity|].
  rewrite rstrip_cons in H.
  destruct (title_from_cons b c s) as (c' & b' & -> & Hc').
  rewrite rstrip_cons.
  destruct (PyStr.rstrip s) as [|k ks] eqn:E.
  - destruct (PyStr.isspace c) eqn:Ec; [discriminate|].
    injection H as <-. cbn [PyStr.title_from PyStr.rstrip].
    now rewrite Hc'.
  - injection H as H. rewrite (IH b') by exact H.
    rewrite <- H. destruct (PyStr.title_from b' (String k ks)) eqn:Et;
      [|reflexivity].
    exfalso. now apply (title_from_nonempty b' k ks).
Qed.

(** A cleaned text is stripped and title-cased: cleaning it again gives
    the same text. *)
Lemma clean_text_fixed s :
  let t := PyStr.title (PyStr.strip s) in
  PyStr.strip t = t /\ PyStr.title t = t.
Proof.
  cbv zeta. split.
  - unfold PyStr.strip at 1, PyStr.title.
    rewrite lstrip_title by apply strip_lstrip.
    apply rstrip_title, strip_rstrip.
  - unfold PyStr.title. apply title_from_idem.
Qed.

(** ASCII text stays ASCII under [strip] and [title]. *)
Lemma isascii_cons c s :
  PyStr.isascii (String c s) = (nat_of_ascii c <? 128) && PyStr.isascii s.
Proof. reflexivity. Qed.

Lemma toupper_ascii c :
  (nat_of_ascii c <? 128) = true -> (nat_of_ascii (PyStr.toupper c) <? 128) = true.
Proof.
  destruct c as [[] [] [] [] [] [] [] []]; intros H;
    first [discriminate H | reflexivity].
Qed.

Lemma tolower_ascii c :
  (nat_of_ascii c <? 128) = true -> (nat_of_ascii (PyStr.tolower c) <? 128) = true.
Proof.
  destruct c as [[] [] [] [] [] [] [] []]; intros H;
    first [discriminate H | reflexivity].
Qed.

Lemma isascii_lstrip s : PyStr.isascii s = true -> PyStr.isascii (PyStr.lstrip s) = true.
Proof.
  induction s as [|c s IH]; [reflexivity|]. intros H.
  cbn [PyStr.lstrip]. destruct (PyStr.isspace c); [|exact H].
  rewrite isascii_cons in H. apply andb_true_iff in H as [_ H]. now apply IH.
Qed.

Lemma isascii_rstrip s : PyStr.isascii s = true -> PyStr.isascii (PyStr.rstrip s) = true.
Proof.
  induction s as [|c s IH]; [reflexivity|]. intros H.
  rewrite isascii_cons in H. apply andb_true_iff in H as [Hc H].
  rewrite rstrip_cons. specialize (IH H).
  destruct (PyStr.rstrip s) as [|k ks].
  - destruct (PyStr.isspace c); [reflexivity|].
    rewrite isascii_cons, Hc. reflexivity.
  - rewrite isascii_cons, Hc. exact IH.
Qed.

Lemma isascii_title_from : forall s b,
  PyStr.isascii s = true -> PyStr.isascii (PyStr.title_from b s) = true.
Proof.
  induction s as [|c s IH]; intros b H; [reflexivity|].
  rewrite isascii_cons in H. apply andb_true_iff in H as [Hc H].
  cbn [PyStr.title_from].
  destruct (PyStr.islower c); [|destruct (PyStr.isupper c)];
    rewrite isascii_cons, (IH _ H), andb_true_r.
  - destruct b; [exact Hc|now apply toupper_ascii].
  - destruct b; [now apply tolower_ascii|exact Hc].
  - exact Hc.
Qed.

Lemma isascii_clean s :
  PyStr.isascii s = true -> PyStr.isascii (PyStr.title (PyStr.strip s)) = true.
Proof.
  intros H. unfold PyStr.title, PyStr.strip.
  now apply isascii_title_from, isascii_rstrip, isascii_lstrip.
Qed.

(** When the frame has a text column (description, category or
    location), a kept row whose cell in it prints as ASCII text comes out
    with an ASCII text that has no white space at either end and is
    title-cased; cleaning it a second time leaves it as it is. *)
Theorem transform_text_is_clean P now df out c :
  transform_data P now df = inr out ->
  c ∈ text_columns ->
  has_column c df = true ->
  Forall2 (fun a r =>
             PyStr.isascii (astype_str P (get a c)) = true ->
             exists s, r !! c = Some (Str s) /\
                       PyStr.isascii s = true /\
                       PyStr.strip s = s /\ PyStr.title s = s /\
                       clean_text P (Str s) = Str s)
          (List.filter has_critical (rows df)) (rows out).
Proof.
  intros Ht Hc Hhas.
  destruct (transform_data_rows P now df out Ht)
    as (kept & _ & -> & _ & Hcols & Hrows).
  assert (Hhas' : has_column c kept = true).
  { unfold has_column. rewrite Hcols. exact Hhas. }
  rewrite <- Hrows.
  eapply Forall2_impl; [exact (transform_kept_text P now c kept Hc Hhas')|].
  intros a r Hcell Hascii. unfold clean_text in Hcell at 1.
  exists (PyStr.title (PyStr.strip (astype_str P (get a c)))).
  destruct (clean_text_fixed (astype_str P (get a c))) as [Hs Htitle].
  split; [exact Hcell|]. split; [now apply isascii_clean|].
  split; [exact Hs|]. split; [exact Htitle|].
  unfold clean_text. cbn [astype_str]. now rewrite Hs, Htitle.
Qed.

Lemma transform_text_is_clean_witness :
  Forall2 (fun a r =>
             PyStr.isascii (astype_str Sample.codec (get a "description")) = true ->
             exists s, r !! "description" = Some (Str s) /\
                       PyStr.isascii s = true /\
                       PyStr.strip s = s /\ PyStr.title s = s /\
                       clean_text Sample.codec (Str s) = Str s)
          (List.filter has_critical (rows Sample.two_rows))
          (rows Sample.two_rows_out).
Proof.
  apply (transform_text_is_clean Sample.codec Sample.clock Sample.two_rows
           Sample.two_rows_out "description").
  - exact eq_refl.
  - apply list_elem_of_here.
  - exact eq_refl.
Defined.

Example clean_text_sample :
  clean_text Sample.codec (Str "  grocery STORE  ") = Str "Grocery Store" /\
  clean_text Sample.codec (Str "Grocery Store") = Str "Grocery Store".
Proof. split; vm_compute; reflexivity. Qed.

(** ** The warehouse table under a batch of statements *)

Lemma existsb_same_key r table :
  existsb (Warehouse.same_key r) table = true <->
  Warehouse.transaction_id r ∈ Warehouse.transaction_id <$> table.
Proof.
  rewrite existsb_exists, list_elem_of_fmap. split.
  - intros (o & Hin & Hk). exists o. split.
    + now apply same_key_true.
    + now apply list_elem_of_In.
  - intros (o & Hk & Hin). exists o. split.
    + now apply list_elem_of_In.
    + now apply same_key_true.
Qed.

(** The keys of the table after one statement. *)
Lemma upsert_keys table r :
  Warehouse.transaction_id <$> Warehouse.upsert table r =
    if existsb (Warehouse.same_key r) table
    then Warehouse.transaction_id <$> table
    else (Warehouse.transaction_id <$> table) ++ [Warehouse.transaction_id r].
Proof.
  unfold Warehouse.upsert. destruct (existsb _ table).
  - change (map ?f table) with (f <$> table). rewrite <- list_fmap_compose.
    apply list_fmap_ext. intros i o _. cbn.
    now destruct (Warehouse.same_key r o).
  - now rewrite fmap_app.
Qed.

Lemma do_update_self r : Warehouse.do_update r r = r.
Proof. now destruct r. Qed.

Lemma do_update_twice o r x :
  Warehouse.do_update (Warehouse.do_update o r) x = Warehouse.do_update o x.
Proof. reflexivity. Qed.

Lemma last_with_cons k r rs :
  last_with k (r :: rs) =
    if bool_decide (Warehouse.transaction_id r = k)
    then Some (default r (last_with k rs))
    else last_with k rs.
Proof.
  unfold last_with, Warehouse.rows_with. cbn [List.filter].
  destruct (bool_decide (Warehouse.transaction_id r = k)); [|reflexivity].
  destruct (List.filter _ rs) as [|x l]; [reflexivity|].
  rewrite last_cons. now destruct (last (x :: l)).
Qed.

Lemma last_with_snoc k rs r :
  last_with k (rs ++ [r]) =
    if bool_decide (Warehouse.transaction_id r = k)
    then Some r
    else last_with k rs.
Proof.
  unfold last_with. rewrite rows_with_app.
  unfold Warehouse.rows_with at 2. cbn [List.filter].
  destruct (bool_decide (Warehouse.transaction_id r = k)).
  - apply last_snoc.
  - now rewrite app_nil_r.
Qed.

(** A batch whose keys are all in the table refreshes the stored rows
    and adds none. *)
Lemma upsert_batch_present rs : forall table,
  (forall r, r ∈ rs ->
     Warehouse.transaction_id r ∈ Warehouse.transaction_id <$> table) ->
  fold_left Warehouse.upsert rs table = map (refresh rs) table.
Proof.
  induction rs as [|r rs IH]; intros table Hkeys; cbn [fold_left].
  - symmetry. unfold refresh, last_with. cbn. apply map_id.
  - assert (Hr : existsb (Warehouse.same_key r) table = true).
    { apply existsb_same_key, Hkeys, list_elem_of_here. }
    rewrite IH.
    + unfold Warehouse.upsert. rewrite Hr, map_map. apply map_ext.
      intros o. unfold refresh. rewrite last_with_cons.
      unfold Warehouse.same_key.
      destruct (bool_decide (Warehouse.transaction_id r
                             = Warehouse.transaction_id o)) eqn:E.
      * cbn [Warehouse.do_update Warehouse.transaction_id].
        destruct (last_with (Warehouse.transaction_id o) rs); reflexivity.
      * reflexivity.
    + intros r' Hr'. rewrite upsert_keys, Hr. apply Hkeys.
      now apply list_elem_of_further.
Qed.

(** After a batch every key of the batch is in the table, and every
    stored row already has the amount and the processing time of the last
    row of the batch with its key. *)
Lemma upsert_batch_settled rs : forall table,
  (forall r, r ∈ rs ->
     Warehouse.transaction_id r
       ∈ Warehouse.transaction_id <$> fold_left Warehouse.upsert rs table) /\
  (forall o, o ∈ fold_left Warehouse.upsert rs table -> refresh rs o = o).
Proof.
  induction rs as [|r rs IH] using rev_ind; intros table.
  - split; [intros r Hr; inversion Hr|]. intros o _. reflexivity.
  - rewrite fold_left_app. cbn [fold_left].
    destruct (IH table) as [Hkeys Hfix].
    set (T0 := fold_left Warehouse.upsert rs table) in *.
    split.
    + intros r' Hr'. rewrite upsert_keys.
      destruct (existsb (Warehouse.same_key r) T0) eqn:E.
      * apply elem_of_app in Hr' as [Hr'|Hr']; [now apply Hkeys|].
        apply list_elem_of_singleton in Hr' as ->. now apply existsb_same_key.
      * apply elem_of_app in Hr' as [Hr'|Hr'].
        -- apply elem_of_app. left. now apply Hkeys.
        -- apply list_elem_of_singleton in Hr' as ->.
           apply elem_of_app. right. apply list_elem_of_here.
    + intros o Ho. unfold refresh. rewrite last_with_snoc.
      unfold Warehouse.upsert in Ho.
      destruct (existsb (Warehouse.same_key r) T0) eqn:E.
      * change (map ?f T0) with (f <$> T0) in Ho.
        apply list_elem_of_fmap in Ho as (o0 & -> & Ho0).
        unfold Warehouse.same_key.
        destruct (bool_decide (Warehouse.transaction_id r
                               = Warehouse.transaction_id o0)) eqn:E0.
        -- cbn [Warehouse.do_update Warehouse.transaction_id].
           rewrite E0. reflexivity.
        -- rewrite E0. apply (Hfix o0 Ho0).
      * apply elem_of_app in Ho as [Ho|Ho].
        -- rewrite bool_decide_eq_false_2; [now apply Hfix|].
           intros Hk. apply not_true_iff_false in E. apply E.
           apply existsb_same_key. rewrite Hk.
           apply list_elem_of_fmap. eauto.
        -- apply list_elem_of_singleton in Ho as ->.
           rewrite bool_decide_eq_true_2 by reflexivity. apply do_update_self.
Qed.

Lemma upsert_batch_idem rs table :
  fold_left Warehouse.upsert rs (fold_left Warehouse.upsert rs table)
  = fold_left Warehouse.upsert rs table.
Proof.
  destruct (upsert_batch_settled rs table) as [Hkeys Hfix].
  rewrite upsert_batch_present by exact Hkeys.
  rewrite <- (map_id (fold_left Warehouse.upsert rs table)) at 2.
  apply map_ext_in. intros o Ho. apply Hfix. now apply list_elem_of_In.
Qed.










(** The statement keeps the primary key: in a table with no two rows
    under one transaction_id it leaves no two rows under one
    transaction_id; it removes no key, adds the key of its row when the
    table does not have it, and never more than one row. *)
Theorem upsert_keeps_keys_unique table r :
  NoDup (Warehouse.transaction_id <$> table) ->
  NoDup (Warehouse.transaction_id <$> Warehouse.upsert table r) /\
  (forall k, k ∈ Warehouse.transaction_id <$> Warehouse.upsert table r <->
             k ∈ Warehouse.transaction_id <$> table \/
             k = Warehouse.transaction_id r) /\
  length table <= length (Warehouse.upsert table r) <= S (length table).
Proof.
  intros Hnd. rewrite upsert_keys.
  assert (Hlen : length (Warehouse.upsert table r) =
                 if existsb (Warehouse.same_key r) table
                 then length table else S (length table)).
  { unfold Warehouse.upsert. destruct (existsb _ table).
    - apply length_map.
    - rewrite length_app. cbn. lia. }
  rewrite Hlen.
  destruct (existsb (Warehouse.same_key r) table) eqn:E.
  - split; [exact Hnd|]. split; [|lia].
    intros k. split; [now left|]. intros [H| ->]; [exact H|].
    now apply existsb_same_key.
  - split; [|split; [|lia]].
    + apply NoDup_app. split; [exact Hnd|]. split; [|apply NoDup_singleton].
      intros k Hk Hk'. apply list_elem_of_singleton in Hk' as ->.
      apply existsb_same_key in Hk. congruence.
    + intros k. rewrite elem_of_app, list_elem_of_singleton. reflexivity.
Qed.

Lemma upsert_keeps_keys_unique_witness :
  NoDup (Warehouse.transaction_id
           <$> Warehouse.upsert (Warehouse.upsert [] Sample.stored) Sample.resent).
Proof.
  apply (upsert_keeps_keys_unique (Warehouse.upsert [] Sample.stored) Sample.resent).
  apply (upsert_keeps_keys_unique [] Sample.stored). constructor.
Defined.

(** ** The load stage *)

(** One pass of the insert loop. *)
Lemma insert_row_run Pl source_file row n w :
  try_except
    (execute_upsert Pl (Warehouse.of_row row source_file) ≫= fun _ => mret (n + 1))
    (fun e => log WARNING (MsgRowFailed (row !! "transaction_id") e) ≫= fun _ =>
              mret n) w
  = match db_execute Pl (Warehouse.of_row row source_file) with
    | None =>
        ({| warehouse := Warehouse.upsert (warehouse w)
                           (Warehouse.of_row row source_file);
            trace := trace w ++ [row_action Pl source_file row] |}, inr (n + 1))
    | Some e =>
        ({| warehouse := warehouse w;
            trace := trace w ++ [row_action Pl source_file row] |}, inr n)
    end.
Proof.
  unfold try_except, mbind, M_bind, execute_upsert, row_action.
  destruct (db_execute Pl _); reflexivity.
Qed.

(** The insert loop: the accepted rows reach the table in their order, a
    refused row leaves a warning, and the count is that of the accepted
    rows. *)
Lemma insert_rows_run Pl source_file rs : forall n w,
  insert_rows Pl source_file rs n w =
    ({| warehouse :=
          fold_left Warehouse.upsert
            (accepted_rows Pl source_file {| columns := []; rows := rs |})
            (warehouse w);
        trace := trace w ++ map (row_action Pl source_file) rs |},
     inr (n + length (accepted_rows Pl source_file
                        {| columns := []; rows := rs |}))).
Proof.
  unfold accepted_rows, sent_rows. cbn [rows].
  induction rs as [|row rs IH]; intros n w; cbn [insert_rows].
  - cbn. rewrite app_nil_r, Nat.add_0_r. now destruct w.
  - unfold mbind at 1, M_bind at 1. rewrite insert_row_run.
    cbn [map List.filter].
    destruct (db_execute Pl (Warehouse.of_row row source_file)) as [e|] eqn:E.
    + rewrite bool_decide_eq_false_2 by discriminate.
      rewrite IH. cbn [warehouse trace]. now rewrite <- app_assoc.
    + rewrite bool_decide_eq_true_2 by reflexivity.
      rewrite IH. cbn [warehouse trace fold_left length].
      rewrite <- app_assoc. do 2 f_equal. lia.
Qed.

Lemma configured_values Pl :
  is_redshift_configured (environ Pl) = true ->
  Forall (fun var => environ Pl !! var = Some (environ_value Pl var)) required_vars.
Proof.
  intros Hcfg. apply is_redshift_configured_iff in Hcfg.
  eapply Forall_impl; [exact Hcfg|].
  intros var (v & Hv & _). unfold environ_value. now rewrite Hv.
Qed.

(** The load stage, by what the driver answers: the first call that
    raises ends the load with its exception, logged once; the rows are in
    the table from the commit on. *)
Lemma load_to_redshift_run Pl df source_file w :
  is_redshift_configured (environ Pl) = true ->
  load_to_redshift Pl df source_file w =
    let loaded := fold_left Warehouse.upsert (accepted_rows Pl source_file df)
                            (warehouse w) in
    let failed (table : list Warehouse.wrow) (done : list action) (e : exn)
      : world * result unit :=
      ({| warehouse := table;
          trace := trace w ++ done ++ [Log ERROR (MsgLoadError e)] |}, inl e) in
    match db_connect Pl with
    | Some e => failed (warehouse w) (connect_actions Pl) e
    | None =>
    match db_cursor Pl with
    | Some e => failed (warehouse w) (connect_actions Pl) e
    | None =>
    match db_create_table Pl with
    | Some e => failed (warehouse w) (connect_actions Pl ++ [DbCreateTable]) e
    | None =>
    match db_commit Pl with
    | Some e => failed (warehouse w) (commit_actions Pl source_file df) e
    | None =>
    match db_cursor_close Pl with
    | Some e => failed loaded (commit_actions Pl source_file df) e
    | None =>
    match db_close Pl with
    | Some e => failed loaded (commit_actions Pl source_file df ++ [DbClose]) e
    | None =>
        ({| warehouse := loaded;
            trace := trace w ++ load_actions Pl source_file df |}, inr tt)
    end end end end end end.
Proof.
  intros Hcfg. apply configured_values in Hcfg. unfold required_vars in Hcfg.
  repeat match goal with
         | H : Forall _ (_ :: _) |- _ => apply Forall_cons in H as [? H]
         end.
  cbv zeta.
  unfold load_to_redshift, load_actions, commit_actions, connect_actions.
  unfold mbind at 1, M_bind at 1, log at 1, emit at 1.
  unfold try_except at 1, environ_item.
  repeat match goal with
         | H : environ Pl !! _ = Some _ |- _ => rewrite H; clear H
         end.
  unfold mbind at 1 2 3 4 5 6 7, M_bind at 1 2 3 4 5 6 7, mret at 1 2 3 4 5,
    M_ret at 1 2 3 4 5, emit at 1.
  cbn [fst snd warehouse trace].
  destruct (db_connect Pl) as [e|].
  { unfold answer at 1, raise at 1. unfold mbind, M_bind, log, emit, raise.
    cbn [fst snd warehouse trace]. rewrite <- !app_assoc. reflexivity. }
  unfold answer at 1, mret at 1, M_ret at 1. unfold mbind at 1, M_bind at 1.
  destruct (db_cursor Pl) as [e|].
  { unfold answer at 1, raise at 1. unfold mbind, M_bind, log, emit, raise.
    cbn [fst snd warehouse trace]. rewrite <- !app_assoc. reflexivity. }
  unfold answer at 1, mret at 1, M_ret at 1.
  unfold mbind at 1 2, M_bind at 1 2, stored_rows at 1, emit at 1.
  cbn [fst snd warehouse trace].
  unfold mbind at 1, M_bind at 1.
  destruct (db_create_table Pl) as [e|].
  { unfold answer at 1, raise at 1. unfold mbind, M_bind, log, emit, raise.
    cbn [fst snd warehouse trace]. rewrite <- !app_assoc. reflexivity. }
  unfold answer at 1, mret at 1, M_ret at 1.
  unfold mbind at 1 2, M_bind at 1 2, log at 1, emit at 1.
  cbn [fst snd warehouse trace].
  rewrite insert_rows_run. cbn [fst snd warehouse trace].
  unfold mbind at 1, M_bind at 1, commit at 1. cbn [warehouse trace].
  unfold accepted_rows, sent_rows. cbn [rows Nat.add].
  destruct (db_commit Pl) as [e|].
  { unfold mbind, M_bind, log, emit, raise.
    cbn [fst snd warehouse trace]. rewrite <- !app_assoc. reflexivity. }
  unfold mbind at 1, M_bind at 1.
  destruct (db_cursor_close Pl) as [e|].
  { unfold answer at 1, raise at 1. unfold mbind, M_bind, log, emit, raise.
    cbn [fst snd warehouse trace]. rewrite <- !app_assoc. reflexivity. }
  unfold answer at 1, mret at 1, M_ret at 1.
  unfold mbind at 1 2, M_bind at 1 2, emit at 1. cbn [fst snd warehouse trace].
  destruct (db_close Pl) as [e|].
  { unfold answer at 1, raise at 1. unfold mbind, M_bind, log, emit, raise.
    cbn [fst snd warehouse trace]. rewrite <- !app_assoc. reflexivity. }
  unfold answer, mret, M_ret, mbind, M_bind, log, emit.
  cbn [fst snd warehouse trace]. rewrite <- !app_assoc. reflexivity.
Qed.

(** A load in which the driver raises at none of its calls around the row
    loop. *)
Lemma load_to_redshift_done Pl df source_file w :
  is_redshift_configured (environ Pl) = true ->
  session_ok Pl ->
  load_to_redshift Pl df source_file w =
    ({| warehouse :=
          fold_left Warehouse.upsert (accepted_rows Pl source_file df)
                    (warehouse w);
        trace := trace w ++ load_actions Pl source_file df |}, inr tt).
Proof.
  intros Hcfg (H1 & H2 & H3 & H4 & H5 & H6).
  rewrite load_to_redshift_run by exact Hcfg. cbv zeta.
  now rewrite H1, H2, H3, H4, H5, H6.
Qed.

(** Whatever the driver answers, the table after a load is the table
    before it or the table with the accepted rows. *)
Lemma load_to_redshift_table Pl df source_file w :
  is_redshift_configured (environ Pl) = true ->
  warehouse (fst (load_to_redshift Pl df source_file w)) = warehouse w \/
  warehouse (fst (load_to_redshift Pl df source_file w))
    = fold_left Warehouse.upsert (accepted_rows Pl source_file df) (warehouse w).
Proof.
  intros Hcfg. rewrite load_to_redshift_run by exact Hcfg. cbv zeta.
  destruct (db_connect Pl); [now left|].
  destruct (db_cursor Pl); [now left|].
  destruct (db_create_table Pl); [now left|].
  destruct (db_commit Pl); [now left|].
  destruct (db_cursor_close Pl); [now right|].
  destruct (db_close Pl); now right.
Qed.

(** *** The table after a load *)





(** After the load the table holds the one row, with the new amount and
    the category of the first insert. *)
Example load_of_resent_row_sample :
  let after := fst (load_to_redshift (Sample.platform_with Sample.full_environ)
                      Sample.resent_frame Sample.raw_key Sample.stored_world) in
  warehouse after = [Warehouse.do_update Sample.stored Sample.resent] /\
  Warehouse.amount <$> warehouse after = [Some (Num (Fin (- (990 # 100))))] /\
  Warehouse.category <$> warehouse after = [Some (Str "food")] /\
  Warehouse.category Sample.resent = Some (Str "shopping").
Proof. repeat split; vm_compute; reflexivity. Qed.

(** ** Invocations that reach the load stage *)

Section LoadedInvocation.

Variable Pl : platform.
Variables (s3_event : s3_record) (others : list s3_record) (w : world).
Variables (data : string) (df kept : DataFrame).

Hypothesis Hkey : PyStr.startswith (key s3_event) "raw-data/" = true.
Hypothesis Hget : s3_get_object Pl (bucket s3_event) (key s3_event) = inr data.
Hypothesis Hread : pd_read_csv Pl data = inr df.
Hypothesis Hdrop : dropna ["transaction_id"; "amount"] df = inr kept.
Hypothesis Hcfg : is_redshift_configured (environ Pl) = true.

(** An invocation with the load stage enabled, from the outcome of the
    load: a load that raises ends the invocation, otherwise the write-back
    follows. *)
Lemma handler_after_load :
  let transformed := transform_kept (pd Pl) (now_transform Pl) kept in
  let request := save_request Pl (bucket s3_event) transformed (key s3_event) in
  let before := actions_before_load s3_event df kept transformed in
  lambda_handler Pl (s3_event :: others) w =
    match load_to_redshift Pl transformed (key s3_event)
            {| warehouse := warehouse w; trace := trace w ++ before |} with
    | (w2, inl e) =>
        ({| warehouse := warehouse w2;
            trace := trace w2 ++ [Log ERROR (MsgPipelineError e)] |},
         {| statusCode := 500; response_body := BodyError e (key s3_event) |})
    | (w2, inr _) =>
        match s3_put_object Pl request with
        | None =>
            ({| warehouse := warehouse w2;
                trace := trace w2 ++
                         [Log INFO MsgSaving; S3PutObject request;
                          Log INFO (MsgSaved (bucket s3_event)
                                             (processed_key (key s3_event)));
                          Log INFO (MsgProcessed (length (rows transformed)))] |},
             {| statusCode := 200;
                response_body :=
                  BodyCompleted (length (rows transformed)) (key s3_event) |})
        | Some e =>
            ({| warehouse := warehouse w2;
                trace := trace w2 ++
                         [Log INFO MsgSaving; S3PutObject request;
                          Log ERROR (MsgSaveError e);
                          Log ERROR (MsgPipelineError e)] |},
             {| statusCode := 500; response_body := BodyError e (key s3_event) |})
        end
    end.
Proof.
  intros transformed request before. unfold lambda_handler.
  change (log INFO MsgStarted w).1
    with {| warehouse := warehouse w; trace := trace w ++ [Log INFO MsgStarted] |}.
  rewrite (process_object_to_load Pl _ _ data df kept _ Hkey Hget Hread Hdrop).
  fold transformed. rewrite Hcfg. cbn [warehouse trace].
  subst before. unfold actions_before_load.
  rewrite <- (app_assoc (trace w) [Log INFO MsgStarted]). cbn [app].
  unfold mbind at 1, M_bind at 1.
  destruct (load_to_redshift Pl transformed (key s3_event) _) as [w2 [e|[]]].
  - reflexivity.
  - unfold mbind at 1, M_bind at 1.
    rewrite save_processed_data_run. cbv zeta. fold request.
    destruct (s3_put_object Pl request) as [e|].
    + unfold log, emit. cbn [fst warehouse trace].
      f_equal. f_equal. trace_eq.
    + unfold mbind, M_bind, mret, M_ret, log, emit.
      cbn [fst warehouse trace]. f_equal. f_equal. trace_eq.
Qed.

(** .. when the driver carries the load through, by what the store
    answers. *)
Lemma handler_load_run :
  session_ok Pl ->
  let transformed := transform_kept (pd Pl) (now_transform Pl) kept in
  let request := save_request Pl (bucket s3_event) transformed (key s3_event) in
  let before := actions_before_load s3_event df kept transformed in
  let loaded := fold_left Warehouse.upsert
                  (accepted_rows Pl (key s3_event) transformed) (warehouse w) in
  lambda_handler Pl (s3_event :: others) w =
    match s3_put_object Pl request with
    | None =>
        ({| warehouse := loaded;
            trace := trace w ++ before ++
                     load_actions Pl (key s3_event) transformed ++
                     [Log INFO MsgSaving; S3PutObject request;
                      Log INFO (MsgSaved (bucket s3_event)
                                         (processed_key (key s3_event)));
                      Log INFO (MsgProcessed (length (rows transformed)))] |},
         {| statusCode := 200;
            response_body :=
              BodyCompleted (length (rows transformed)) (key s3_event) |})
    | Some e =>
        ({| warehouse := loaded;
            trace := trace w ++ before ++
                     load_actions Pl (key s3_event) transformed ++
                     [Log INFO MsgSaving; S3PutObject request;
                      Log ERROR (MsgSaveError e);
                      Log ERROR (MsgPipelineError e)] |},
         {| statusCode := 500; response_body := BodyError e (key s3_event) |})
    end.
Proof.
  intros Hok transformed request before loaded.
  rewrite handler_after_load. cbv zeta. fold transformed request before.
  rewrite (load_to_redshift_done Pl transformed (key s3_event) _ Hcfg Hok).
  cbn [warehouse trace]. fold loaded.
  destruct (s3_put_object Pl request) as [e|];
    f_equal; f_equal; now rewrite <- !app_assoc.
Qed.

(** .. and when the load raises: the invocation ends with its error. *)
Lemma handler_load_failed e :
  let transformed := transform_kept (pd Pl) (now_transform Pl) kept in
  let before := actions_before_load s3_event df kept transformed in
  let load := load_to_redshift Pl transformed (key s3_event)
                {| warehouse := warehouse w; trace := trace w ++ before |} in
  snd load = inl e ->
  lambda_handler Pl (s3_event :: others) w =
    ({| warehouse := warehouse (fst load);
        trace := trace (fst load) ++ [Log ERROR (MsgPipelineError e)] |},
     {| statusCode := 500; response_body := BodyError e (key s3_event) |}).
Proof.
  intros transformed before load Hload.
  rewrite handler_after_load. cbv zeta. fold transformed before load.
  destruct load as [w2 [e'|[]]]; cbn [fst snd] in *; [|discriminate].
  now injection Hload as ->.
Qed.

End LoadedInvocation.

(** *** Failures before the load stage *)

(** A failed read: the store or the CSV reader raises. The handler logs
    the error twice (in the read stage and at the top), answers 500 with
    the error and the object key, and does nothing else: no transform, no
    warehouse action, no write-back. *)
Theorem handler_reports_read_failure Pl s3_event others w e :
  PyStr.startswith (key s3_event) "raw-data/" = true ->
  (s3_get_object Pl (bucket s3_event) (key s3_event) = inl e \/
   exists data,
     s3_get_object Pl (bucket s3_event) (key s3_event) = inr data /\
     pd_read_csv Pl data = inl e) ->
  lambda_handler Pl (s3_event :: others) w =
    ({| warehouse := warehouse w;
        trace := trace w ++
                 [Log INFO MsgStarted;
                  Log INFO (MsgProcessingFile (bucket s3_event) (key s3_event));
                  S3GetObject (bucket s3_event) (key s3_event);
                  Log ERROR (MsgReadError e);
                  Log ERROR (MsgPipelineError e)] |},
     {| statusCode := 500; response_body := BodyError e (key s3_event) |}).
Proof.
  intros Hkey Hfail. unfold lambda_handler, process_object, read_s3_data.
  rewrite Hkey. run_M.
  destruct Hfail as [Hget|(data & Hget & Hread)]; rewrite Hget; cbn;
    [|rewrite Hread; cbn]; rewrite <- !app_assoc; reflexivity.
Qed.

Lemma handler_reports_read_failure_witness :
  lambda_handler (Sample.platform_with Sample.full_environ)
    [mk_record "your-portfolio-etl-bucket" "raw-data/missing.csv"]
    Sample.empty_world =
    ({| warehouse := [];
        trace := [Log INFO MsgStarted;
                  Log INFO (MsgProcessingFile "your-portfolio-etl-bucket"
                                              "raw-data/missing.csv");
                  S3GetObject "your-portfolio-etl-bucket" "raw-data/missing.csv";
                  Log ERROR (MsgReadError (ClientError "NoSuchKey"));
                  Log ERROR (MsgPipelineError (ClientError "NoSuchKey"))] |},
     {| statusCode := 500;
        response_body := BodyError (ClientError "NoSuchKey")
                                   "raw-data/missing.csv" |}).
Proof.
  apply (handler_reports_read_failure
           (Sample.platform_with Sample.full_environ)
           (mk_record "your-portfolio-etl-bucket" "raw-data/missing.csv")
           [] Sample.empty_world (ClientError "NoSuchKey")).
  - reflexivity.
  - left. reflexivity.
Defined.

Lemma dropna_inl subset df :
  List.filter (fun c => negb (has_column c df)) subset <> [] ->
  dropna subset df
  = inl (KeyError (List.filter (fun c => negb (has_column c df)) subset)).
Proof.
  intros H. unfold dropna.
  destruct (List.filter (fun c => negb (has_column c df)) subset);
    [congruence|reflexivity].
Qed.

(** An object without a transaction_id or an amount column: the
    transform raises [KeyError] with the missing column names, and the
    handler answers 500 with it after the read; nothing is loaded and
    nothing is written back. *)
Theorem handler_reports_missing_column Pl s3_event others w data df :
  PyStr.startswith (key s3_event) "raw-data/" = true ->
  s3_get_object Pl (bucket s3_event) (key s3_event) = inr data ->
  pd_read_csv Pl data = inr df ->
  has_column "transaction_id" df = false \/ has_column "amount" df = false ->
  let missing :=
    List.filter (fun c => negb (has_column c df)) ["transaction_id"; "amount"] in
  missing <> [] /\
  lambda_handler Pl (s3_event :: others) w =
    ({| warehouse := warehouse w;
        trace := trace w ++
                 [Log INFO MsgStarted;
                  Log INFO (MsgProcessingFile (bucket s3_event) (key s3_event));
                  S3GetObject (bucket s3_event) (key s3_event);
                  Log INFO (MsgRead (length (rows df)));
                  Log INFO (MsgColumns (columns df));
                  Log INFO MsgTransformStart;
                  Log ERROR (MsgTransformError (KeyError missing));
                  Log ERROR (MsgPipelineError (KeyError missing))] |},
     {| statusCode := 500;
        response_body := BodyError (KeyError missing) (key s3_event) |}).
Proof.
  intros Hkey Hget Hread Hmiss missing.
  assert (Hne : missing <> []).
  { subst missing. cbn [List.filter].
    destruct Hmiss as [-> | ->]; cbn [negb];
      [|destruct (negb (has_column "transaction_id" df))]; discriminate. }
  split; [exact Hne|].
  unfold lambda_handler, process_object.
  change (log INFO MsgStarted w).1
    with {| warehouse := warehouse w; trace := trace w ++ [Log INFO MsgStarted] |}.
  rewrite Hkey. cbn [negb].
  erewrite bind_inr by reflexivity.
  erewrite bind_inr by (apply (read_s3_data_inr _ _ _ data df); assumption).
  unfold transform_data_logged.
  rewrite (dropna_inl _ df Hne). fold missing.
  run_M. rewrite <- !app_assoc. reflexivity.
Qed.

Lemma handler_reports_missing_column_witness :
  snd (lambda_handler
         {| environ := Sample.full_environ;
            s3_get_object := fun _ _ => inr "csv text";
            pd_read_csv := fun _ => inr Sample.no_amount_column;
            pd := Sample.codec;
            now_transform := Sample.clock;
            now_save := Sample.clock;
            db_connect := None;
            db_cursor := None;
            db_create_table := None;
            db_execute := fun _ => None;
            db_commit := None;
            db_cursor_close := None;
            db_close := None;
            df_to_json := fun _ => "[]";
            s3_put_object := fun _ => None |}
         [mk_record "your-portfolio-etl-bucket" Sample.raw_key]
         Sample.empty_world)
  = {| statusCode := 500;
       response_body := BodyError (KeyError ["amount"]) Sample.raw_key |}.
Proof.
  set (Pl := {| environ := Sample.full_environ;
                s3_get_object := fun _ _ => inr "csv text";
                pd_read_csv := fun _ => inr Sample.no_amount_column;
                pd := Sample.codec;
                now_transform := Sample.clock;
                now_save := Sample.clock;
                db_connect := None;
                db_execute := fun _ => None;
                df_to_json := fun _ => "[]";
                s3_put_object := fun _ => None |}).
  rewrite (proj2 (handler_reports_missing_column Pl
                    (mk_record "your-portfolio-etl-bucket" Sample.raw_key) []
                    Sample.empty_world "csv text" Sample.no_amount_column
                    eq_refl eq_refl eq_refl (or_intror eq_refl))).
  reflexivity.
Defined.

(** *** Stages that leave the warehouse alone *)

Lemma quiet_ret {A : Type} (a : A) : quiet (mret a).
Proof. intros w. split; [reflexivity|]. exists []. now rewrite app_nil_r. Qed.

Lemma quiet_raise {A : Type} (e : exn) : quiet (@raise A e).
Proof. intros w. split; [reflexivity|]. exists []. now rewrite app_nil_r. Qed.

Lemma quiet_emit a : is_warehouse_action a = false -> quiet (emit a).
Proof.
  intros Ha w. split; [reflexivity|]. exists [a]. split; [reflexivity|].
  now repeat constructor.
Qed.

Lemma quiet_log l m : quiet (log l m).
Proof. now apply quiet_emit. Qed.

Lemma quiet_lift {A : Type} (r : result A) : quiet (lift r).
Proof. destruct r; [apply quiet_raise|apply quiet_ret]. Qed.

Lemma quiet_bind {A B : Type} (m : M A) (f : A -> M B) :
  quiet m -> (forall a, quiet (f a)) -> quiet (m ≫= f).
Proof.
  intros Hm Hf w. unfold mbind, M_bind.
  destruct (Hm w) as (Hw & tr & Htr & HF).
  destruct (m w) as [w1 [e|a]]; cbn [fst] in *.
  - split; [exact Hw|]. eauto.
  - destruct (Hf a w1) as (Hw' & tr' & Htr' & HF').
    split; [congruence|]. exists (tr ++ tr'). split.
    + now rewrite Htr', Htr, app_assoc.
    + apply Forall_app. now split.
Qed.

Lemma quiet_try {A : Type} (body : M A) (handler : exn -> M A) :
  quiet body -> (forall e, quiet (handler e)) -> quiet (try_except body handler).
Proof.
  intros Hb Hh w. unfold try_except.
  destruct (Hb w) as (Hw & tr & Htr & HF).
  destruct (body w) as [w1 [e|a]]; cbn [fst] in *.
  - destruct (Hh e w1) as (Hw' & tr' & Htr' & HF').
    split; [congruence|]. exists (tr ++ tr'). split.
    + now rewrite Htr', Htr, app_assoc.
    + apply Forall_app. now split.
  - split; [exact Hw|]. eauto.
Qed.

Ltac quiet_step :=
  first [ apply quiet_bind; [|intros ?]
        | apply quiet_try; [|intros ?]
        | apply quiet_log | apply quiet_ret | apply quiet_raise | apply quiet_lift
        | apply quiet_emit; reflexivity ].

Lemma quiet_read_s3_data Pl bucket_name object_key :
  quiet (read_s3_data Pl bucket_name object_key).
Proof. unfold read_s3_data. repeat quiet_step. Qed.

Lemma quiet_transform_data_logged Pl df : quiet (transform_data_logged Pl df).
Proof. unfold transform_data_logged. cbv zeta. repeat quiet_step. Qed.

Lemma quiet_save_processed_data Pl bucket_name df original_key :
  quiet (save_processed_data Pl bucket_name df original_key).
Proof.
  unfold save_processed_data. cbv zeta. repeat quiet_step.
  destruct (s3_put_object Pl _); quiet_step.
Qed.

Lemma quiet_process_object Pl bucket_name object_key :
  is_redshift_configured (environ Pl) = false ->
  quiet (process_object Pl bucket_name object_key).
Proof.
  intros Hcfg. unfold process_object. rewrite Hcfg.
  apply quiet_bind; [apply quiet_log|intros _].
  destruct (negb (PyStr.startswith object_key "raw-data/")).
  - repeat quiet_step.
  - apply quiet_bind; [apply quiet_read_s3_data|intros df].
    apply quiet_bind; [apply quiet_transform_data_logged|intros transformed].
    apply quiet_bind; [apply quiet_log|intros _].
    apply quiet_bind; [apply quiet_save_processed_data|intros _].
    repeat quiet_step.
Qed.

(** Without the five connection parameters the handler never touches the
    warehouse, whatever the event, the object and the answers of the
    store: the table is as it was and the invocation adds no warehouse
    action to the trace. *)
Theorem handler_never_loads_unconfigured Pl event w :
  is_redshift_configured (environ Pl) = false ->
  warehouse (fst (lambda_handler Pl event w)) = warehouse w /\
  forall a, a ∈ trace (fst (lambda_handler Pl event w)) ->
            a ∈ trace w \/ is_warehouse_action a = false.
Proof.
  intros Hcfg.
  assert (Hq : exists added,
             warehouse (fst (lambda_handler Pl event w)) = warehouse w /\
             trace (fst (lambda_handler Pl event w)) = trace w ++ added /\
             Forall (fun a => is_warehouse_action a = false) added).
  { unfold lambda_handler. destruct event as [|s3_event others].
    - eexists. split; [reflexivity|]. split; [cbn; now rewrite <- app_assoc|].
      now repeat constructor.
    - set (w0 := (log INFO MsgStarted w).1).
      destruct (quiet_process_object Pl (bucket s3_event) (key s3_event) Hcfg w0)
        as (Hw & tr & Htr & HF).
      destruct (process_object Pl (bucket s3_event) (key s3_event) w0)
        as [w1 [e|resp]]; cbn [fst] in *.
      + exists ([Log INFO MsgStarted] ++ tr ++ [Log ERROR (MsgPipelineError e)]).
        subst w0. unfold log, emit in *. cbn [fst trace warehouse] in *.
        split; [exact Hw|]. split.
        * rewrite Htr. now rewrite <- !app_assoc.
        * apply Forall_app. split; [now repeat constructor|].
          apply Forall_app. split; [exact HF|now repeat constructor].
      + exists ([Log INFO MsgStarted] ++ tr).
        subst w0. unfold log, emit in *. cbn [fst trace warehouse] in *.
        split; [exact Hw|]. split.
        * rewrite Htr. now rewrite <- !app_assoc.
        * apply Forall_app. split; [now repeat constructor|exact HF]. }
  destruct Hq as (added & Hw & Htr & HF). split; [exact Hw|].
  intros a Ha. rewrite Htr in Ha. apply elem_of_app in Ha as [Ha|Ha]; [now left|].
  right. rewrite Forall_forall in HF. now apply HF.
Qed.

Lemma handler_never_loads_unconfigured_witness :
  warehouse
    (fst (lambda_handler (Sample.platform_with Sample.empty_password_environ)
            [mk_record "your-portfolio-etl-bucket" "raw-data/missing.csv"]
            Sample.empty_world)) = [].
Proof.
  exact (proj1 (handler_never_loads_unconfigured
                  (Sample.platform_with Sample.empty_password_environ)
                  [mk_record "your-portfolio-etl-bucket" "raw-data/missing.csv"]
                  Sample.empty_world eq_refl)).
Defined.

(** *** The load stage and the write-back *)





(** Of the two sample rows the first is stored and the second is warned
    about; the load logs one record. *)
Example load_with_refused_row_sample :
  let after := fst (load_to_redshift Sample.second_row_refused Sample.two_rows_out
                      Sample.raw_key Sample.empty_world) in
  Warehouse.transaction_id <$> warehouse after = [Some (Str "TXN_20240726_0001")] /\
  List.filter (fun a => negb (is_warehouse_action a)) (trace after)
    = [Log INFO MsgLoading; Log INFO MsgTableVerified;
       Log WARNING (MsgRowFailed (Some (Str "TXN_20240726_0002"))
                                 (DatabaseError "value too long"));
       Log INFO (MsgLoaded 1)].
Proof. split; vm_compute; reflexivity. Qed.

(** Loading is idempotent: a second load of the same frame from the same
    object leaves the table as the first load left it. *)
Theorem load_twice_is_load_once Pl df source_file w :
  is_redshift_configured (environ Pl) = true ->
  db_connect Pl = None ->
  warehouse (fst (load_to_redshift Pl df source_file
                    (fst (load_to_redshift Pl df source_file w))))
  = warehouse (fst (load_to_redshift Pl df source_file w)).
Proof.
  intros Hcfg Hconn.
  rewrite (load_to_redshift_run Pl df source_file w Hcfg). cbv zeta.
  rewrite Hconn.
  destruct (db_cursor Pl) eqn:E2; [|destruct (db_create_table Pl) eqn:E3;
    [|destruct (db_commit Pl) eqn:E4; [|destruct (db_cursor_close Pl) eqn:E5;
      [|destruct (db_close Pl) eqn:E6]]]];
    cbn [fst warehouse];
    rewrite (load_to_redshift_run Pl df source_file _ Hcfg); cbv zeta;
    rewrite Hconn, ?E2, ?E3, ?E4, ?E5, ?E6; cbn [fst warehouse];
    first [reflexivity | apply upsert_batch_idem].
Qed.

Lemma load_twice_is_load_once_witness :
  warehouse
    (fst (load_to_redshift (Sample.platform_with Sample.full_environ)
            Sample.two_rows_out Sample.raw_key
            (fst (load_to_redshift (Sample.platform_with Sample.full_environ)
                    Sample.two_rows_out Sample.raw_key Sample.empty_world))))
  = warehouse
      (fst (load_to_redshift (Sample.platform_with Sample.full_environ)
              Sample.two_rows_out Sample.raw_key Sample.empty_world)).
Proof.
  exact (load_twice_is_load_once (Sample.platform_with Sample.full_environ)
           Sample.two_rows_out Sample.raw_key Sample.empty_world eq_refl eq_refl).
Defined.

(** When the warehouse cannot be reached the invocation stops there: the
    handler answers 500 with the error of the connection, the table is as
    it was, and the transformed rows are not written back to the store. *)
Theorem handler_connect_failure_skips_write_back
    Pl s3_event others w data df kept e :
  PyStr.startswith (key s3_event) "raw-data/" = true ->
  s3_get_object Pl (bucket s3_event) (key s3_event) = inr data ->
  pd_read_csv Pl data = inr df ->
  dropna ["transaction_id"; "amount"] df = inr kept ->
  is_redshift_configured (environ Pl) = true ->
  db_connect Pl = Some e ->
  snd (lambda_handler Pl (s3_event :: others) w)
    = {| statusCode := 500; response_body := BodyError e (key s3_event) |} /\
  warehouse (fst (lambda_handler Pl (s3_event :: others) w)) = warehouse w /\
  forall a, a ∈ trace (fst (lambda_handler Pl (s3_event :: others) w)) ->
            a ∈ trace w \/
            match a with
            | S3PutObject _ | DbCreateTable | DbUpsert _ | DbCommit | DbClose => False
            | _ => True
            end.
Proof.
  intros Hkey Hget Hread Hdrop Hcfg Hconn.
  rewrite (handler_after_load Pl s3_event others w data df kept
             Hkey Hget Hread Hdrop Hcfg). cbv zeta.
  rewrite (load_to_redshift_run Pl _ _ _ Hcfg). cbv zeta. rewrite Hconn.
  cbn [fst snd warehouse trace]. split; [reflexivity|]. split; [reflexivity|].
  intros a Ha. unfold connect_actions, actions_before_load in Ha.
  rewrite <- !app_assoc in Ha. cbn [app] in Ha.
  apply elem_of_app in Ha as [Ha|Ha]; [now left|right].
  repeat (apply elem_of_cons in Ha as [->|Ha]; [exact I|]).
  inversion Ha.
Qed.

Lemma handler_connect_failure_skips_write_back_witness :
  snd (lambda_handler Sample.warehouse_down [Sample.raw_event] Sample.empty_world)
    = {| statusCode := 500;
         response_body := BodyError (DatabaseError "connection refused")
                                    Sample.raw_key |}.
Proof.
  exact (proj1 (handler_connect_failure_skips_write_back Sample.warehouse_down
                  Sample.raw_event [] Sample.empty_world "csv text"
                  Sample.two_rows
                  {| columns := Sample.columns9; rows := rows Sample.two_rows |}
                  (DatabaseError "connection refused")
                  eq_refl eq_refl eq_refl eq_refl eq_refl eq_refl)).
Defined.






Lemma int_of_str_nat n : PyStr.int_of (PyStr.str_nat n) = Some n.
Proof.
  unfold PyStr.int_of. pose proof (str_nat_nonempty n) as Hne.
  destruct (PyStr.str_nat n) eqn:E; [congruence|].
  rewrite <- E. apply int_from_str_nat.
Qed.

(** A completed invocation counts the rows that have both critical
    cells: with no warehouse configured, or one whose driver carries the
    load through (none of connect, cursor, CREATE TABLE, commit and close
    raises), and a store that accepts the object, the handler answers 200
    with [records_processed] the number of input rows that have a
    transaction_id and an amount; it
    puts one object, in the bucket of the source object, under the
    write-back key, whose [record_count] metadata is the decimal text of
    the same number and whose [original_file] is the source key; the
    number of removed rows that it logs is the rest of the input. *)
Theorem handler_completes_with_row_count Pl s3_event others w data df kept :
  PyStr.startswith (key s3_event) "raw-data/" = true ->
  s3_get_object Pl (bucket s3_event) (key s3_event) = inr data ->
  pd_read_csv Pl data = inr df ->
  dropna ["transaction_id"; "amount"] df = inr kept ->
  (is_redshift_configured (environ Pl) = true -> session_ok Pl) ->
  let transformed := transform_kept (pd Pl) (now_transform Pl) kept in
  let request := save_request Pl (bucket s3_event) transformed (key s3_event) in
  let n := length (List.filter has_critical (rows df)) in
  s3_put_object Pl request = None ->
  snd (lambda_handler Pl (s3_event :: others) w)
    = {| statusCode := 200; response_body := BodyCompleted n (key s3_event) |} /\
  S3PutObject request ∈ trace (fst (lambda_handler Pl (s3_event :: others) w)) /\
  Log INFO (MsgRemoved (length (rows df) - n))
    ∈ trace (fst (lambda_handler Pl (s3_event :: others) w)) /\
  Bucket request = bucket s3_event /\
  Key request = processed_key (key s3_event) /\
  metadata_value request "original_file" = Some (key s3_event) /\
  metadata_value request "record_count" = Some (PyStr.str_nat n) /\
  PyStr.int_of (PyStr.str_nat n) = Some n.
Proof.
  intros Hkey Hget Hread Hdrop Hconn transformed request n Hput.
  assert (Hn : length (rows transformed) = n).
  { subst transformed n. rewrite transform_kept_length.
    apply dropna_critical_rows in Hdrop as [_ ->]. reflexivity. }
  assert (Hk : length (rows kept) = n).
  { subst n. apply dropna_critical_rows in Hdrop as [_ ->]. reflexivity. }
  assert (Hrun : snd (lambda_handler Pl (s3_event :: others) w)
                 = {| statusCode := 200;
                      response_body := BodyCompleted n (key s3_event) |} /\
                 S3PutObject request
                   ∈ trace (fst (lambda_handler Pl (s3_event :: others) w)) /\
                 Log INFO (MsgRemoved (length (rows df) - n))
                   ∈ trace (fst (lambda_handler Pl (s3_event :: others) w))).
  { destruct (is_redshift_configured (environ Pl)) eqn:Hcfg.
    - pose proof (handler_load_run Pl s3_event others w data df kept
                    Hkey Hget Hread Hdrop Hcfg (Hconn eq_refl)) as Hrun.
      cbv zeta in Hrun. fold transformed in Hrun. fold request in Hrun.
      rewrite Hput in Hrun. rewrite Hrun.
      cbn [fst snd trace]. rewrite Hn. split; [reflexivity|].
      unfold actions_before_load. rewrite Hk, !elem_of_app. split.
      + right. right. right. apply list_elem_of_further, list_elem_of_here.
      + right. left. do 6 apply list_elem_of_further. apply list_elem_of_here.
    - pose proof (handler_load_skipped Pl s3_event others w data df kept
                    Hkey Hget Hread Hdrop Hcfg) as Hrun.
      cbv zeta in Hrun. fold transformed in Hrun. fold request in Hrun.
      rewrite Hput in Hrun. rewrite Hrun.
      cbn [fst snd trace]. rewrite Hn. split; [reflexivity|].
      rewrite Hk, !elem_of_app. split.
      + right. right. do 2 apply list_elem_of_further. apply list_elem_of_here.
      + right. left. do 6 apply list_elem_of_further. apply list_elem_of_here. }
  destruct Hrun as (Hresp & Hreq & Hrem).
  split; [exact Hresp|]. split; [exact Hreq|]. split; [exact Hrem|].
  split; [reflexivity|]. split; [reflexivity|]. split; [reflexivity|].
  split; [|apply int_of_str_nat].
  unfold request, save_request, metadata_value. cbn [Metadata]. rewrite Hn.
  reflexivity.
Qed.

Lemma handler_completes_with_row_count_witness :
  snd (lambda_handler (Sample.platform_with Sample.full_environ)
         [Sample.raw_event] Sample.empty_world)
    = {| statusCode := 200; response_body := BodyCompleted 2 Sample.raw_key |}.
Proof.
  exact (proj1 (handler_completes_with_row_count
                  (Sample.platform_with Sample.full_environ)
                  Sample.raw_event [] Sample.empty_world "csv text"
                  Sample.two_rows
                  {| columns := Sample.columns9; rows := rows Sample.two_rows |}
                  eq_refl eq_refl eq_refl eq_refl
                  (fun _ => ltac:(repeat split)) eq_refl)).
Defined.

(** ** Keys between the uploader and the handler *)

(** Under raw-data/ the folder is replaced where it stands and the two
    replacements go on in the rest of the key. *)
Lemma processed_key_under_raw_data rest :
  processed_key ("raw-data/" +:+ rest)
  = "processed-data/" +:+
    PyStr.replace (PyStr.replace rest "raw-data" "processed-data") ".csv" ".json".
Proof.
  unfold processed_key, PyStr.replace.
  change ("raw-data/" +:+ rest) with ("raw-data" +:+ String "/" rest).
  rewrite (replace_from_here "r" "aw-data").
  rewrite replace_from_cons_no by prefix_false.
  rewrite !string_app_cons, !string_app_nil_l.
  repeat (rewrite replace_from_cons_no by prefix_false).
  reflexivity.
Qed.

(** The handler does not feed itself: the write-back key of a key under
    raw-data/ is under processed-data/ and not under raw-data/, so an
    invocation for the object that the handler wrote is skipped. *)
Theorem processed_key_is_not_reprocessed Pl K bucket_name others w :
  PyStr.startswith K "raw-data/" = true ->
  PyStr.startswith (processed_key K) "processed-data/" = true /\
  PyStr.startswith (processed_key K) "raw-data/" = false /\
  snd (lambda_handler Pl (mk_record bucket_name (processed_key K) :: others) w)
    = {| statusCode := 200;
         response_body := BodyText "File skipped - not in raw-data folder" |}.
Proof.
  intros HK. apply prefix_app in HK as [rest ->].
  rewrite processed_key_under_raw_data.
  generalize (PyStr.replace (PyStr.replace rest "raw-data" "processed-data")
                ".csv" ".json").
  intros rest'.
  assert (H1 : PyStr.startswith ("processed-data/" +:+ rest') "processed-data/"
               = true) by apply prefix_self_app.
  assert (H2 : PyStr.startswith ("processed-data/" +:+ rest') "raw-data/" = false).
  { unfold PyStr.startswith. rewrite string_app_cons.
    apply prefix_cons_diff. congruence. }
  split; [exact H1|]. split; [exact H2|].
  unfold lambda_handler, process_object. cbn [key bucket]. rewrite H2.
  reflexivity.
Qed.

Lemma processed_key_is_not_reprocessed_witness :
  PyStr.startswith (processed_key Sample.raw_key) "raw-data/" = false.
Proof.
  exact (proj1 (proj2 (processed_key_is_not_reprocessed
                         (Sample.platform_with Sample.full_environ)
                         Sample.raw_key "your-portfolio-etl-bucket" []
                         Sample.empty_world eq_refl))).
Defined.

Lemma string_app_inv_length (a c : string) : forall b d,
  String.length a = String.length c -> a +:+ b = c +:+ d -> a = c /\ b = d.
Proof.
  revert c. induction a as [|x a IH]; intros [|y c] b d Hlen H;
    try discriminate Hlen.
  - now rewrite !string_app_nil_l in H.
  - rewrite !string_app_cons in H. injection H as -> H.
    injection Hlen as Hlen. destruct (IH c b d Hlen H) as [-> ->]. auto.
Qed.

Lemma length_fmt_fields t :
  PyTime.valid t = true ->
  String.length (PyTime.fmt_m t) = 2 /\
  String.length (PyTime.fmt_d t) = 2.
Proof.
  intros Hv. destruct (strftime_md_fields t Hv) as (-> & ->).
  repeat split.
Qed.

(** A run of digits ends where the first other character stands: two
    texts that start with digits and go on with another character agree
    on the digits and on the rest. *)
Lemma digits_app_inv : forall ds1 ds2 v1 v2 c1 c2 r1 r2,
  is_Some (PyStr.int_from v1 ds1) -> is_Some (PyStr.int_from v2 ds2) ->
  PyStr.digit_value c1 = None -> PyStr.digit_value c2 = None ->
  ds1 +:+ String c1 r1 = ds2 +:+ String c2 r2 ->
  ds1 = ds2 /\ String c1 r1 = String c2 r2.
Proof.
  induction ds1 as [|a ds1 IH]; intros [|b ds2] v1 v2 c1 c2 r1 r2 H1 H2 Hc1 Hc2 H.
  - rewrite !string_app_nil_l in H. auto.
  - rewrite string_app_nil_l, string_app_cons in H. injection H as -> _.
    cbn [PyStr.int_from] in H2. rewrite Hc1 in H2. now destruct H2.
  - rewrite string_app_nil_l, string_app_cons in H. injection H as -> _.
    cbn [PyStr.int_from] in H1. rewrite Hc2 in H1. now destruct H1.
  - rewrite !string_app_cons in H. injection H as -> H.
    cbn [PyStr.int_from] in H1, H2.
    destruct (PyStr.digit_value b) as [d|]; [|now destruct H1].
    destruct (IH ds2 _ _ c1 c2 r1 r2 H1 H2 Hc1 Hc2 H) as [-> Hr]. auto.
Qed.

Lemma str_nat_inj n m : PyStr.str_nat n = PyStr.str_nat m -> n = m.
Proof.
  intros H. apply (f_equal (PyStr.int_from 0)) in H.
  rewrite !int_from_str_nat in H. congruence.
Qed.

(** The calendar day of a valid date can be read back from the key. *)
Lemma upload_key_inj bucket_name to_csv now1 now1' now2 now2' df1 df2 d1 d2 folder :
  PyTime.valid d1 = true -> PyTime.valid d2 = true ->
  Key (Uploader.upload_csv_request bucket_name to_csv now1 now1' df1 (Some d1) folder)
  = Key (Uploader.upload_csv_request bucket_name to_csv now2 now2' df2 (Some d2) folder) ->
  year d1 = year d2 /\ month d1 = month d2 /\ day d1 = day d2.
Proof.
  intros Hv1 Hv2. unfold Uploader.upload_csv_request. cbn [Key]. intros H.
  destruct (length_fmt_fields d1 Hv1) as (Hm1 & Hd1).
  destruct (length_fmt_fields d2 Hv2) as (Hm2 & Hd2).
  apply string_app_inv_head in H.
  apply (string_app_inv_head "/year=") in H.
  rewrite !(string_app_cons "/" "month=") in H.
  apply (digits_app_inv _ _ 0 0) in H as [HY H];
    try reflexivity;
    try (unfold PyTime.fmt_Y; rewrite int_from_str_nat; eauto).
  injection H as H. rewrite !string_app_nil_l in H.
  apply string_app_inv_length in H as [Hm H]; [|congruence].
  apply (string_app_inv_head "/day=") in H.
  apply string_app_inv_length in H as [Hd _]; [|congruence].
  unfold PyTime.fmt_Y in HY. apply str_nat_inj in HY.
  unfold PyTime.fmt_m, PyTime.fmt_d in Hm, Hd.
  apply fmt_0d_inj in Hm, Hd. auto.
Qed.

(** Uploads for the same calendar day go to the same key, whatever the
    time of day and the data, so the later one replaces the earlier one;
    uploads for different days (valid dates) never share a key. *)
Theorem upload_keys_collide_iff_same_day
    bucket_name to_csv now now' df1 df2 d1 d2 folder :
  PyTime.valid d1 = true -> PyTime.valid d2 = true ->
  Key (Uploader.upload_csv_request bucket_name to_csv now now' df1 (Some d1) folder)
  = Key (Uploader.upload_csv_request bucket_name to_csv now now' df2 (Some d2) folder)
  <-> year d1 = year d2 /\ month d1 = month d2 /\ day d1 = day d2.
Proof.
  intros Hv1 Hv2. split; [now apply upload_key_inj|].
  intros (Hy & Hm & Hd). unfold Uploader.upload_csv_request. cbn [Key].
  unfold PyTime.strftime_Ymd, PyTime.fmt_Y, PyTime.fmt_m, PyTime.fmt_d.
  now rewrite Hy, Hm, Hd.
Qed.

Lemma upload_keys_collide_iff_same_day_witness :
  Key (Uploader.upload_csv_request "your-portfolio-etl-bucket" (fun _ => "")
         Sample.clock Sample.clock [] (Some Sample.clock) "raw-data")
  = Key (Uploader.upload_csv_request "your-portfolio-etl-bucket" (fun _ => "")
           Sample.clock Sample.clock [] (Some Sample.evening_later) "raw-data").
Proof.
  apply (upload_keys_collide_iff_same_day "your-portfolio-etl-bucket"
           (fun _ => "") Sample.clock Sample.clock [] []
           Sample.clock Sample.evening_later "raw-data").
  - vm_compute. reflexivity.
  - vm_compute. reflexivity.
  - repeat split.
Defined.

(** The scan for a text that starts with another character passes
    over a run of digits. *)
Lemma replace_from_digits o old new : forall ds v t,
  is_Some (PyStr.int_from v ds) ->
  PyStr.digit_value o = None ->
  PyStr.replace_from (String o old) new 0 (ds +:+ t)
  = ds +:+ PyStr.replace_from (String o old) new 0 t.
Proof.
  induction ds as [|c ds IH]; intros v t Hds Ho.
  - now rewrite !string_app_nil_l.
  - cbn [PyStr.int_from] in Hds.
    destruct (PyStr.digit_value c) as [d|] eqn:Ec; [|now destruct Hds].
    rewrite !string_app_cons, replace_from_cons_no.
    + f_equal. now apply (IH _ _ Hds).
    + apply prefix_cons_diff. congruence.
Qed.

(** The write-back key of an upload key: the folder and the extension
    are replaced, the digits of the date are passed over. *)
Lemma processed_key_of_upload_key Y m d :
  is_Some (PyStr.int_from 0 Y) ->
  processed_key
    ("raw-data" +:+ "/year=" +:+ Y +:+ "/month=" +:+ KeyLayout.two_digits m +:+
     "/day=" +:+ KeyLayout.two_digits d +:+ "/" +:+
     "transactions-" +:+ (Y +:+ KeyLayout.two_digits m +:+ KeyLayout.two_digits d)
     +:+ ".csv")
  = "processed-data" +:+ "/year=" +:+ Y +:+ "/month=" +:+ KeyLayout.two_digits m +:+
    "/day=" +:+ KeyLayout.two_digits d +:+ "/" +:+
    "transactions-" +:+ (Y +:+ KeyLayout.two_digits m +:+ KeyLayout.two_digits d)
    +:+ ".json".
Proof.
  intros HY.
  unfold processed_key, PyStr.replace, KeyLayout.two_digits.
  rewrite (replace_from_here "r" "aw-data").
  rewrite !string_app_assoc.
  rewrite !string_app_cons, !string_app_nil_l.
  repeat first
    [ rewrite replace_from_cons_no by prefix_false
    | rewrite (replace_from_digits _ _ _ Y 0) by (exact HY || reflexivity) ].
  cbn [PyStr.replace_from].
  repeat first
    [ rewrite replace_from_cons_no by prefix_false
    | rewrite (replace_from_digits _ _ _ Y 0) by (exact HY || reflexivity) ].
  reflexivity.
Qed.

(** The handler takes what the uploader writes: for every valid date the
    key of an upload to the default folder is under raw-data/, and its
    write-back key is the key that the uploader would give a JSON upload
    for that date to the folder processed-data. *)
Theorem handler_accepts_uploader_key
    bucket_name to_csv to_json now now' df df' date :
  PyTime.valid date = true ->
  let K := Key (Uploader.upload_csv_request bucket_name to_csv now now' df
                  (Some date) "raw-data") in
  PyStr.startswith K "raw-data/" = true /\
  processed_key K
    = Key (Uploader.upload_json_request bucket_name to_json now now' df'
             (Some date) "processed-data").
Proof.
  intros Hv K. split; [reflexivity|].
  destruct (strftime_md_fields date Hv) as (Hm & Hd).
  subst K. unfold Uploader.upload_csv_request, Uploader.upload_json_request.
  cbn [Key]. unfold PyTime.strftime_Ymd. rewrite Hm, Hd.
  unfold KeyLayout.MM, KeyLayout.DD.
  apply processed_key_of_upload_key.
  unfold PyTime.fmt_Y. rewrite int_from_str_nat. eauto.
Qed.

Lemma handler_accepts_uploader_key_witness :
  processed_key
    (Key (Uploader.upload_csv_request "your-portfolio-etl-bucket" (fun _ => "")
            Sample.clock Sample.clock [] (Some (midnight 2024 7 26)) "raw-data"))
  = Key (Uploader.upload_json_request "your-portfolio-etl-bucket" (fun _ => "")
           Sample.clock Sample.clock [] (Some (midnight 2024 7 26))
           "processed-data").
Proof.
  refine (proj2 (handler_accepts_uploader_key "your-portfolio-etl-bucket"
                   (fun _ => "") (fun _ => "") Sample.clock Sample.clock [] []
                   (midnight 2024 7 26) _)).
  vm_compute. reflexivity.
Defined.

(** ** The fields of a generated record *)

Section RecordFields.

Context {G : Type}.
Variable R : random_source G.
Variable round2 : Q -> Q.

Lemma choice_elem {A : Type} (seq : list A) (g g' : G) (x : A) :
  Uploader.choice R seq g = inr (x, g') -> x ∈ seq.
Proof.
  unfold Uploader.choice. destruct (rand_below R (length seq) g) as [i g1].
  destruct (seq !! i) as [y|] eqn:E; [|discriminate].
  intros H. injection H as <- _. eapply list_elem_of_lookup_2. exact E.
Qed.

(** What one pass of the loop puts in the fields that it draws. *)
Lemma generate_record_fields date i g r g' :
  Uploader.generate_record R round2 date i g = inr (r, g') ->
  exists (is_income : bool) (x : Q),
    (exists g0, x = fst (if is_income then rand_uniform R 500 5000 g0
                         else rand_uniform R 10 500 g0)) /\
    Uploader.transaction_type r = (if is_income then "income" else "expense") /\
    (Uploader.category r, Uploader.description r)
      ∈ (if is_income then Uploader.income_categories
         else Uploader.expense_categories) /\
    Uploader.amount r = (if is_income then round2 x else Qopp (round2 x)) /\
    Uploader.account r ∈ Uploader.accounts /\
    Uploader.location r ∈ Uploader.locations.
Proof.
  unfold Uploader.generate_record.
  destruct (rand_random R g) as [u g1].
  set (is_income := negb (Qle_bool Uploader.float_0_3 u)).
  destruct (Uploader.choice R _ g1) as [e|[[category description] g2]] eqn:Ec;
    [discriminate|].
  apply choice_elem in Ec.
  destruct (if is_income then rand_uniform R 500 5000 g2
            else rand_uniform R 10 500 g2) as [x g3] eqn:Ex.
  destruct (rand_randint R 6 22 g3) as [hours g4].
  destruct (rand_randint R 0 59 g4) as [minutes g5].
  destruct (PyTime.add_timedelta date hours minutes) as [tt|]; [|discriminate].
  destruct (Uploader.choice R Uploader.accounts g5) as [e|[account g6]] eqn:Ea;
    [discriminate|].
  apply choice_elem in Ea.
  destruct (Uploader.choice R Uploader.locations g6) as [e|[location g7]] eqn:El;
    [discriminate|].
  apply choice_elem in El.
  intros H. injection H as <- <-. cbn.
  exists is_income, x. split; [|auto].
  exists g2. destruct is_income; now rewrite Ex.
Qed.

End RecordFields.

(** Every record of a batch is an income or an expense as a whole: its
    type is income with a category and description from the income list,
    or expense with a pair from the expense list; its account and its
    location are from their lists. *)
Theorem generated_fields_are_consistent {G : Type} (R : random_source G)
    (round2 : Q -> Q) (now : datetime) (date : option datetime) (count : nat)
    (g : G) (data : list Uploader.transaction) (r : Uploader.transaction) :
  Uploader.generate_sample_data R round2 now date count g = inr data ->
  r ∈ data ->
  (Uploader.transaction_type r = "income" /\
   (Uploader.category r, Uploader.description r) ∈ Uploader.income_categories \/
   Uploader.transaction_type r = "expense" /\
   (Uploader.category r, Uploader.description r) ∈ Uploader.expense_categories) /\
  Uploader.account r ∈ ["checking"; "savings"; "credit_card"] /\
  Uploader.location r ∈ ["Online"; "New York"; "Los Angeles"; "Chicago"; "Houston"].
Proof.
  intros Hd Hr. unfold Uploader.generate_sample_data in Hd.
  apply list_elem_of_lookup in Hr as [k Hk].
  destruct (generate_from_inr R round2 _ count 0 g data Hd) as [_ Hrec].
  destruct (Hrec k r Hk) as (g0 & g' & Hrk).
  apply generate_record_fields in Hrk
    as (is_income & x & _ & Hty & Hcat & _ & Hacc & Hloc).
  split; [|split; assumption].
  destruct is_income; [left|right]; split; assumption.
Qed.

Lemma generated_fields_are_consistent_witness :
  (Uploader.transaction_type (Sample.first_on Sample.evening) = "income" /\
   (Uploader.category (Sample.first_on Sample.evening),
    Uploader.description (Sample.first_on Sample.evening))
     ∈ Uploader.income_categories \/
   Uploader.transaction_type (Sample.first_on Sample.evening) = "expense" /\
   (Uploader.category (Sample.first_on Sample.evening),
    Uploader.description (Sample.first_on Sample.evening))
     ∈ Uploader.expense_categories) /\
  Uploader.account (Sample.first_on Sample.evening)
    ∈ ["checking"; "savings"; "credit_card"] /\
  Uploader.location (Sample.first_on Sample.evening)
    ∈ ["Online"; "New York"; "Los Angeles"; "Chicago"; "Houston"].
Proof.
  apply (generated_fields_are_consistent Sample.least Sample.round2
           Sample.clock (Some Sample.evening) 3 tt (Sample.batch_on Sample.evening)).
  - vm_compute. reflexivity.
  - apply (list_elem_of_lookup_2 _ 0). vm_compute. reflexivity.
Defined.

(** With draws of [uniform] within their bounds and a rounding that is
    monotone and leaves whole numbers as they are, the sign and the size
    of the amount follow the type: an income is between 500 and 5000 and is
    categorised very_large by the handler; an expense is between -500 and
    -10. *)
Theorem generated_amount_follows_type {G : Type} (R : random_source G)
    (round2 : Q -> Q) (now : datetime) (date : option datetime) (count : nat)
    (g : G) (data : list Uploader.transaction) (r : Uploader.transaction) :
  (forall a b g0, (a <= b)%Q ->
     (a <= fst (rand_uniform R a b g0))%Q /\ (fst (rand_uniform R a b g0) <= b)%Q) ->
  (forall x y, (x <= y)%Q -> (round2 x <= round2 y)%Q) ->
  (forall z : Z, (round2 (inject_Z z) == inject_Z z)%Q) ->
  Uploader.generate_sample_data R round2 now date count g = inr data ->
  r ∈ data ->
  (Uploader.transaction_type r = "income" /\
   (500 <= Uploader.amount r)%Q /\ (Uploader.amount r <= 5000)%Q /\
   categorize_amount (Some (Fin (Uploader.amount r))) = "very_large") \/
  (Uploader.transaction_type r = "expense" /\
   (- (500) <= Uploader.amount r)%Q /\ (Uploader.amount r <= - (10))%Q).
Proof.
  intros Huni Hmono Hfix Hd Hr. unfold Uploader.generate_sample_data in Hd.
  apply list_elem_of_lookup in Hr as [k Hk].
  destruct (generate_from_inr R round2 _ count 0 g data Hd) as [_ Hrec].
  destruct (Hrec k r Hk) as (g0 & g' & Hrk).
  apply generate_record_fields in Hrk
    as (is_income & x & [g1 Hx] & Hty & _ & Ham & _).
  assert (Hround : forall lo hi : Z,
            (inject_Z lo <= x)%Q -> (x <= inject_Z hi)%Q ->
            (inject_Z lo <= round2 x)%Q /\ (round2 x <= inject_Z hi)%Q).
  { intros lo hi Hlo Hhi. split.
    - rewrite <- (Hfix lo). now apply Hmono.
    - rewrite <- (Hfix hi). now apply Hmono. }
  destruct is_income.
  - left. split; [exact Hty|].
    destruct (Huni 500 5000 g1 ltac:(discriminate))%Q as [Hlo Hhi].
    rewrite <- Hx in Hlo, Hhi.
    destruct (Hround 500%Z 5000%Z Hlo Hhi) as [Hlo' Hhi'].
    rewrite Ham. split; [exact Hlo'|]. split; [exact Hhi'|].
    apply categorize_amount_spec. cbn [number_abs number_ge].
    rewrite Qabs_pos; [exact Hlo'|].
    eapply Qle_trans; [|exact Hlo']. discriminate.
  - right. split; [exact Hty|].
    destruct (Huni 10 500 g1 ltac:(discriminate))%Q as [Hlo Hhi].
    rewrite <- Hx in Hlo, Hhi.
    destruct (Hround 10%Z 500%Z Hlo Hhi) as [Hlo' Hhi'].
    rewrite Ham. split.
    + apply Qopp_le_compat in Hhi'. exact Hhi'.
    + apply Qopp_le_compat in Hlo'. exact Hlo'.
Qed.

Lemma generated_amount_follows_type_witness :
  (Uploader.transaction_type (Sample.first_on Sample.evening) = "income" /\
   (500 <= Uploader.amount (Sample.first_on Sample.evening))%Q /\
   (Uploader.amount (Sample.first_on Sample.evening) <= 5000)%Q /\
   categorize_amount (Some (Fin (Uploader.amount (Sample.first_on Sample.evening))))
     = "very_large") \/
  (Uploader.transaction_type (Sample.first_on Sample.evening) = "expense" /\
   (- (500) <= Uploader.amount (Sample.first_on Sample.evening))%Q /\
   (Uploader.amount (Sample.first_on Sample.evening) <= - (10))%Q).
Proof.
  apply (generated_amount_follows_type Sample.least Sample.round2
           Sample.clock (Some Sample.evening) 3 tt (Sample.batch_on Sample.evening)).
  - intros a b g0 Hab. cbn. split; [apply Qle_refl|exact Hab].
  - intros x y Hxy. exact Hxy.
  - intros z. reflexivity.
  - vm_compute. reflexivity.
  - apply (list_elem_of_lookup_2 _ 0). vm_compute. reflexivity.
Defined.

(** The least draws give an income of 500.00 from the first income
    category. *)
Example least_draws_sample :
  (fun r => (Uploader.transaction_type r, Uploader.category r, Uploader.amount r))
    <$> match Uploader.generate_sample_data Sample.least Sample.round2
                Sample.clock (Some Sample.evening) 1 tt with
        | inr data => data
        | inl _ => []
        end
  = [("income", "salary", 500%Q)].
Proof. vm_compute. reflexivity. Qed.

Lemma generated_timestamp_within_day_from_midnight_witness :
  exists hours minutes,
    6 <= hours <= 22 /\ minutes <= 59 /\
    Uploader.date (Sample.first_on (midnight 2024 7 26))
      = PyTime.strftime_date (midnight 2024 7 26) /\
    Uploader.timestamp (Sample.first_on (midnight 2024 7 26))
      = PyTime.strftime_date (midnight 2024 7 26) +:+ " " +:+
        PyStr.fmt_0d 2 hours +:+ ":" +:+ PyStr.fmt_0d 2 minutes +:+ ":" +:+
        PyTime.fmt_S (midnight 2024 7 26).
Proof.
  apply (generated_timestamp_within_day_from_midnight Sample.least
           Sample.round2 Sample.clock (midnight 2024 7 26) 3 tt
           (Sample.batch_on (midnight 2024 7 26)) least_random_ok eq_refl eq_refl).
  - vm_compute. reflexivity.
  - apply (list_elem_of_lookup_2 _ 0). vm_compute. reflexivity.
Defined.

(** ** The script: generation and upload with their effects *)

Section ScriptFacts.

Context {G : Type}.
Variable R : random_source G.
Variable round2 : Q -> Q.
Variable clock : nat -> datetime.
Variable to_csv : list Uploader.transaction -> string.

(** Runs the monadic plumbing of a method applied to a state. *)
Ltac run_IO :=
  unfold mbind, Script.IO_bind, mret, Script.IO_ret, Script.print,
    Script.do_call, Script.raise, Script.lift, Script.answer,
    Script.try_except, Script.datetime_now; cbn.

(** One pass of the loop draws as the function of the generator state
    does; it reads no clock and makes no call. *)
Lemma generate_record_agrees date i (s : Script.state G) :
  Script.generate_record R round2 date i s =
    match Uploader.generate_record R round2 date i (Script.rng s) with
    | inr (r, g') =>
        ({| Script.rng := g'; Script.ticks := Script.ticks s;
            Script.calls := Script.calls s |}, inr r)
    | inl e => (fst (Script.generate_record R round2 date i s), inl e)
    end /\
  Script.ticks (fst (Script.generate_record R round2 date i s)) = Script.ticks s /\
  Script.calls (fst (Script.generate_record R round2 date i s)) = Script.calls s.
Proof.
  unfold Script.generate_record, Uploader.generate_record, Script.choice,
    Uploader.choice, Script.draw.
  unfold mbind, Script.IO_bind, mret, Script.IO_ret, Script.raise.
  cbn [Script.rng Script.ticks Script.calls fst snd].
  destruct (rand_random R (Script.rng s)) as [u g1].
  cbn [Script.rng Script.ticks Script.calls fst snd].
  destruct (negb (Qle_bool Uploader.float_0_3 u)).
  - destruct (rand_below R (length Uploader.income_categories) g1) as [i1 g2].
    cbn [Script.rng Script.ticks Script.calls fst snd].
    destruct (Uploader.income_categories !! i1) as [[c d]|]; [|auto].
    cbn [Script.rng Script.ticks Script.calls fst snd].
    destruct (rand_uniform R 500 5000 g2) as [x g3].
    cbn [Script.rng Script.ticks Script.calls fst snd].
    destruct (rand_randint R 6 22 g3) as [h g4].
    cbn [Script.rng Script.ticks Script.calls fst snd].
    destruct (rand_randint R 0 59 g4) as [m g5].
    cbn [Script.rng Script.ticks Script.calls fst snd].
    destruct (PyTime.add_timedelta date h m) as [tt|]; [|auto].
    cbn [Script.rng Script.ticks Script.calls fst snd].
    destruct (rand_below R (length Uploader.accounts) g5) as [i2 g6].
    cbn [Script.rng Script.ticks Script.calls fst snd].
    destruct (Uploader.accounts !! i2) as [account|]; [|auto].
    cbn [Script.rng Script.ticks Script.calls fst snd].
    destruct (rand_below R (length Uploader.locations) g6) as [i3 g7].
    cbn [Script.rng Script.ticks Script.calls fst snd].
    destruct (Uploader.locations !! i3) as [location|]; auto.
  - destruct (rand_below R (length Uploader.expense_categories) g1) as [i1 g2].
    cbn [Script.rng Script.ticks Script.calls fst snd].
    destruct (Uploader.expense_categories !! i1) as [[c d]|]; [|auto].
    cbn [Script.rng Script.ticks Script.calls fst snd].
    destruct (rand_uniform R 10 500 g2) as [x g3].
    cbn [Script.rng Script.ticks Script.calls fst snd].
    destruct (rand_randint R 6 22 g3) as [h g4].
    cbn [Script.rng Script.ticks Script.calls fst snd].
    destruct (rand_randint R 0 59 g4) as [m g5].
    cbn [Script.rng Script.ticks Script.calls fst snd].
    destruct (PyTime.add_timedelta date h m) as [tt|]; [|auto].
    cbn [Script.rng Script.ticks Script.calls fst snd].
    destruct (rand_below R (length Uploader.accounts) g5) as [i2 g6].
    cbn [Script.rng Script.ticks Script.calls fst snd].
    destruct (Uploader.accounts !! i2) as [account|]; [|auto].
    cbn [Script.rng Script.ticks Script.calls fst snd].
    destruct (rand_below R (length Uploader.locations) g6) as [i3 g7].
    cbn [Script.rng Script.ticks Script.calls fst snd].
    destruct (Uploader.locations !! i3) as [location|]; auto.
Qed.

Lemma generate_from_agrees date n : forall i (s : Script.state G),
  snd (Script.generate_from R round2 date i n s)
    = Uploader.generate_from R round2 date i n (Script.rng s) /\
  Script.ticks (fst (Script.generate_from R round2 date i n s)) = Script.ticks s /\
  Script.calls (fst (Script.generate_from R round2 date i n s)) = Script.calls s.
Proof.
  induction n as [|n IH]; intros i s;
    cbn [Script.generate_from Uploader.generate_from].
  - repeat split.
  - destruct (generate_record_agrees date i s) as (Hrun & Ht & Hc).
    unfold mbind, Script.IO_bind.
    destruct (Script.generate_record R round2 date i s) as [s1 res].
    cbn [fst snd] in *.
    destruct (Uploader.generate_record R round2 date i (Script.rng s))
      as [e|[r g']].
    + injection Hrun as ->. cbn [fst snd]. auto.
    + injection Hrun as -> ->.
      set (s1 := {| Script.rng := g'; Script.ticks := Script.ticks s;
                    Script.calls := Script.calls s |}).
      destruct (IH (S i) s1) as (Hr & Ht' & Hc').
      change g' with (Script.rng s1).
      destruct (Script.generate_from R round2 date (S i) n s1) as [s2 [e|data]];
        cbn [fst snd] in *; rewrite <- Hr; auto.
Qed.

(** The method draws as the function of the generator state does; it
    reads the clock once when the date is left out, and makes no call. *)
Lemma generate_sample_data_agrees date n (s : Script.state G) :
  snd (Script.generate_sample_data R round2 clock date n s)
    = Uploader.generate_sample_data R round2 (clock (Script.ticks s)) date n
        (Script.rng s) /\
  Script.ticks (fst (Script.generate_sample_data R round2 clock date n s))
    = match date with
      | None => S (Script.ticks s)
      | Some _ => Script.ticks s
      end /\
  Script.calls (fst (Script.generate_sample_data R round2 clock date n s))
    = Script.calls s.
Proof.
  unfold Script.generate_sample_data, Uploader.generate_sample_data.
  unfold mbind, Script.IO_bind. destruct date as [d|].
  - apply generate_from_agrees.
  - unfold Script.datetime_now. cbn [fst snd].
    apply (generate_from_agrees (clock (Script.ticks s)) n 0
             {| Script.rng := Script.rng s; Script.ticks := S (Script.ticks s);
                Script.calls := Script.calls s |}).
Qed.

(** An upload: one clock reading for the date when it is left out, one
    for the upload timestamp, one request to the store, and a line that
    reports the outcome. *)
Lemma upload_csv_data_run self df date folder (s : Script.state G) :
  let d := match date with None => clock (Script.ticks s) | Some d => d end in
  let t := match date with None => S (Script.ticks s) | Some _ => Script.ticks s end in
  let req := Uploader.upload_csv_request (Script.bucket_name self) to_csv
               d (clock t) df (Some d) folder in
  Script.upload_csv_data clock to_csv self df date folder s =
    match Script.put_object (Script.s3_client_of self) req with
    | None =>
        ({| Script.rng := Script.rng s; Script.ticks := S t;
            Script.calls :=
              Script.calls s ++
              [Script.PutObject req;
               Script.Print (Script.Uploaded (length df) (Script.bucket_name self)
                                             (Key req))] |},
         inr (Key req))
    | Some e =>
        ({| Script.rng := Script.rng s; Script.ticks := S t;
            Script.calls :=
              Script.calls s ++
              [Script.PutObject req;
               Script.Print (Script.ErrorUploading e)] |},
         inl e)
    end.
Proof.
  cbv zeta. unfold Script.upload_csv_data.
  destruct date as [d|]; run_IO;
    destruct (Script.put_object (Script.s3_client_of self) _); cbn;
    rewrite <- !app_assoc; reflexivity.
Qed.

(** The bucket check: the bucket is created only when [head_bucket]
    raises, and the method raises only when [create_bucket] raises too. *)
Lemma create_bucket_if_not_exists_run self (s : Script.state G) :
  Script.create_bucket_if_not_exists self s =
    let b := Script.bucket_name self in
    let with_calls cs :=
      {| Script.rng := Script.rng s; Script.ticks := Script.ticks s;
         Script.calls := Script.calls s ++ cs |} in
    match Script.head_bucket (Script.s3_client_of self) b with
    | None =>
        (with_calls [Script.HeadBucket b; Script.Print (Script.BucketExists b)],
         inr tt)
    | Some _ =>
        match Script.create_bucket (Script.s3_client_of self) b with
        | None =>
            (with_calls [Script.HeadBucket b; Script.CreateBucket b;
                         Script.Print (Script.BucketCreated b)], inr tt)
        | Some e =>
            (with_calls [Script.HeadBucket b; Script.CreateBucket b;
                         Script.Print (Script.ErrorCreatingBucket e)], inl e)
        end
    end.
Proof.
  unfold Script.create_bucket_if_not_exists. cbv zeta. run_IO.
  destruct (Script.head_bucket _ _); cbn;
    [destruct (Script.create_bucket _ _); cbn|];
    rewrite <- ?app_assoc; reflexivity.
Qed.

Lemma print_files_run contents : forall (s : Script.state G),
  exists lines,
    Script.print_files contents s =
      ({| Script.rng := Script.rng s; Script.ticks := Script.ticks s;
          Script.calls := Script.calls s ++ lines |}, inr tt) /\
    Script.puts lines = [].
Proof.
  induction contents as [|obj rest IH]; intros s; cbn [Script.print_files].
  - exists []. rewrite app_nil_r. split; [now destruct s|reflexivity].
  - cbv zeta. unfold mbind, Script.IO_bind, Script.print, Script.do_call.
    destruct (IH {| Script.rng := Script.rng s; Script.ticks := Script.ticks s;
                    Script.calls := Script.calls s ++
                      [Script.Print
                         (Script.FileLine (Script.object_key obj)
                            (inject_Z (Z.of_nat (Script.object_size obj))
                             / inject_Z (1024 * 1024))%Q
                            (Script.last_modified obj))] |})
      as (lines & -> & Hp).
    eexists (_ :: lines). cbn [Script.rng Script.ticks Script.calls].
    rewrite <- app_assoc. split; [reflexivity|exact Hp].
Qed.

(** The listing never raises and never uploads: it only lists and
    prints. *)
Lemma list_uploaded_files_run self prefix (s : Script.state G) :
  exists lines,
    Script.list_uploaded_files self prefix s =
      ({| Script.rng := Script.rng s; Script.ticks := Script.ticks s;
          Script.calls := Script.calls s ++ lines |}, inr tt) /\
    Script.puts lines = [].
Proof.
  unfold Script.list_uploaded_files.
  unfold Script.try_except, mbind, Script.IO_bind, Script.do_call, Script.lift,
    Script.print.
  cbn [fst snd Script.rng Script.ticks Script.calls].
  destruct (Script.list_objects_v2 _ _ _) as [e|[contents|]].
  - eexists [_; _]. unfold Script.do_call. cbn. rewrite <- app_assoc.
    split; reflexivity.
  - unfold Script.do_call.
    match goal with
    | |- context [Script.print_files contents ?s1] =>
        destruct (print_files_run contents s1) as (lines & -> & Hp)
    end.
    eexists (_ :: _ :: lines). cbn. rewrite <- !app_assoc.
    split; [reflexivity|exact Hp].
  - eexists [_; _]. unfold Script.do_call. cbn. rewrite <- app_assoc.
    split; reflexivity.
Qed.

End ScriptFacts.

(** ** The script: [main] and the daily upload *)

Lemma puts_app cs cs' : Script.puts (cs ++ cs') = Script.puts cs ++ Script.puts cs'.
Proof. unfold Script.puts. apply omap_app. Qed.

Section ScriptRuns.

Context {G : Type}.
Variable R : random_source G.
Variable round2 : Q -> Q.
Variable clock : nat -> datetime.
Variable to_csv : list Uploader.transaction -> string.

(** The daily upload, by what the generator and the store answer. *)
Lemma run_daily_upload_run self (s : Script.state G) :
  let n := fst (rand_randint R 50 150 (Script.rng s)) in
  let g := snd (rand_randint R 50 150 (Script.rng s)) in
  let t := Script.ticks s in
  let bucket := Script.bucket_name (Script.uploader self) in
  let run := Script.run_daily_upload R round2 clock to_csv self s in
  match Uploader.generate_sample_data R round2 (clock t) None n g with
  | inl e =>
      snd run = inr false /\
      Script.calls (fst run)
        = Script.calls s ++ [Script.Print (Script.DailyFailed e)]
  | inr data =>
      let req := Uploader.upload_csv_request bucket to_csv (clock (S t))
                   (clock (S (S t))) data (Some (clock (S t))) "raw-data" in
      match Script.put_object (Script.s3_client_of (Script.uploader self)) req with
      | None =>
          snd run = inr true /\
          Script.calls (fst run)
            = Script.calls s ++
              [Script.PutObject req;
               Script.Print (Script.Uploaded (length data) bucket (Key req));
               Script.Print (Script.DailySuccessful (Key req))]
      | Some e =>
          snd run = inr false /\
          Script.calls (fst run)
            = Script.calls s ++
              [Script.PutObject req;
               Script.Print (Script.ErrorUploading e);
               Script.Print (Script.DailyFailed e)]
      end
  end.
Proof.
  cbv zeta.
  destruct (Script.run_daily_upload R round2 clock to_csv self s) as [sf rf]
    eqn:Hrun.
  cbn [fst snd]. revert Hrun.
  unfold Script.run_daily_upload, Script.try_except.
  unfold mbind at 1, Script.IO_bind at 1, Script.draw at 1.
  destruct (rand_randint R 50 150 (Script.rng s)) as [n g]. cbn [fst snd].
  set (s0 := {| Script.rng := g; Script.ticks := Script.ticks s;
                Script.calls := Script.calls s |}).
  destruct (generate_sample_data_agrees R round2 clock None n s0)
    as (Hres & Ht & Hc).
  unfold mbind at 1, Script.IO_bind at 1.
  destruct (Script.generate_sample_data R round2 clock None n s0) as [s1 res].
  subst s0.
  cbn [fst snd Script.rng Script.ticks Script.calls] in Hres, Ht, Hc.
  rewrite <- Hres. destruct res as [e|data].
  - unfold mbind, Script.IO_bind, Script.print, Script.do_call, mret, Script.IO_ret.
    intros Hrun. injection Hrun as <- <-. cbn. now rewrite Hc.
  - unfold mbind at 1, Script.IO_bind at 1.
    rewrite upload_csv_data_run. cbv zeta. rewrite Ht, Hc.
    destruct (Script.put_object _ _) as [e|].
    + unfold mbind, Script.IO_bind, Script.print, Script.do_call, mret,
        Script.IO_ret.
      intros Hrun. injection Hrun as <- <-. cbn. now rewrite <- app_assoc.
    + unfold mbind, Script.IO_bind, Script.print, Script.do_call, mret,
        Script.IO_ret.
      intros Hrun. injection Hrun as <- <-. cbn. now rewrite <- app_assoc.
Qed.

Lemma io_bind_inr {A B : Type} (m : Script.IO G A) (f : A -> Script.IO G B)
    s s1 a :
  m s = (s1, inr a) -> (m ≫= f) s = f a s1.
Proof. intros H. unfold mbind, Script.IO_bind. now rewrite H. Qed.

Lemma io_bind_inl {A B : Type} (m : Script.IO G A) (f : A -> Script.IO G B)
    s s1 e :
  m s = (s1, inl e) -> (m ≫= f) s = (s1, inl e).
Proof. intros H. unfold mbind, Script.IO_bind. now rewrite H. Qed.

Lemma print_run m (s : Script.state G) :
  Script.print m s =
    ({| Script.rng := Script.rng s; Script.ticks := Script.ticks s;
        Script.calls := Script.calls s ++ [Script.Print m] |}, inr tt).
Proof. reflexivity. Qed.

Lemma key_under_raw_data bucket now now' df d :
  PyStr.startswith
    (Key (Uploader.upload_csv_request bucket to_csv now now' df (Some d) "raw-data"))
    "raw-data/" = true.
Proof. reflexivity. Qed.

Lemma record_count_of_request bucket now now' df date folder :
  metadata_value
    (Uploader.upload_csv_request bucket to_csv now now' df date folder)
    "record_count" = Some (PyStr.str_nat (length df)).
Proof. reflexivity. Qed.

End ScriptRuns.

(** The daily upload never raises and reports what happened: it returns
    [True] after exactly one accepted upload, of between 50 and 150 records,
    to a key under raw-data/ of the bucket, which it prints; it returns
    [False] after printing the error when the generation or the upload
    raised, and then no upload of the run was accepted. *)
Theorem run_daily_upload_reports_outcome {G : Type} (R : random_source G)
    round2 clock to_csv self (s : Script.state G) :
  random_ok R ->
  let run := Script.run_daily_upload R round2 clock to_csv self s in
  let client := Script.s3_client_of (Script.uploader self) in
  let bucket := Script.bucket_name (Script.uploader self) in
  (snd run = inr true /\
   exists req n,
     Script.calls (fst run)
       = Script.calls s ++
         [Script.PutObject req;
          Script.Print (Script.Uploaded n bucket (Key req));
          Script.Print (Script.DailySuccessful (Key req))] /\
     Script.put_object client req = None /\
     50 <= n <= 150 /\
     Bucket req = bucket /\
     PyStr.startswith (Key req) "raw-data/" = true /\
     metadata_value req "record_count" = Some (PyStr.str_nat n)) \/
  (snd run = inr false /\
   exists e,
     last (Script.calls (fst run)) = Some (Script.Print (Script.DailyFailed e)) /\
     forall req, req ∈ Script.puts (Script.calls (fst run)) ->
       req ∈ Script.puts (Script.calls s) \/
       Script.put_object client req = Some e).
Proof.
  intros Hok run client bucket.
  pose proof (run_daily_upload_run R round2 clock to_csv self s) as Hrun.
  cbv zeta in Hrun. fold run in Hrun.
  pose proof (randint_range R Hok 50 150 (Script.rng s) ltac:(lia)) as Hn.
  destruct (Uploader.generate_sample_data R round2 _ None _ _) as [e|data] eqn:Eg.
  - destruct Hrun as [Hres Hcalls]. right. split; [exact Hres|]. exists e.
    rewrite Hcalls. split; [apply last_snoc|].
    intros req. rewrite puts_app. cbn. rewrite app_nil_r. now left.
  - unfold Uploader.generate_sample_data in Eg.
    destruct (generate_from_inr R round2 _ _ _ _ _ Eg) as [Hlen _].
    fold client bucket in Hrun.
    destruct (Script.put_object client _) as [e|] eqn:Eput.
    + destruct Hrun as [Hres Hcalls]. right. split; [exact Hres|]. exists e.
      rewrite Hcalls. split.
      * match goal with
        | |- last (?l ++ [?a; ?b; ?c]) = _ =>
            change (l ++ [a; b; c]) with (l ++ ([a; b] ++ [c]))
        end.
        rewrite app_assoc. apply last_snoc.
      * intros req. rewrite puts_app. cbn. rewrite elem_of_app.
        intros [H|H]; [now left|right].
        apply list_elem_of_singleton in H as ->. exact Eput.
    + destruct Hrun as [Hres Hcalls]. left. split; [exact Hres|].
      eexists _, (length data). split; [exact Hcalls|].
      split; [exact Eput|]. split; [lia|]. split; [reflexivity|].
      split; [apply key_under_raw_data|apply record_count_of_request].
Qed.

Lemma run_daily_upload_reports_outcome_witness :
  snd (Script.run_daily_upload Sample.least Sample.round2 Sample.standing_clock
         (fun _ => "")
         (Script.mk_daily (Sample.uploader_with Sample.store_accepting))
         Sample.fresh) = inr true \/
  snd (Script.run_daily_upload Sample.least Sample.round2 Sample.standing_clock
         (fun _ => "")
         (Script.mk_daily (Sample.uploader_with Sample.store_accepting))
         Sample.fresh) = inr false.
Proof.
  destruct (run_daily_upload_reports_outcome Sample.least Sample.round2
              Sample.standing_clock (fun _ => "")
              (Script.mk_daily (Sample.uploader_with Sample.store_accepting))
              Sample.fresh least_random_ok) as [[H _]|[H _]];
    [left|right]; exact H.
Defined.

(** With a store that accepts the upload the daily run uploads fifty
    records; with one that refuses it the run reports the failure. *)
Example daily_upload_sample :
  snd (Script.run_daily_upload Sample.least Sample.round2 Sample.standing_clock
         (fun _ => "")
         (Script.mk_daily (Sample.uploader_with Sample.store_accepting))
         Sample.fresh) = inr true /\
  Key <$> Script.puts
            (Script.calls
               (fst (Script.run_daily_upload Sample.least Sample.round2
                       Sample.standing_clock (fun _ => "")
                       (Script.mk_daily (Sample.uploader_with Sample.store_accepting))
                       Sample.fresh)))
    = ["raw-data/year=2024/month=07/day=27/transactions-20240727.csv"] /\
  snd (Script.run_daily_upload Sample.least Sample.round2 Sample.standing_clock
         (fun _ => "")
         (Script.mk_daily (Sample.uploader_with Sample.store_refusing))
         Sample.fresh) = inr false.
Proof. repeat split; vm_compute; reflexivity. Qed.

(** *** [main] *)

Section MainRuns.

Context {G : Type}.
Variable R : random_source G.
Variable round2 : Q -> Q.
Variable clock : nat -> datetime.
Variable to_csv : list Uploader.transaction -> string.
Variable boto3_client : option string -> Script.s3_client.

(** The uploader of [main]: the configured bucket and the default
    client. *)
Lemma main_uploader :
  Script.init boto3_client Script.BUCKET_NAME Script.AWS_PROFILE
  = {| Script.bucket_name := Script.BUCKET_NAME;
       Script.s3_client_of := boto3_client None |}.
Proof. reflexivity. Qed.

Lemma main_run_with_bucket (s : Script.state G) data :
  Script.head_bucket (boto3_client None) Script.BUCKET_NAME = None \/
  Script.create_bucket (boto3_client None) Script.BUCKET_NAME = None ->
  Uploader.generate_sample_data R round2 (clock (Script.ticks s)) None 75
    (Script.rng s) = inr data ->
  let req := Uploader.upload_csv_request Script.BUCKET_NAME to_csv
               (clock (S (Script.ticks s))) (clock (S (S (Script.ticks s))))
               data (Some (clock (S (Script.ticks s)))) "raw-data" in
  Script.put_object (boto3_client None) req = None ->
  let run := Script.main R round2 clock to_csv boto3_client s in
  snd run = inr tt /\
  Script.ticks (fst run) = Script.ticks s + 3 /\
  Script.puts (Script.calls (fst run)) = Script.puts (Script.calls s) ++ [req].
Proof.
  intros Hbucket Hd req Hput run. subst run.
  destruct (Script.main R round2 clock to_csv boto3_client s) as [sf rf] eqn:Hrun.
  cbn [fst snd]. revert Hrun. unfold Script.main. cbv zeta.
  rewrite main_uploader.
  set (uploader := {| Script.bucket_name := Script.BUCKET_NAME;
                      Script.s3_client_of := boto3_client None |}).
  erewrite io_bind_inr by apply print_run.
  set (cs := match Script.head_bucket (boto3_client None) Script.BUCKET_NAME with
             | Some _ =>
                 [Script.HeadBucket Script.BUCKET_NAME;
                  Script.CreateBucket Script.BUCKET_NAME;
                  Script.Print (Script.BucketCreated Script.BUCKET_NAME)]
             | None =>
                 [Script.HeadBucket Script.BUCKET_NAME;
                  Script.Print (Script.BucketExists Script.BUCKET_NAME)]
             end).
  assert (Hcs : Script.puts cs = []).
  { subst cs. now destruct (Script.head_bucket _ _). }
  assert (Hcreate : forall s1 : Script.state G,
            Script.create_bucket_if_not_exists uploader s1 =
              ({| Script.rng := Script.rng s1; Script.ticks := Script.ticks s1;
                  Script.calls := Script.calls s1 ++ cs |}, inr tt)).
  { intros s1. rewrite create_bucket_if_not_exists_run. cbv zeta.
    cbn [Script.bucket_name Script.s3_client_of uploader]. subst cs.
    destruct (Script.head_bucket (boto3_client None) Script.BUCKET_NAME) as [e0|].
    - destruct Hbucket as [Hb|Hb]; [discriminate|]. now rewrite Hb.
    - reflexivity. }
  erewrite io_bind_inr by apply Hcreate.
  erewrite io_bind_inr by apply print_run.
  cbn [Script.rng Script.ticks Script.calls].
  match goal with
  | |- context [(Script.generate_sample_data R round2 clock None 75 ≫= _) ?s1] =>
      destruct (generate_sample_data_agrees R round2 clock None 75 s1)
        as (Hres & Ht & Hc);
      destruct (Script.generate_sample_data R round2 clock None 75 s1)
        as [s2 res] eqn:Hgen
  end.
  cbn [fst snd Script.rng Script.ticks Script.calls] in Hres, Ht, Hc.
  rewrite Hd in Hres. subst res.
  erewrite io_bind_inr by exact Hgen.
  do 3 (erewrite io_bind_inr by apply print_run).
  erewrite io_bind_inr.
  2:{ rewrite upload_csv_data_run. cbv zeta.
      cbn [Script.rng Script.ticks Script.calls Script.bucket_name
           Script.s3_client_of uploader].
      rewrite Ht. fold req. rewrite Hput. reflexivity. }
  match goal with
  | |- context [(Script.list_uploaded_files uploader "raw-data" ≫= _) ?s1] =>
      destruct (list_uploaded_files_run uploader "raw-data" s1)
        as (lines & Hlist & Hlines)
  end.
  erewrite io_bind_inr by exact Hlist.
  do 2 (erewrite io_bind_inr by apply print_run).
  rewrite print_run. intros Hrun. injection Hrun as <- <-.
  cbn [Script.rng Script.ticks Script.calls].
  split; [reflexivity|]. split; [lia|].
  rewrite Hc. rewrite !puts_app, Hcs, Hlines. cbn. now rewrite !app_nil_r.
Qed.

End MainRuns.

(** [main] uploads today's batch: when the bucket exists or can be
    created, the generation does not run past the last representable
    date-time and the store accepts the object, [main] returns normally,
    whatever the listing answers; it reads the clock three times and puts
    exactly one object: the 75 generated records, under the key of the
    second clock reading in raw-data/ of the configured bucket, with
    [record_count] 75. *)
Theorem main_uploads_todays_batch {G : Type} (R : random_source G)
    round2 clock to_csv boto3_client (s : Script.state G) :
  random_ok R ->
  Script.head_bucket (boto3_client None) Script.BUCKET_NAME = None \/
  Script.create_bucket (boto3_client None) Script.BUCKET_NAME = None ->
  is_Some (PyTime.add_timedelta (clock (Script.ticks s)) 22 59) ->
  (forall req, Script.put_object (boto3_client None) req = None) ->
  let run := Script.main R round2 clock to_csv boto3_client s in
  snd run = inr tt /\
  Script.ticks (fst run) = Script.ticks s + 3 /\
  exists data,
    Uploader.generate_sample_data R round2 (clock (Script.ticks s)) None 75
      (Script.rng s) = inr data /\
    length data = 75 /\
    let req := Uploader.upload_csv_request "your-portfolio-etl-bucket" to_csv
                 (clock (S (Script.ticks s))) (clock (S (S (Script.ticks s))))
                 data (Some (clock (S (Script.ticks s)))) "raw-data" in
    Script.puts (Script.calls (fst run)) = Script.puts (Script.calls s) ++ [req] /\
    PyStr.startswith (Key req) "raw-data/" = true /\
    metadata_value req "record_count" = Some "75".
Proof.
  intros Hok Hbucket Hfit Hput run.
  destruct (generate_from_total R round2 Hok (clock (Script.ticks s)) 75 0
              (Script.rng s) Hfit) as [data Hd].
  destruct (generate_from_inr R round2 _ _ _ _ _ Hd) as [Hlen _].
  destruct (main_run_with_bucket R round2 clock to_csv boto3_client s data
              Hbucket Hd (Hput _)) as (Hres & Hticks & Hputs).
  split; [exact Hres|]. split; [exact Hticks|].
  exists data. split; [exact Hd|]. split; [exact Hlen|].
  cbv zeta. split; [exact Hputs|]. split; [apply key_under_raw_data|].
  rewrite record_count_of_request, Hlen. reflexivity.
Qed.

Lemma main_uploads_todays_batch_witness :
  snd (Script.main Sample.least Sample.round2 Sample.standing_clock (fun _ => "")
         (fun _ => Sample.store_accepting) Sample.fresh) = inr tt.
Proof.
  refine (proj1 (main_uploads_todays_batch Sample.least Sample.round2
                   Sample.standing_clock (fun _ => "")
                   (fun _ => Sample.store_accepting) Sample.fresh
                   least_random_ok (or_introl eq_refl) _ (fun _ => eq_refl))).
  eexists. vm_compute. reflexivity.
Defined.

(** Without a bucket [main] does nothing: when [head_bucket] and
    [create_bucket] both raise, [main] raises the error of the creation
    after printing it; it draws no random number, reads no clock, and
    makes no call but the two on the bucket. *)
Theorem main_stops_without_bucket {G : Type} (R : random_source G)
    round2 clock to_csv boto3_client (s : Script.state G) e0 e :
  Script.head_bucket (boto3_client None) Script.BUCKET_NAME = Some e0 ->
  Script.create_bucket (boto3_client None) Script.BUCKET_NAME = Some e ->
  Script.main R round2 clock to_csv boto3_client s =
    ({| Script.rng := Script.rng s; Script.ticks := Script.ticks s;
        Script.calls :=
          Script.calls s ++
          [Script.Print Script.StartingUpload;
           Script.HeadBucket "your-portfolio-etl-bucket";
           Script.CreateBucket "your-portfolio-etl-bucket";
           Script.Print (Script.ErrorCreatingBucket e)] |}, inl e).
Proof.
  intros Hhead Hcreate. unfold Script.main. cbv zeta. rewrite main_uploader.
  erewrite io_bind_inr by apply print_run.
  erewrite io_bind_inl; [reflexivity|].
  rewrite create_bucket_if_not_exists_run. cbv zeta.
  cbn [Script.bucket_name Script.s3_client_of Script.rng Script.ticks
       Script.calls].
  rewrite Hhead, Hcreate. rewrite <- app_assoc. reflexivity.
Qed.

Lemma main_stops_without_bucket_witness :
  snd (Script.main Sample.least Sample.round2 Sample.standing_clock (fun _ => "")
         (fun _ => Sample.store_without_bucket) Sample.fresh)
  = inl (ClientError "AccessDenied").
Proof.
  rewrite (main_stops_without_bucket Sample.least Sample.round2
             Sample.standing_clock (fun _ => "")
             (fun _ => Sample.store_without_bucket) Sample.fresh
             (ClientError "404") (ClientError "AccessDenied") eq_refl eq_refl).
  reflexivity.
Defined.

(** ** The script: the historical upload *)

Section Historical.

Context {G : Type}.
Variable R : random_source G.
Variable round2 : Q -> Q.
Variable clock : nat -> datetime.
Variable to_csv : list Uploader.transaction -> string.

(** The requests of a run of the loop over the days, from day [i] with
    [n] days left: one request a day, in order, each for the clock reading
    of its pass less the number of the day; every request but the last was
    accepted; the loop returns only when all were, and raises the error of
    the store when the last was refused. *)
Lemma historical_from_run self days_back n : forall i (s : Script.state G),
  let run := Script.historical_from R round2 clock to_csv self days_back i n s in
  let client := Script.s3_client_of self in
  exists reqs,
    Script.puts (Script.calls (fst run)) = Script.puts (Script.calls s) ++ reqs /\
    length reqs <= n /\
    (forall k req, reqs !! k = Some req ->
       exists d df,
         Script.sub_timedelta_days (clock (Script.ticks s + 2 * k)) (i + k)
           = Some d /\
         req = Uploader.upload_csv_request (Script.bucket_name self) to_csv d
                 (clock (Script.ticks s + 2 * k + 1)) df (Some d) "raw-data" /\
         (random_ok R -> 20 <= length df <= 100) /\
         (S k < length reqs -> Script.put_object client req = None)) /\
    (snd run = inr tt ->
     length reqs = n /\
     forall req, req ∈ reqs -> Script.put_object client req = None) /\
    (forall req e, last reqs = Some req ->
       Script.put_object client req = Some e -> snd run = inl e).
Proof.
  induction n as [|n IH]; intros i s; cbv zeta.
  - cbn [Script.historical_from]. exists []. cbn. rewrite app_nil_r. split; [reflexivity|]. split; [lia|].
    split; [intros k req Hk; discriminate|]. split.
    + intros _. split; [reflexivity|]. intros req Hreq. inversion Hreq.
    + intros req e Hlast. discriminate.
  - destruct (Script.historical_from R round2 clock to_csv self days_back i (S n) s)
      as [sf rf] eqn:Hrun.
    cbn [Script.historical_from] in Hrun. revert Hrun.
    erewrite io_bind_inr by reflexivity.
    assert (Hnone : forall (s1 : Script.state G) e,
              Script.calls s1 = Script.calls s ->
              (s1, @inl exn unit e) = (sf, rf) ->
              exists reqs,
                Script.puts (Script.calls (sf, rf).1)
                  = Script.puts (Script.calls s) ++ reqs /\
                length reqs <= S n /\
                (forall k req, reqs !! k = Some req ->
                   exists d df,
                     Script.sub_timedelta_days (clock (Script.ticks s + 2 * k))
                       (i + k) = Some d /\
                     req = Uploader.upload_csv_request (Script.bucket_name self)
                             to_csv d (clock (Script.ticks s + 2 * k + 1)) df
                             (Some d) "raw-data" /\
                     (random_ok R -> 20 <= length df <= 100) /\
                     (S k < length reqs ->
                      Script.put_object (Script.s3_client_of self) req = None)) /\
                ((sf, rf).2 = inr tt ->
                 length reqs = S n /\
                 forall req, req ∈ reqs ->
                   Script.put_object (Script.s3_client_of self) req = None) /\
                (forall req e, last reqs = Some req ->
                   Script.put_object (Script.s3_client_of self) req = Some e ->
                   (sf, rf).2 = inl e)).
    { intros s1 e Hc H. injection H as <- <-. exists []. cbn [fst snd].
      rewrite Hc, app_nil_r. split; [reflexivity|]. split; [cbn; lia|].
      split; [intros k req Hk; discriminate|]. split; [discriminate|].
      intros req e' Hlast. discriminate. }
    destruct (Script.sub_timedelta_days (clock (Script.ticks s)) i) as [d|] eqn:Ed.
    2:{ erewrite io_bind_inl by reflexivity.
        intros H. eapply Hnone; [|exact H]. reflexivity. }
    erewrite io_bind_inr by reflexivity.
    unfold mbind at 1, Script.IO_bind at 1, Script.draw at 1.
    cbn [Script.rng Script.ticks Script.calls].
    pose proof (fun Hok : random_ok R =>
                  randint_range R Hok 20 100 (Script.rng s) ltac:(lia)) as Hnum.
    destruct (rand_randint R 20 100 (Script.rng s)) as [num g1].
    cbn [fst] in Hnum.
    match goal with
    | |- context [(Script.generate_sample_data R round2 clock (Some d) num ≫= _) ?s1] =>
        destruct (generate_sample_data_agrees R round2 clock (Some d) num s1)
          as (Hres & Ht & Hc);
        destruct (Script.generate_sample_data R round2 clock (Some d) num s1)
          as [s3 res] eqn:Hgen
    end.
    cbn [fst snd Script.rng Script.ticks Script.calls] in Hres, Ht, Hc.
    destruct res as [e|df].
    { erewrite io_bind_inl by exact Hgen.
      intros H. eapply Hnone; [|exact H]. exact Hc. }
    erewrite io_bind_inr by exact Hgen.
    symmetry in Hres. unfold Uploader.generate_sample_data in Hres.
    destruct (generate_from_inr R round2 _ _ _ _ _ Hres) as [Hlen _].
    set (req := Uploader.upload_csv_request (Script.bucket_name self) to_csv d
                  (clock (S (Script.ticks s))) df (Some d) "raw-data").
    assert (Hreq0 : exists d0 df0,
              Script.sub_timedelta_days (clock (Script.ticks s + 2 * 0)) (i + 0)
                = Some d0 /\
              req = Uploader.upload_csv_request (Script.bucket_name self) to_csv d0
                      (clock (Script.ticks s + 2 * 0 + 1)) df0 (Some d0) "raw-data" /\
              (random_ok R -> 20 <= length df0 <= 100)).
    { exists d, df. rewrite !Nat.add_0_r. split; [exact Ed|].
      split; [subst req; now rewrite Nat.add_1_r|]. intros Hok. rewrite Hlen.
      now apply Hnum. }
    destruct (Script.put_object (Script.s3_client_of self) req) as [e|] eqn:Eput.
    + erewrite io_bind_inl.
      2:{ rewrite upload_csv_data_run. cbv zeta. rewrite Ht. fold req.
          rewrite Eput. reflexivity. }
      intros H. injection H as <- <-. exists [req].
      cbn [fst snd Script.calls]. rewrite Hc, puts_app.
      split; [reflexivity|]. split; [cbn; lia|]. split; [|split].
      * intros [|k] req' Hk; [|discriminate]. injection Hk as <-.
        destruct Hreq0 as (d0 & df0 & H1 & H2 & H3).
        exists d0, df0. split; [exact H1|]. split; [exact H2|].
        split; [exact H3|]. cbn. lia.
      * discriminate.
      * intros req' e' Hlast Hput. injection Hlast as <-. congruence.
    + erewrite io_bind_inr.
      2:{ rewrite upload_csv_data_run. cbv zeta. rewrite Ht. fold req.
          rewrite Eput. reflexivity. }
      set (line := if (i mod 10 =? 0)%nat
                   then [Script.Print (Script.ProcessedDays (i + 1) days_back)]
                   else []).
      assert (Hline : Script.puts line = []).
      { subst line. now destruct (i mod 10 =? 0)%nat. }
      assert (Hstep : forall s' : Script.state G,
                (if (i mod 10 =? 0)%nat
                 then Script.print (Script.ProcessedDays (i + 1) days_back)
                 else mret tt) s'
                = ({| Script.rng := Script.rng s'; Script.ticks := Script.ticks s';
                      Script.calls := Script.calls s' ++ line |}, inr tt)).
      { intros s'. subst line. destruct (i mod 10 =? 0)%nat.
        - reflexivity.
        - rewrite app_nil_r. now destruct s'. }
      erewrite io_bind_inr by apply Hstep.
      cbn [Script.rng Script.ticks Script.calls].
      match goal with
      | |- Script.historical_from R round2 clock to_csv self days_back (S i) n ?s5
           = _ -> _ =>
          destruct (IH (S i) s5) as (reqs & Hputs & Hle & Hreqs & Hdone & Hlast)
      end.
      intros Hrun. rewrite Hrun in Hputs, Hdone, Hlast.
      cbn [fst snd Script.rng Script.ticks Script.calls] in *.
      exists (req :: reqs). split; [|split; [|split; [|split]]].
      * rewrite Hputs, Hc, !puts_app, Hline. cbn.
        now rewrite app_nil_r, <- app_assoc.
      * cbn. lia.
      * intros [|k] req' Hk.
        -- injection Hk as <-.
           destruct Hreq0 as (d0 & df0 & H1 & H2 & H3).
           exists d0, df0. split; [exact H1|]. split; [exact H2|].
           split; [exact H3|]. intros _. exact Eput.
        -- cbn in Hk. destruct (Hreqs k req' Hk) as (d0 & df0 & H1 & H2 & H3 & H4).
           exists d0, df0.
           replace (Script.ticks s + 2 * S k) with (S (S (Script.ticks s)) + 2 * k)
             by lia.
           replace (i + S k) with (S i + k) by lia.
           split; [exact H1|]. split; [exact H2|]. split; [exact H3|].
           intros Hlt. apply H4. cbn in Hlt. lia.
      * intros Hres'. destruct (Hdone Hres') as [Hn Hall].
        split; [cbn; now rewrite Hn|].
        intros req' Hin. apply elem_of_cons in Hin as [->|Hin];
          [exact Eput|now apply Hall].
      * intros req' e' Hl Hput. destruct reqs as [|r0 reqs].
        -- injection Hl as <-. congruence.
        -- apply (Hlast req' e'); [|exact Hput]. exact Hl.
Qed.

(** With a generator that keeps its promises, a store that accepts every
    object and days that all exist, the loop returns. *)
Lemma historical_from_total self days_back n : forall i (s : Script.state G),
  random_ok R ->
  (forall req, Script.put_object (Script.s3_client_of self) req = None) ->
  (forall k, k < n ->
     exists d,
       Script.sub_timedelta_days (clock (Script.ticks s + 2 * k)) (i + k) = Some d /\
       is_Some (PyTime.add_timedelta d 22 59)) ->
  snd (Script.historical_from R round2 clock to_csv self days_back i n s) = inr tt.
Proof.
  induction n as [|n IH]; intros i s Hok Hput Hdays; [reflexivity|].
  cbn [Script.historical_from].
  destruct (Hdays 0 ltac:(lia)) as (d & Hd & Hfit).
  rewrite !Nat.add_0_r in Hd.
  erewrite io_bind_inr by reflexivity. rewrite Hd.
  erewrite io_bind_inr by reflexivity.
  unfold mbind at 1, Script.IO_bind at 1, Script.draw at 1.
  cbn [Script.rng Script.ticks Script.calls].
  destruct (rand_randint R 20 100 (Script.rng s)) as [num g1].
  match goal with
  | |- context [(Script.generate_sample_data R round2 clock (Some d) num ≫= _) ?s1] =>
      destruct (generate_sample_data_agrees R round2 clock (Some d) num s1)
        as (Hres & Ht & Hc);
      destruct (Script.generate_sample_data R round2 clock (Some d) num s1)
        as [s3 res] eqn:Hgen
  end.
  cbn [fst snd Script.rng Script.ticks Script.calls] in Hres, Ht, Hc.
  unfold Uploader.generate_sample_data in Hres.
  destruct (generate_from_total R round2 Hok d num 0 g1 Hfit) as [df Hdf].
  rewrite Hdf in Hres. subst res.
  erewrite io_bind_inr by exact Hgen.
  erewrite io_bind_inr.
  2:{ rewrite upload_csv_data_run. cbv zeta. rewrite Hput. reflexivity. }
  assert (Hstep : forall s' : Script.state G,
            exists line,
              (if (i mod 10 =? 0)%nat
               then Script.print (Script.ProcessedDays (i + 1) days_back)
               else mret tt) s'
              = ({| Script.rng := Script.rng s'; Script.ticks := Script.ticks s';
                    Script.calls := Script.calls s' ++ line |}, inr tt)).
  { intros s'. destruct (i mod 10 =? 0)%nat.
    - eexists [_]. reflexivity.
    - exists []. rewrite app_nil_r. now destruct s'. }
  match goal with
  | |- context [(_ ≫= _) ?s'] => destruct (Hstep s') as [line Hline]
  end.
  erewrite io_bind_inr by exact Hline.
  apply IH; [exact Hok|exact Hput|].
  intros k Hk. cbn [Script.ticks]. rewrite Ht.
  destruct (Hdays (S k) ltac:(lia)) as (d' & Hd' & Hfit').
  exists d'. split; [|exact Hfit'].
  replace (S (S (Script.ticks s)) + 2 * k) with (Script.ticks s + 2 * S k) by lia.
  replace (S i + k) with (i + S k) by lia. exact Hd'.
Qed.

(** The whole method: the loop between two lines. *)
Lemma upload_historical_data_run self days_back (s : Script.state G) :
  let s0 := {| Script.rng := Script.rng s; Script.ticks := Script.ticks s;
               Script.calls :=
                 Script.calls s ++
                 [Script.Print (Script.GeneratingHistorical days_back)] |} in
  let loop := Script.historical_from R round2 clock to_csv self days_back 0
                days_back s0 in
  Script.upload_historical_data R round2 clock to_csv self days_back s =
    match snd loop with
    | inr _ =>
        ({| Script.rng := Script.rng (fst loop);
            Script.ticks := Script.ticks (fst loop);
            Script.calls :=
              Script.calls (fst loop) ++ [Script.Print Script.HistoricalComplete] |},
         inr tt)
    | inl e => (fst loop, inl e)
    end.
Proof.
  cbv zeta. unfold Script.upload_historical_data.
  erewrite io_bind_inr by apply print_run.
  unfold mbind, Script.IO_bind.
  destruct (Script.historical_from R round2 clock to_csv self days_back 0
              days_back _) as [s1 [e|[]]]; reflexivity.
Qed.

End Historical.

(** The historical upload covers every day: with a generator that keeps
    its promises, a store that accepts every object and days that all
    exist, the method returns after its closing line and has put exactly
    one object a day, in the order of the days: the object of day [k] is
    for the clock reading of its pass less [k] days, under raw-data, and
    holds between 20 and 100 records. *)
Theorem historical_upload_covers_every_day {G : Type} (R : random_source G)
    round2 clock to_csv self days_back (s : Script.state G) :
  random_ok R ->
  (forall req, Script.put_object (Script.s3_client_of self) req = None) ->
  (forall k, k < days_back ->
     exists d,
       Script.sub_timedelta_days (clock (Script.ticks s + 2 * k)) k = Some d /\
       is_Some (PyTime.add_timedelta d 22 59)) ->
  let run := Script.upload_historical_data R round2 clock to_csv self days_back s in
  snd run = inr tt /\
  last (Script.calls (fst run)) = Some (Script.Print Script.HistoricalComplete) /\
  exists reqs,
    Script.puts (Script.calls (fst run)) = Script.puts (Script.calls s) ++ reqs /\
    length reqs = days_back /\
    forall k req, reqs !! k = Some req ->
      exists d df,
        Script.sub_timedelta_days (clock (Script.ticks s + 2 * k)) k = Some d /\
        req = Uploader.upload_csv_request (Script.bucket_name self) to_csv d
                (clock (Script.ticks s + 2 * k + 1)) df (Some d) "raw-data" /\
        20 <= length df <= 100.
Proof.
  intros Hok Hput Hdays run. subst run.
  rewrite upload_historical_data_run. cbv zeta.
  set (s0 := {| Script.rng := Script.rng s; Script.ticks := Script.ticks s;
                Script.calls := Script.calls s ++ _ |}).
  pose proof (historical_from_total R round2 clock to_csv self days_back days_back
                0 s0 Hok Hput Hdays) as Htotal.
  destruct (historical_from_run R round2 clock to_csv self days_back days_back 0 s0)
    as (reqs & Hputs & _ & Hreqs & Hdone & _).
  cbv zeta in Hputs, Hreqs, Hdone. rewrite Htotal in *.
  destruct (Hdone eq_refl) as [Hlen _].
  cbn [fst snd Script.calls]. split; [reflexivity|]. split; [apply last_snoc|].
  exists reqs. split; [|split; [exact Hlen|]].
  - rewrite puts_app, Hputs. subst s0. cbn [Script.calls].
    rewrite puts_app. cbn. now rewrite !app_nil_r.
  - intros k req Hk. destruct (Hreqs k req Hk) as (d & df & H1 & H2 & H3 & _).
    exists d, df. split; [exact H1|]. split; [exact H2|]. now apply H3.
Qed.

Lemma historical_upload_covers_every_day_witness :
  snd (Script.upload_historical_data Sample.least Sample.round2
         Sample.standing_clock (fun _ => "")
         (Sample.uploader_with Sample.store_accepting) 3 Sample.fresh) = inr tt.
Proof.
  refine (proj1 (historical_upload_covers_every_day Sample.least Sample.round2
                   Sample.standing_clock (fun _ => "")
                   (Sample.uploader_with Sample.store_accepting) 3 Sample.fresh
                   least_random_ok (fun _ => eq_refl) _)).
  intros k Hk.
  destruct k as [|[|[|k]]]; [| | |lia];
    (eexists; split; [vm_compute; reflexivity|eexists; vm_compute; reflexivity]).
Defined.

(** Three days back from 2024-07-27. *)
Example historical_upload_sample :
  Key <$> Script.puts
            (Script.calls
               (fst (Script.upload_historical_data Sample.least Sample.round2
                       Sample.standing_clock (fun _ => "")
                       (Sample.uploader_with Sample.store_accepting) 3
                       Sample.fresh)))
  = ["raw-data/year=2024/month=07/day=27/transactions-20240727.csv";
     "raw-data/year=2024/month=07/day=26/transactions-20240726.csv";
     "raw-data/year=2024/month=07/day=25/transactions-20240725.csv"].
Proof. vm_compute. reflexivity. Qed.

(** The historical upload stops at the first refused object: it puts at
    most one object a day; every object but the last was accepted; when the
    last is refused the method raises the error of the store, so the days
    after it are not uploaded; the method returns only after one accepted
    object for each day. *)
Theorem historical_upload_stops_at_refusal {G : Type} (R : random_source G)
    round2 clock to_csv self days_back (s : Script.state G) :
  let run := Script.upload_historical_data R round2 clock to_csv self days_back s in
  let client := Script.s3_client_of self in
  exists reqs,
    Script.puts (Script.calls (fst run)) = Script.puts (Script.calls s) ++ reqs /\
    length reqs <= days_back /\
    (forall k req, reqs !! k = Some req -> S k < length reqs ->
       Script.put_object client req = None) /\
    (snd run = inr tt ->
     length reqs = days_back /\
     forall req, req ∈ reqs -> Script.put_object client req = None) /\
    (forall req e, last reqs = Some req ->
       Script.put_object client req = Some e -> snd run = inl e).
Proof.
  cbv zeta. rewrite upload_historical_data_run. cbv zeta.
  set (s0 := {| Script.rng := Script.rng s; Script.ticks := Script.ticks s;
                Script.calls := Script.calls s ++ _ |}).
  destruct (historical_from_run R round2 clock to_csv self days_back days_back 0 s0)
    as (reqs & Hputs & Hle & Hreqs & Hdone & Hlast).
  cbv zeta in Hputs, Hreqs, Hdone, Hlast.
  assert (Hs0 : Script.puts (Script.calls s0) = Script.puts (Script.calls s)).
  { subst s0. cbn [Script.calls]. rewrite puts_app. cbn. now rewrite app_nil_r. }
  exists reqs.
  destruct (Script.historical_from R round2 clock to_csv self days_back 0
              days_back s0) as [s1 [e|[]]]; cbn [fst snd Script.calls] in *.
  - split; [now rewrite Hputs, Hs0|]. split; [exact Hle|]. split.
    + intros k req Hk Hlt. destruct (Hreqs k req Hk) as (_ & _ & _ & _ & _ & H).
      now apply H.
    + split; [discriminate|exact Hlast].
  - split; [rewrite puts_app, Hputs, Hs0; cbn; now rewrite app_nil_r|].
    split; [exact Hle|]. split.
    + intros k req Hk Hlt. destruct (Hreqs k req Hk) as (_ & _ & _ & _ & _ & H).
      now apply H.
    + split; [intros _; now apply Hdone|].
      intros req e Hl Hp. specialize (Hlast req e Hl Hp). discriminate.
Qed.

(** The store refuses every object: one request, and the run is over. *)
Example historical_upload_refused_sample :
  snd (Script.upload_historical_data Sample.least Sample.round2
         Sample.standing_clock (fun _ => "")
         (Sample.uploader_with Sample.store_refusing) 3 Sample.fresh)
    = inl (ClientError "AccessDenied") /\
  length (Script.puts
            (Script.calls
               (fst (Script.upload_historical_data Sample.least Sample.round2
                       Sample.standing_clock (fun _ => "")
                       (Sample.uploader_with Sample.store_refusing) 3
                       Sample.fresh)))) = 1.
Proof. split; vm_compute; reflexivity. Qed.

(** *** The days of a historical upload *)

Lemma days_in_month_ge y m : 1 <= PyTime.days_in_month y m.
Proof.
  unfold PyTime.days_in_month.
  do 12 (destruct m as [|m]; [try destruct (PyTime.is_leap y); lia|]). lia.
Qed.

(** The day before a calendar day is a calendar day, and an earlier one
    in the order of year, month and day. *)
Lemma prev_day_earlier y m d y' m' d' :
  1 <= y -> 1 <= m <= 12 -> 1 <= d <= PyTime.days_in_month y m ->
  Script.prev_day (y, m, d) = Some (y', m', d') ->
  (1 <= y' <= y /\ 1 <= m' <= 12 /\ 1 <= d' <= PyTime.days_in_month y' m') /\
  y' * 372 + m' * 31 + d' < y * 372 + m * 31 + d.
Proof.
  intros Hy Hm Hd. unfold Script.prev_day.
  pose proof (days_in_month_le y (m - 1)) as Hle.
  pose proof (days_in_month_ge y (m - 1)) as Hge.
  destruct (Nat.ltb_spec 1 d) as [H1|H1].
  { intros H. injection H as <- <- <-. lia. }
  destruct (Nat.ltb_spec 1 m) as [H2|H2].
  { intros H. injection H as <- <- <-. lia. }
  destruct (Nat.ltb_spec 1 y) as [H3|H3]; [|discriminate].
  intros H. injection H as <- <- <-. cbn [PyTime.days_in_month]. lia.
Qed.

Lemma sub_days_earlier k : forall y m d y' m' d',
  1 <= y -> 1 <= m <= 12 -> 1 <= d <= PyTime.days_in_month y m ->
  Script.sub_days k (y, m, d) = Some (y', m', d') ->
  (1 <= y' <= y /\ 1 <= m' <= 12 /\ 1 <= d' <= PyTime.days_in_month y' m') /\
  y' * 372 + m' * 31 + d' + k <= y * 372 + m * 31 + d.
Proof.
  induction k as [|k IH]; intros y m d y' m' d' Hy Hm Hd H;
    cbn [Script.sub_days] in H.
  - injection H as <- <- <-. lia.
  - destruct (Script.prev_day (y, m, d)) as [[[y1 m1] d1]|] eqn:E; [|discriminate].
    destruct (prev_day_earlier _ _ _ _ _ _ Hy Hm Hd E) as [(Hy1 & Hm1 & Hd1) Hlt].
    destruct (IH _ _ _ _ _ _ (proj1 Hy1) Hm1 Hd1 H) as [Hv Hle].
    split; [lia|lia].
Qed.

Lemma sub_days_split j : forall k x,
  Script.sub_days (j + k) x =
    match Script.sub_days j x with
    | Some x' => Script.sub_days k x'
    | None => None
    end.
Proof.
  induction j as [|j IH]; intros k x; cbn [Script.sub_days Nat.add];
    [reflexivity|].
  destruct (Script.prev_day x); [apply IH|reflexivity].
Qed.

Lemma valid_date_bounds t :
  PyTime.valid t = true ->
  1 <= year t <= PyTime.MAXYEAR /\ 1 <= month t <= 12 /\
  1 <= day t <= PyTime.days_in_month (year t) (month t) /\
  hour t < 24 /\ minute t < 60 /\ second t < 60 /\
  Nat.ltb (microsecond t) 1000000 = true.
Proof.
  unfold PyTime.valid. intros H.
  repeat (apply andb_true_iff in H as [H ?]).
  repeat match goal with
         | H : Nat.leb _ _ = true |- _ => apply Nat.leb_le in H
         | H : Nat.ltb (hour _) _ = true |- _ => apply Nat.ltb_lt in H
         | H : Nat.ltb (minute _) _ = true |- _ => apply Nat.ltb_lt in H
         | H : Nat.ltb (second _) _ = true |- _ => apply Nat.ltb_lt in H
         end.
  repeat split; assumption.
Qed.

(** Days back from a valid date-time: a valid date-time on a day that
    is earlier by at least the number of days. *)
Lemma sub_timedelta_days_valid t k d :
  PyTime.valid t = true ->
  Script.sub_timedelta_days t k = Some d ->
  PyTime.valid d = true /\
  Script.sub_days k (year t, month t, day t) = Some (year d, month d, day d).
Proof.
  intros Hv. unfold Script.sub_timedelta_days.
  destruct (Script.sub_days k (year t, month t, day t)) as [[[y m] d0]|] eqn:E;
    [|discriminate].
  intros H. injection H as <-. cbn [year month day]. split; [|reflexivity].
  apply valid_date_bounds in Hv as (Hy & Hm & Hd & Hh & Hmi & Hs & Hus).
  destruct (sub_days_earlier _ _ _ _ _ _ _ (proj1 Hy) Hm Hd E)
    as [(Hy' & Hm' & Hd') _].
  unfold PyTime.valid. cbn [year month day hour minute second microsecond].
  rewrite Hus, andb_true_r.
  repeat (apply andb_true_iff; split);
    lazymatch goal with
    | |- Nat.leb _ _ = true => apply Nat.leb_le; lia
    | |- Nat.ltb _ _ = true => apply Nat.ltb_lt; assumption
    end.
Qed.

(** No upload of a historical run replaces another: while the clock
    stays on one calendar day, the keys of the objects that the run puts
    are pairwise distinct. *)
Theorem historical_upload_keys_are_distinct {G : Type} (R : random_source G)
    round2 clock to_csv self days_back (s : Script.state G) reqs :
  (forall t, PyTime.valid (clock t) = true) ->
  (forall t, year (clock t) = year (clock 0) /\
             month (clock t) = month (clock 0) /\
             day (clock t) = day (clock 0)) ->
  Script.puts
    (Script.calls
       (fst (Script.upload_historical_data R round2 clock to_csv self days_back s)))
    = Script.puts (Script.calls s) ++ reqs ->
  NoDup (Key <$> reqs).
Proof.
  intros Hvalid Hday Hreqs.
  assert (Hall : forall k req, reqs !! k = Some req ->
            exists d df now',
              Script.sub_timedelta_days (clock (Script.ticks s + 2 * k)) k = Some d /\
              req = Uploader.upload_csv_request (Script.bucket_name self) to_csv d
                      now' df (Some d) "raw-data").
  { revert Hreqs. rewrite upload_historical_data_run. cbv zeta.
    set (s0 := {| Script.rng := Script.rng s; Script.ticks := Script.ticks s;
                  Script.calls := Script.calls s ++ _ |}).
    destruct (historical_from_run R round2 clock to_csv self days_back days_back
                0 s0) as (reqs' & Hputs & _ & Hreqs' & _).
    cbv zeta in Hputs, Hreqs'.
    assert (Hs0 : Script.puts (Script.calls s0) = Script.puts (Script.calls s)).
    { subst s0. cbn [Script.calls]. rewrite puts_app. cbn. now rewrite app_nil_r. }
    intros Hreqs.
    assert (Heq : reqs = reqs').
    { rewrite Hs0 in Hputs.
      destruct (Script.historical_from R round2 clock to_csv self days_back 0
                  days_back s0) as [s1 [e|[]]]; cbn [fst snd Script.calls] in *.
      - rewrite Hputs in Hreqs. now apply app_inv_head in Hreqs.
      - rewrite puts_app, Hputs in Hreqs. cbn in Hreqs.
        rewrite app_nil_r in Hreqs. now apply app_inv_head in Hreqs. }
    subst reqs'. intros k req Hk.
    destruct (Hreqs' k req Hk) as (d & df & H1 & H2 & _).
    exists d, df, (clock (Script.ticks s + 2 * k + 1)). split; assumption. }
  assert (Hord : forall k req, reqs !! k = Some req ->
            exists d df now',
              req = Uploader.upload_csv_request (Script.bucket_name self) to_csv d
                      now' df (Some d) "raw-data" /\
              PyTime.valid d = true /\
              year d * 372 + month d * 31 + day d + k
              <= year (clock 0) * 372 + month (clock 0) * 31 + day (clock 0) /\
              forall j, j <= k ->
                exists y m d0,
                  Script.sub_days j (year (clock 0), month (clock 0), day (clock 0))
                    = Some (y, m, d0) /\
                  year d * 372 + month d * 31 + day d + (k - j)
                  <= y * 372 + m * 31 + d0).
  { intros k req Hk. destruct (Hall k req Hk) as (d & df & now' & Hd & ->).
    exists d, df, now'. split; [reflexivity|].
    pose proof (Hvalid (Script.ticks s + 2 * k)) as Hv.
    destruct (sub_timedelta_days_valid _ _ _ Hv Hd) as [Hvd Hsub].
    destruct (Hday (Script.ticks s + 2 * k)) as (Ey & Em & Ed).
    rewrite Ey, Em, Ed in Hsub.
    apply valid_date_bounds in Hv as (Hy & Hm & Hdd & _).
    rewrite Ey in Hy. rewrite Em in Hm. rewrite Ey, Em, Ed in Hdd.
    split; [exact Hvd|]. split.
    - now destruct (sub_days_earlier _ _ _ _ _ _ _ (proj1 Hy) Hm Hdd Hsub).
    - intros j Hj. replace k with (j + (k - j)) in Hsub by lia.
      rewrite sub_days_split in Hsub.
      destruct (Script.sub_days j _) as [[[y m] d0]|] eqn:Ej; [|discriminate].
      exists y, m, d0. split; [reflexivity|].
      destruct (sub_days_earlier _ _ _ _ _ _ _ (proj1 Hy) Hm Hdd Ej)
        as [(Hy' & Hm' & Hd') _].
      now destruct (sub_days_earlier _ _ _ _ _ _ _ (proj1 Hy') Hm' Hd' Hsub). }
  assert (Hlt : forall i j ri rj, i < j ->
            reqs !! i = Some ri -> reqs !! j = Some rj -> Key ri <> Key rj).
  { intros i j ri rj Hij Hi Hj Hkey.
    destruct (Hord i ri Hi) as (di & dfi & ni & -> & Hvi & _ & Hi').
    destruct (Hord j rj Hj) as (dj & dfj & nj & -> & Hvj & _ & Hj').
    apply upload_key_inj in Hkey as (Ey & Em & Ed); [|assumption..].
    destruct (Hi' i ltac:(lia)) as (y & m & d0 & Hsi & Hlei).
    destruct (Hj' i ltac:(lia)) as (y' & m' & d0' & Hsj & Hlej).
    rewrite Hsi in Hsj. injection Hsj as <- <- <-.
    destruct (Hall i _ Hi) as (di' & dfi' & ni' & Hdi & Hreq).
    apply (f_equal Key) in Hreq.
    apply upload_key_inj in Hreq as (Ey' & Em' & Ed'); [|assumption|].
    2:{ exact (proj1 (sub_timedelta_days_valid _ _ _ (Hvalid _) Hdi)). }
    destruct (sub_timedelta_days_valid _ _ _ (Hvalid _) Hdi) as [_ Hsub].
    destruct (Hday (Script.ticks s + 2 * i)) as (Ey0 & Em0 & Ed0).
    rewrite Ey0, Em0, Ed0, Hsi in Hsub. injection Hsub as -> -> ->.
    lia. }
  apply NoDup_alt. intros i j x Hi Hj.
  apply list_lookup_fmap_Some in Hi as (ri & -> & Hri).
  apply list_lookup_fmap_Some in Hj as (rj & Hx & Hrj).
  destruct (Nat.lt_trichotomy i j) as [Hij|[->|Hij]]; [|reflexivity|].
  - exfalso. now apply (Hlt i j ri rj Hij Hri Hrj).
  - exfalso. symmetry in Hx. now apply (Hlt j i rj ri Hij Hrj Hri).
Qed.

Lemma historical_upload_keys_are_distinct_witness :
  NoDup
    (Key <$> Script.puts
               (Script.calls
                  (fst (Script.upload_historical_data Sample.least Sample.round2
                          Sample.standing_clock (fun _ => "")
                          (Sample.uploader_with Sample.store_accepting) 3
                          Sample.fresh)))).
Proof.
  apply (historical_upload_keys_are_distinct Sample.least Sample.round2
           Sample.standing_clock (fun _ => "")
           (Sample.uploader_with Sample.store_accepting) 3 Sample.fresh).
  - intros t. vm_compute. reflexivity.
  - intros t. repeat split.
  - exact eq_refl.
Defined.

(** ** The script: the JSON upload *)

(** The last character of a text that ends with a non-empty text is the
    last character of that ending. *)
Lemma last_char_app (a : string) c (b : string) :
  last (list_ascii_of_string (a +:+ String c b))
  = last (list_ascii_of_string (String c b)).
Proof.
  induction a as [|x a IH].
  - now rewrite string_app_nil_l.
  - rewrite string_app_cons.
    change (list_ascii_of_string (String x (a +:+ String c b)))
      with (x :: list_ascii_of_string (a +:+ String c b)).
    destruct (list_ascii_of_string (a +:+ String c b)) as [|y l] eqn:E.
    + destruct a; discriminate E.
    + rewrite <- IH. reflexivity.
Qed.

Lemma json_key_ends_with_n bucket to_json now now' df date folder :
  last (list_ascii_of_string
          (Key (Uploader.upload_json_request bucket to_json now now' df date folder)))
  = Some "n"%char.
Proof.
  unfold Uploader.upload_json_request. cbv zeta. cbn [Key].
  rewrite <- !string_app_assoc.
  rewrite last_char_app. reflexivity.
Qed.

Lemma csv_key_ends_with_v bucket to_csv now now' df date folder :
  last (list_ascii_of_string
          (Key (Uploader.upload_csv_request bucket to_csv now now' df date folder)))
  = Some "v"%char.
Proof.
  unfold Uploader.upload_csv_request. cbv zeta. cbn [Key].
  rewrite <- !string_app_assoc.
  rewrite last_char_app. reflexivity.
Qed.

Section JsonRuns.

Context {G : Type}.
Variable clock : nat -> datetime.
Variable to_json : list Uploader.transaction -> string.

(** The JSON upload, by what the store answers. *)
Lemma upload_json_data_run self df date folder (s : Script.state G) :
  let d := match date with None => clock (Script.ticks s) | Some d => d end in
  let t := match date with None => S (Script.ticks s) | Some _ => Script.ticks s end in
  let req := Uploader.upload_json_request (Script.bucket_name self) to_json
               d (clock t) df (Some d) folder in
  Script.upload_json_data clock to_json self df date folder s =
    match Script.put_object (Script.s3_client_of self) req with
    | None =>
        ({| Script.rng := Script.rng s; Script.ticks := S t;
            Script.calls :=
              Script.calls s ++
              [Script.PutObject req;
               Script.Print (Script.Uploaded (length df) (Script.bucket_name self)
                                             (Key req))] |},
         inr (Key req))
    | Some e =>
        ({| Script.rng := Script.rng s; Script.ticks := S t;
            Script.calls :=
              Script.calls s ++
              [Script.PutObject req;
               Script.Print (Script.ErrorUploading e)] |},
         inl e)
    end.
Proof.
  cbv zeta. unfold Script.upload_json_data.
  destruct date as [d|];
    unfold mbind, Script.IO_bind, mret, Script.IO_ret, Script.print,
      Script.do_call, Script.raise, Script.lift, Script.answer,
      Script.try_except, Script.datetime_now; cbn;
    destruct (Script.put_object (Script.s3_client_of self) _); cbn;
    rewrite <- !app_assoc; reflexivity.
Qed.

End JsonRuns.

(** A JSON upload sends one object to the uploader's bucket, with
    the content type [application/json], the frame's JSON text as body
    and the number of rows as [record_count]; its key is the key of no
    CSV upload. It returns the key when the store accepts the object,
    and otherwise prints the store's error and raises it again. *)
Theorem upload_json_data_reports_store_answer {G : Type}
    clock to_json self df date folder (s : Script.state G) :
  let run := Script.upload_json_data clock to_json self df date folder s in
  exists req,
    Script.puts (Script.calls (fst run)) = Script.puts (Script.calls s) ++ [req] /\
    Bucket req = Script.bucket_name self /\
    ContentType req = "application/json" /\
    Body req = to_json df /\
    metadata_value req "record_count" = Some (PyStr.str_nat (length df)) /\
    (forall bucket to_csv now now' df' date' folder',
       Key req <>
       Key (Uploader.upload_csv_request bucket to_csv now now' df' date' folder')) /\
    match Script.put_object (Script.s3_client_of self) req with
    | None =>
        snd run = inr (Key req) /\
        last (Script.calls (fst run))
        = Some (Script.Print
                  (Script.Uploaded (length df) (Script.bucket_name self) (Key req)))
    | Some e =>
        snd run = inl e /\
        last (Script.calls (fst run)) = Some (Script.Print (Script.ErrorUploading e))
    end.
Proof.
  cbv zeta. rewrite upload_json_data_run. cbv zeta.
  set (d := match date with None => clock (Script.ticks s) | Some d => d end).
  set (t := match date with None => S (Script.ticks s) | Some _ => Script.ticks s end).
  set (req := Uploader.upload_json_request _ _ _ _ _ _ _).
  exists req.
  assert (Hputs : forall m,
    Script.puts (Script.calls s ++ [Script.PutObject req; Script.Print m])
    = Script.puts (Script.calls s) ++ [req]).
  { intros m. now rewrite puts_app. }
  assert (Hlast : forall m,
    last (Script.calls s ++ [Script.PutObject req; Script.Print m])
    = Some (Script.Print m)).
  { intros m. change [Script.PutObject req; Script.Print m]
      with ([Script.PutObject req] ++ [Script.Print m]).
    rewrite app_assoc. apply last_snoc. }
  assert (Hkey : forall bucket to_csv now now' df' date' folder',
    Key req <>
    Key (Uploader.upload_csv_request bucket to_csv now now' df' date' folder')).
  { intros bucket to_csv now now' df' date' folder' E.
    pose proof (json_key_ends_with_n (Script.bucket_name self) to_json d (clock t)
                  df (Some d) folder) as Hn.
    fold req in Hn. rewrite E, csv_key_ends_with_v in Hn. discriminate Hn. }
  destruct (Script.put_object (Script.s3_client_of self) req) as [e|];
    cbn [fst snd Script.calls]; rewrite Hputs, Hlast;
    repeat split; try reflexivity; exact Hkey.
Qed.
